(** * euterpe: the MoFA keyframe-to-video pipeline, verified against its spec

  A shallow embedding of the pipeline stages of [src/mofa/agents]:
  the keyframe parser, the image stage, the video stage (with its poll
  loop and artifact download) and the result logger.

  Python dictionaries are finite maps from strings to JSON-like values,
  exceptions are explicit results, and the remote provider, the clock and
  the file system are explicit arguments and explicit state. *)

From Stdlib Require Import ZArith Lia Bool List Ascii String.
From Stdlib Require Import Decimal DecimalString DecimalZ DecimalPos.
From stdpp Require Import base option list gmap strings fin_maps.
From Equations Require Import Equations.

Set Warnings "-register-all".

Local Open Scope string_scope.
Local Open Scope list_scope.
Local Open Scope Z_scope.

(** ** Python values as they travel through JSON messages *)

Module Py.

(** The values [json.loads] produces (floats are left out: no stage
    computes with them). *)
Inductive pyval : Type :=
| PNone
| PBool (b : bool)
| PInt (z : Z)
| PStr (s : string)
| PList (l : list pyval)
| PDict (d : gmap string pyval).

(** A message, a frame, a result: [Dict[str, Any]]. *)
Abbreviation dict := (gmap string pyval).

(** [d.get(k)]: the value, or [None]. *)
Definition get (d : dict) (k : string) : pyval :=
  match d !! k with
  | Some v => v
  | None => PNone
  end.

(** [d.get(k, default)]. *)
Definition get_default (d : dict) (k : string) (dflt : pyval) : pyval :=
  match d !! k with
  | Some v => v
  | None => dflt
  end.

(** Python truthiness: [bool(v)]. *)
Definition truthy (v : pyval) : bool :=
  match v with
  | PNone => false
  | PBool b => b
  | PInt z => negb (Z.eqb z 0)
  | PStr s => negb (String.eqb s "")
  | PList l => match l with [] => false | _ => true end
  | PDict d => negb (bool_decide (d = ∅))
  end.

(** [v == "literal"]: only a string equals a string. *)
Definition eq_str (v : pyval) (s : string) : bool :=
  match v with
  | PStr t => String.eqb t s
  | _ => false
  end.

(** [k in d]. *)
Definition has_key (d : dict) (k : string) : bool :=
  bool_decide (is_Some (d !! k)).

(** [sum(1 for v in l if p(v))]. *)
Fixpoint sum1 {A : Type} (p : A -> bool) (l : list A) : Z :=
  match l with
  | [] => 0
  | v :: l' => (if p v then 1 else 0) + sum1 p l'
  end.

(** [len(l)] as a Python int. *)
Definition len {A : Type} (l : list A) : Z := Z.of_nat (length l).

(** A dictionary literal [{k1: v1, ...}] (the literals of the source have
    pairwise distinct keys). *)
Definition mkdict (l : list (string * pyval)) : dict := list_to_map l.

(** [str(p) if p else None] for an [Optional[Path]]: a [Path] is always
    truthy. *)
Definition str_or_none (p : option string) : pyval :=
  match p with
  | Some s => PStr s
  | None => PNone
  end.

(** A call that returns or raises. [Raise] carries a text standing for
    [str(e)]; the stages copy it into messages and logs and never look
    into it. *)
Inductive outcome (A : Type) : Type :=
| Ok (a : A)
| Raise (e : string).
Arguments Ok {A} a.
Arguments Raise {A} e.

(** Sequencing: an exception skips the rest of the block. *)
Definition bind {A B : Type} (m : outcome A) (k : A -> outcome B) : outcome B :=
  match m with
  | Ok a => k a
  | Raise e => Raise e
  end.

Notation "x <- m ;; k" := (bind m (fun x => k))
  (at level 100, m at next level, right associativity).

(** [item in v] for a string [item]: key test on a dict, substring test on
    a string, element test on a list, [TypeError] otherwise. *)
Definition contains (v : pyval) (item : string) : outcome bool :=
  match v with
  | PDict d => Ok (has_key d item)
  | PStr s => Ok (match String.index 0 item s with Some _ => true | None => false end)
  | PList l => Ok (existsb (fun x => eq_str x item) l)
  | _ => Raise "TypeError"
  end.

(** [v[k]] for a string key: only a dict can be subscripted that way. *)
Definition getitem (v : pyval) (k : string) : outcome pyval :=
  match v with
  | PDict d => match d !! k with Some x => Ok x | None => Raise "KeyError" end
  | _ => Raise "TypeError"
  end.

(** [v[0]]: first element of a list, first character of a string; a JSON
    dict has no integer key. *)
Definition getitem0 (v : pyval) : outcome pyval :=
  match v with
  | PList (x :: _) => Ok x
  | PList [] => Raise "IndexError"
  | PStr (String c _) => Ok (PStr (String c ""))
  | PStr EmptyString => Raise "IndexError"
  | PDict _ => Raise "KeyError"
  | _ => Raise "TypeError"
  end.

(** [len(v) > 0] for a value already known to be truthy. *)
Definition len_positive (v : pyval) : outcome bool :=
  match v with
  | PList l => Ok (match l with [] => false | _ => true end)
  | PStr s => Ok (negb (String.eqb s ""))
  | PDict d => Ok (negb (bool_decide (d = ∅)))
  | _ => Raise "TypeError"
  end.

(** [isinstance(v, dict)]. *)
Definition is_dict (v : pyval) : bool :=
  match v with PDict _ => true | _ => false end.

(** Decimal rendering of an int, as [str] and f-strings do. *)
Definition str_int (z : Z) : string := NilZero.string_of_int (Z.to_int z).

(** [pathlib]: [dir / name]; an absolute [name] replaces [dir]. *)
Definition path_join (dir name : string) : string :=
  if String.prefix "/" name then name else dir +:+ "/" +:+ name.

(** The local file system: path to content. *)
Abbreviation files := (gmap string string).

(** What the disk does to one [open(path, "wb")] followed by one
    [f.write(content)]. *)
Inductive disk_behaviour : Type :=
| DiskOk
| DiskOpenFails
| DiskWriteFails (written : nat).

(** An HTTP response as [requests.get] returns it: no status is an
    exception. *)
Record response : Type := {
  status_code : Z;
  content : string
}.

Section Formatting.

(** [repr] of a list or dict, which [str] falls back to; the stages never
    build identifiers from containers, so it stays a parameter. *)
Variable repr_container : pyval -> string.

(** [str(v)], as an f-string field renders it. *)
Definition str (v : pyval) : string :=
  match v with
  | PNone => "None"
  | PBool true => "True"
  | PBool false => "False"
  | PInt z => str_int z
  | PStr s => s
  | _ => repr_container v
  end.

End Formatting.

End Py.

Import Py.


(** ** Python text operations used by the keyframe grammar *)

Module Text.

(** [c.isspace()] on code points below 256. *)
Definition isspace (c : ascii) : bool :=
  let n := nat_of_ascii c in
  ((9 <=? n) && (n <=? 13) || (28 <=? n) && (n <=? 32)
   || (n =? 133) || (n =? 160))%nat.

(** [s.lstrip()]. *)
Fixpoint lstrip (s : string) : string :=
  match s with
  | String c s' => if isspace c then lstrip s' else s
  | EmptyString => EmptyString
  end.

(** [s.rstrip()]: a character stays when it or something after it is not
    white space. *)
Fixpoint rstrip (s : string) : string :=
  match s with
  | String c s' =>
      match rstrip s' with
      | EmptyString => if isspace c then EmptyString else String c EmptyString
      | t => String c t
      end
  | EmptyString => EmptyString
  end.

(** [s.strip()]. *)
Definition strip (s : string) : string := rstrip (lstrip s).

(** [c.lower()] on code points below 256: A-Z, and the Latin-1 capitals
    except the multiplication sign. *)
Definition lower_char (c : ascii) : ascii :=
  let n := nat_of_ascii c in
  if ((65 <=? n) && (n <=? 90)
      || (192 <=? n) && (n <=? 222) && negb (n =? 215))%nat
  then ascii_of_nat (n + 32) else c.

(** [s.lower()]. *)
Fixpoint lower (s : string) : string :=
  match s with
  | String c s' => String (lower_char c) (lower s')
  | EmptyString => EmptyString
  end.

(** [s.startswith(p)]. *)
Definition startswith (s p : string) : bool := String.prefix p s.

(** [":" in line] and [line.split(":", 1)] together: the text before and
    after the first colon, [None] when there is no colon. *)
Fixpoint split_colon (line : string) : option (string * string) :=
  match line with
  | EmptyString => None
  | String c rest =>
      if Ascii.eqb c ":" then Some (EmptyString, rest)
      else match split_colon rest with
           | Some (k, v) => Some (String c k, v)
           | None => None
           end
  end.

Definition is_digit (c : ascii) : bool :=
  let n := nat_of_ascii c in ((48 <=? n) && (n <=? 57))%nat.

Definition digit_value (c : ascii) : Z := Z.of_nat (nat_of_ascii c) - 48.

(** The digits of an [int] literal after the first one: a single
    underscore may sit between two digits. *)
Fixpoint int_digits (acc : Z) (s : string) : option Z :=
  match s with
  | EmptyString => Some acc
  | String c rest =>
      if is_digit c then int_digits (10 * acc + digit_value c) rest
      else if Ascii.eqb c "_" then
        match rest with
        | String d rest' =>
            if is_digit d then int_digits (10 * acc + digit_value d) rest'
            else None
        | EmptyString => None
        end
      else None
  end.

Definition int_unsigned (s : string) : option Z :=
  match s with
  | String c rest => if is_digit c then int_digits (digit_value c) rest else None
  | EmptyString => None
  end.

(** [int(value)] on an already stripped string: an optional sign and a
    decimal literal; [None] stands for [ValueError]. *)
Definition int_of (value : string) : option Z :=
  match value with
  | String "-" rest => Z.opp <$> int_unsigned rest
  | String "+" rest => int_unsigned rest
  | _ => int_unsigned value
  end.

(** [f.readlines()] in text mode: a line ends after a line feed, a
    carriage return, or the pair, each read as one line feed. *)
Fixpoint readlines_go (cur : string) (s : string) : list string :=
  match s with
  | EmptyString => if String.eqb cur "" then [] else [cur]
  | String c rest =>
      if Ascii.eqb c "010" then (cur +:+ String "010" "") :: readlines_go "" rest
      else if Ascii.eqb c "013" then
        match rest with
        | String "010" rest' => (cur +:+ String "010" "") :: readlines_go "" rest'
        | _ => (cur +:+ String "010" "") :: readlines_go "" rest
        end
      else readlines_go (cur +:+ String c "") rest
  end.

Definition readlines (text : string) : list string := readlines_go "" text.

End Text.

(** ** The process environment: [os.environ] *)

Module Environ.

Abbreviation environ := (gmap string string).

(** [os.environ.get(k)]. *)
Definition getenv (env : environ) (k : string) : pyval :=
  match env !! k with
  | Some s => PStr s
  | None => PNone
  end.

(** [os.environ.get(k, dflt)]. *)
Definition getenv_default (env : environ) (k dflt : string) : string :=
  match env !! k with
  | Some s => s
  | None => dflt
  end.

(** [int(os.environ.get(k, dflt))]: [int] allows white space around the
    literal and raises [ValueError] on anything else. *)
Definition int_setting (env : environ) (k dflt : string) : outcome Z :=
  match Text.int_of (Text.strip (getenv_default env k dflt)) with
  | Some z => Ok z
  | None => Raise "ValueError"
  end.

End Environ.

(** ** Keyframe parser: [keyframe_parser_agent.py] *)

Module KeyframeParser.

(** [class KeyframeData]: six attributes, each a Python value. *)
Record KeyframeData : Type := {
  prompt : pyval;
  negative_prompt : pyval;
  frame_number : pyval;
  timestamp : pyval;
  aspect_ratio : pyval;
  seed : pyval
}.

(** [KeyframeData.to_dict]. *)
Definition to_dict (kf : KeyframeData) : dict :=
  mkdict [("prompt", prompt kf);
          ("negative_prompt", negative_prompt kf);
          ("frame_number", frame_number kf);
          ("timestamp", timestamp kf);
          ("aspect_ratio", aspect_ratio kf);
          ("seed", seed kf)].

(** [KeyframeData.from_dict]. *)
Definition from_dict (data : dict) : KeyframeData :=
  {| prompt := get_default data "prompt" (PStr "");
     negative_prompt := get data "negative_prompt";
     frame_number := get data "frame_number";
     timestamp := get data "timestamp";
     aspect_ratio := get data "aspect_ratio";
     seed := get data "seed" |}.

(** The [KeyframeData(...)] built from [current_frame] at lines 92-98 and
    127-133; [timestamp] keeps its default [None]. *)
Definition keyframe_of (current_frame : dict) : KeyframeData :=
  {| prompt := get_default current_frame "prompt" (PStr "");
     negative_prompt := get current_frame "negative_prompt";
     frame_number := get current_frame "frame_number";
     timestamp := PNone;
     aspect_ratio := get_default current_frame "aspect_ratio" (PStr "16:9");
     seed := get current_frame "seed" |}.

(** [if current_frame and "prompt" in current_frame: keyframes.append(...)]. *)
Definition flush (keyframes : list KeyframeData) (current_frame : dict)
    : list KeyframeData :=
  if truthy (PDict current_frame) && has_key current_frame "prompt"
  then keyframes ++ [keyframe_of current_frame]
  else keyframes.

(** Lines 108-123: one [key: value] pair stored into [current_frame]. *)
Definition assign (current_frame : dict) (key value : string) : dict :=
  if String.eqb key "frame" || String.eqb key "frame_number" then
    match Text.int_of value with
    | Some n => <["frame_number" := PInt n]> current_frame
    | None => current_frame
    end
  else if String.eqb key "prompt" then
    <["prompt" := PStr value]> current_frame
  else if String.eqb key "negative_prompt" then
    <["negative_prompt" := PStr value]> current_frame
  else if String.eqb key "aspect_ratio" then
    <["aspect_ratio" := PStr value]> current_frame
  else if String.eqb key "seed" then
    match Text.int_of value with
    | Some n => <["seed" := PInt n]> current_frame
    | None => current_frame
    end
  else current_frame.

(** What one line of the file is, after [line.strip()]. *)
Inductive line_kind : Type :=
| Blank
| Delimiter
| Pair (key value : string)
| Other.

(** Lines 85-106: the tests the loop body makes on a line, in order. *)
Definition classify (raw : string) : line_kind :=
  let line := Text.strip raw in
  if String.eqb line "" || Text.startswith line "#" then Blank
  else if Text.startswith line "---" then Delimiter
  else match Text.split_colon line with
       | Some (key, value) => Pair (Text.lower (Text.strip key)) (Text.strip value)
       | None => Other
       end.

(** The [for line in lines] loop of [parse_keyframe_file] followed by the
    final append, with the two loop variables as accumulators. *)
Fixpoint parse_lines (lines : list string) (keyframes : list KeyframeData)
    (current_frame : dict) : list KeyframeData :=
  match lines with
  | [] => flush keyframes current_frame
  | raw :: rest =>
      match classify raw with
      | Blank | Other => parse_lines rest keyframes current_frame
      | Delimiter => parse_lines rest (flush keyframes current_frame) ∅
      | Pair key value =>
          parse_lines rest keyframes (assign current_frame key value)
      end
  end.

(** [parse_keyframe_file]: a missing file makes [open] raise. *)
Definition parse_keyframe_file (fs : files) (file_path : string)
    : outcome (list KeyframeData) :=
  match fs !! file_path with
  | Some text => Ok (parse_lines (Text.readlines text) [] ∅)
  | None => Raise "FileNotFoundError"
  end.

(** [Path(keyframes_file)]: only a string is a path; paths are kept in
    the form [pathlib] prints them. *)
Definition as_path (v : pyval) : outcome string :=
  match v with
  | PStr s => Ok s
  | _ => Raise "TypeError"
  end.

(** [process_input_message]. *)
Definition process_input_message (fs : files) (message : dict) : dict :=
  let keyframes_file := get message "keyframes_file" in
  let default_aspect_ratio := get_default message "default_aspect_ratio" (PStr "16:9") in
  let frame_id_prefix := get_default message "frame_id_prefix" (PStr "frame_") in
  if negb (truthy keyframes_file) then
    mkdict [("error", PStr "Missing required parameter 'keyframes_file'")]
  else
    match (keyframe_path <- as_path keyframes_file ;;
           keyframes_data <- parse_keyframe_file fs keyframe_path ;;
           Ok (keyframe_path, keyframes_data)) with
    | Ok (keyframe_path, keyframes_data) =>
        let serialized_keyframes := map (fun kf => PDict (to_dict kf)) keyframes_data in
        mkdict [("status", PStr "success");
                ("keyframes", PList serialized_keyframes);
                ("count", PInt (len serialized_keyframes));
                ("metadata", PDict (mkdict [
                    ("source_file", PStr keyframe_path);
                    ("default_aspect_ratio", default_aspect_ratio);
                    ("frame_id_prefix", frame_id_prefix)]))]
    | Raise e =>
        mkdict [("status", PStr "error");
                ("error", PStr e);
                ("metadata", PDict (mkdict [("source_file", keyframes_file)]))]
    end.

(** The [error_output] every [main] writes from its [except] clause. *)
Definition error_output (e : string) : dict :=
  mkdict [("status", PStr "error"); ("error", PStr e)].

(** [main]: [parsed] is what [json.loads] made of standard input; the
    result is the message written to standard output. A document that is
    not an object has no [get]. *)
Definition main (fs : files) (parsed : outcome pyval) : dict :=
  match parsed with
  | Ok (PDict message) => process_input_message fs message
  | Ok _ => error_output "AttributeError"
  | Raise e => error_output e
  end.

End KeyframeParser.

(** ** Artifact download, as both generation stages write it *)

Module Fetch.

(** The world a download touches: the remote server and the local disk. *)
Record network : Type := {
  http_get : pyval -> outcome response;
  disk : string -> disk_behaviour
}.

(** [response = requests.get(url)], then [with open(output_path, "wb") as f:
    f.write(response.content)]. The status code is not looked at, and a
    write that fails leaves what it wrote. *)
Definition download (net : network) (fs : files) (url : pyval)
    (output_path : string) : outcome unit * files :=
  match http_get net url with
  | Raise e => (Raise e, fs)
  | Ok resp =>
      match disk net output_path with
      | DiskOpenFails => (Raise "OSError", fs)
      | DiskWriteFails n =>
          (Raise "OSError", <[output_path := String.substring 0 n (content resp)]> fs)
      | DiskOk => (Ok (), <[output_path := content resp]> fs)
      end
  end.

End Fetch.

(** ** Image stage: [image_generator_agent.py] *)

Module ImageGenerator.

(** The arguments of [ImageGenerationRequest]. *)
Record image_request : Type := {
  req_model_name : string;
  req_prompt : pyval;
  req_negative_prompt : pyval;
  req_aspect_ratio : pyval;
  req_seed : pyval
}.

(** The remote provider as the image stage uses it, the client being
    constructed: building and submitting the request gives a task id or
    raises; the blocking wait gives the URLs of [task_result.images] (none
    when the result is empty) or raises. *)
Record provider : Type := {
  create_image_generation_task : image_request -> outcome string;
  wait_for_image_generation_completion : string -> outcome (list pyval);
  net : Fetch.network
}.

(** [a or b]. *)
Definition py_or (a b : pyval) : pyval := if truthy a then a else b.

(** [prompt[:30]]: a string or a list can be sliced. *)
Definition sliceable (v : pyval) : bool :=
  match v with
  | PStr _ | PList _ => true
  | _ => false
  end.

Section Stage.

Variable repr_container : pyval -> string.
Variable p : provider.
Variable output_dir : string.

(** [ImageGenerator.generate]: the path of the downloaded image, or [None]
    after any exception or an empty result. *)
Definition generate (fs : files) (req : image_request) (frame_id : pyval)
    : option string * files :=
  match create_image_generation_task p req with
  | Raise _ => (None, fs)
  | Ok task_id =>
      match wait_for_image_generation_completion p task_id with
      | Raise _ => (None, fs)
      | Ok [] => (None, fs)
      | Ok (image_url :: _) =>
          let filename :=
            if truthy frame_id then str repr_container frame_id +:+ ".png"
            else "image_" +:+ task_id +:+ ".png" in
          let output_path := path_join output_dir filename in
          match Fetch.download (net p) fs image_url output_path with
          | (Ok _, fs') => (Some output_path, fs')
          | (Raise _, fs') => (None, fs')
          end
      end
  end.

(** Lines 162-163: the frame number and the frame id of the keyframe at
    position [idx]. *)
Definition frame_number_of (idx : nat) (keyframe : dict) : pyval :=
  py_or (get keyframe "frame_number") (PInt (Z.of_nat idx + 1)).

Definition frame_id_of (frame_id_prefix : pyval) (idx : nat) (keyframe : dict)
    : string :=
  str repr_container frame_id_prefix +:+ str repr_container (frame_number_of idx keyframe).

(** The result record of lines 184-191. *)
Definition result_of (frame_id : string) (frame_number prompt : pyval)
    (image_path : option string) (keyframe : dict) : dict :=
  mkdict [("frame_id", PStr frame_id);
          ("frame_number", frame_number);
          ("prompt", prompt);
          ("image_path", str_or_none image_path);
          ("status", PStr (match image_path with Some _ => "success" | None => "failed" end));
          ("original_keyframe", PDict keyframe)].

(** The loop of [process_keyframes] from position [idx] on. An element
    that is no dict has no [get]; a prompt that cannot be sliced breaks
    the log line: both exceptions leave the function. *)
Fixpoint process_from (model_name : string) (frame_id_prefix : pyval)
    (idx : nat) (keyframes_data : list pyval) (fs : files)
    (results : list dict) : outcome (list dict) * files :=
  match keyframes_data with
  | [] => (Ok results, fs)
  | PDict keyframe :: rest =>
      let frame_number := frame_number_of idx keyframe in
      let frame_id := frame_id_of frame_id_prefix idx keyframe in
      let prompt := get_default keyframe "prompt" (PStr "") in
      let negative_prompt := get_default keyframe "negative_prompt" (PStr "") in
      let aspect_ratio := get_default keyframe "aspect_ratio" (PStr "16:9") in
      let seed := get keyframe "seed" in
      if sliceable prompt then
        let '(image_path, fs') :=
          generate fs
            {| req_model_name := model_name; req_prompt := prompt;
               req_negative_prompt := negative_prompt;
               req_aspect_ratio := aspect_ratio; req_seed := seed |}
            (PStr frame_id) in
        process_from model_name frame_id_prefix (S idx) rest fs'
          (results ++ [result_of frame_id frame_number prompt image_path keyframe])
      else (Raise "TypeError", fs)
  | _ :: _ => (Raise "AttributeError", fs)
  end.

(** [process_keyframes]. *)
Definition process_keyframes (keyframes_data : list pyval) (fs : files)
    (model_name : string) (frame_id_prefix : pyval)
    : outcome (list dict) * files :=
  process_from model_name frame_id_prefix 0 keyframes_data fs [].

(** [message.get('metadata', {}).get('frame_id_prefix', 'frame_')]: a
    metadata entry that is no dict has no [get]. *)
Definition prefix_of (message : dict) : outcome pyval :=
  match get_default message "metadata" (PDict ∅) with
  | PDict metadata => Ok (get_default metadata "frame_id_prefix" (PStr "frame_"))
  | _ => Raise "AttributeError"
  end.

(** [process_input_message], [model_name] being read from the
    environment. The metadata lookup precedes the [try]: its exception
    reaches [main_async], which answers with [error_output]. A truthy
    ["keyframes"] entry that is no list is a string or a dict, whose
    elements are strings without [get], or cannot be enumerated at all. *)
Definition process_input_message (model_name : string) (fs : files)
    (message : dict) : dict * files :=
  let keyframes := get_default message "keyframes" (PList []) in
  match prefix_of message with
  | Raise e => (mkdict [("status", PStr "error"); ("error", PStr e)], fs)
  | Ok frame_id_prefix =>
      if negb (truthy keyframes) then
        (mkdict [("status", PStr "error");
                 ("error", PStr "No keyframes provided in input message")], fs)
      else
        match keyframes with
        | PList keyframes_data =>
            match process_keyframes keyframes_data fs model_name frame_id_prefix with
            | (Ok results, fs') =>
                (mkdict [("status", PStr "success");
                         ("frames", PList (map PDict results));
                         ("count", PInt (len results));
                         ("metadata", PDict (mkdict [
                             ("model_name", PStr model_name);
                             ("output_dir", PStr output_dir)]))], fs')
            | (Raise e, fs') =>
                (mkdict [("status", PStr "error"); ("error", PStr e)], fs')
            end
        | PStr _ | PDict _ =>
            (mkdict [("status", PStr "error"); ("error", PStr "AttributeError")], fs)
        | _ => (mkdict [("status", PStr "error"); ("error", PStr "TypeError")], fs)
        end
  end.

End Stage.

(** [load_kling_config]: the configuration, and whether the warning about
    missing credentials is logged. A timeout or retry count that is no
    integer raises [ValueError]. *)
Definition load_kling_config (env : Environ.environ) : outcome (dict * bool) :=
  timeout <- Environ.int_setting env "KLING_TIMEOUT" "60" ;;
  max_retries <- Environ.int_setting env "KLING_MAX_RETRIES" "3" ;;
  let config :=
    mkdict [("access_key", Environ.getenv env "KLING_ACCESS_KEY");
            ("secret_key", Environ.getenv env "KLING_SECRET_KEY");
            ("api_base_url",
             PStr (Environ.getenv_default env "KLING_API_BASE_URL"
                     "https://api.klingai.com"));
            ("timeout", PInt timeout);
            ("max_retries", PInt max_retries)] in
  Ok (config,
      negb (truthy (get config "access_key"))
      || negb (truthy (get config "secret_key"))).

End ImageGenerator.

(** ** Video stage: [video_generator_agent.py] *)

Module VideoGenerator.

(** The arguments of [ImageToVideoRequest]. *)
Record video_request : Type := {
  req_model_name : string;
  req_image : string;
  req_prompt : pyval;
  req_mode : string;
  req_duration : string
}.

(** The remote provider as the video stage uses it, the client being
    constructed. [create_image_to_video_task] stands for building the
    request and submitting it: a task id, or an exception.
    [request_status id k] answers the [k]-th status request for task [id]
    (counting from 0): a JSON object, or an exception of the transport.
    [enhance_prompt_with_dify] never raises: it falls back to its
    argument. *)
Record provider : Type := {
  b64encode : string -> string;
  create_image_to_video_task : video_request -> outcome string;
  request_status : string -> nat -> outcome dict;
  enhance_prompt_with_dify : pyval -> pyval;
  net : Fetch.network
}.

(** What the stage writes to its logger, one constructor per call site. *)
Inductive log_event : Type :=
| TaskCreated (task_id : string)
| StatusError (e : string)
| TaskStatus (status : pyval)
| TaskCompleted
| TaskFailed (error_msg : pyval)
| Timeout
| Downloaded (output_path : string)
| NoVideo
| GenerateError (e : string)
| Skipping (frame_id : pyval)
| Processing (frame_id : pyval).

(** Lines 115-130: what one status response means for the loop. *)
Inductive verdict : Type :=
| Succeed (data : dict)
| Failed
| Pending.

Definition inspect_response (response : dict) : verdict * list log_event :=
  match response !! "data" with
  | Some (PDict data) =>
      match data !! "task_status" with
      | Some status =>
          if eq_str status "succeed" then
            (Succeed data, [TaskStatus status; TaskCompleted])
          else if eq_str status "failed" then
            (Failed,
             [TaskStatus status;
              TaskFailed (get_default data "task_status_msg" (PStr "Unknown error"))])
          else (Pending, [TaskStatus status])
      | None => (Pending, [])
      end
  | _ => (Pending, [])
  end.

(** How the [while] loop of lines 110-138 is left. *)
Inductive loop_exit : Type :=
| Break (completed_task : dict)
| ReturnNone
| TimedOut
| Raised (e : string).

Record loop_end : Type := {
  exit : loop_exit;
  polls : nat;
  elapsed : Z;
  log : list log_event
}.

(** The [while elapsed < max_wait_time: ... else: ...] loop. [polls]
    counts the status requests made so far, [elapsed] is the loop's own
    clock, advanced by [check_interval] after each sleep. The source fixes
    [check_interval] to the literal 5; a positive interval is what makes
    the loop end. *)
Equations? poll_loop (max_wait_time : Z) (check_interval : positive)
    (get_task_status : nat -> outcome dict)
    (polls : nat) (elapsed : Z) (log : list log_event)
    : loop_end by wf (Z.to_nat (max_wait_time - elapsed)) lt :=
  poll_loop max_wait_time check_interval get_task_status polls elapsed log
      with Z_lt_dec elapsed max_wait_time := {
    | right _ =>
        {| exit := TimedOut; polls := polls; elapsed := elapsed;
           log := log ++ [Timeout] |}
    | left _ with get_task_status polls := {
      | Raise e =>
          {| exit := Raised e; polls := S polls; elapsed := elapsed;
             log := log ++ [StatusError e] |}
      | Ok response with inspect_response response := {
        | (Succeed data, l) =>
            {| exit := Break data; polls := S polls; elapsed := elapsed;
               log := log ++ l |}
        | (Failed, l) =>
            {| exit := ReturnNone; polls := S polls; elapsed := elapsed;
               log := log ++ l |}
        | (Pending, l) =>
            poll_loop max_wait_time check_interval get_task_status
              (S polls) (elapsed + Z.pos check_interval) (log ++ l) } } }.
Proof. lia. Qed.

(** Lines 141-147: the URL of the first video of the completed task.
    [Ok None] is the fall-through to "No video generated"; a value of the
    wrong shape raises inside the chain of tests. *)
Definition video_url_of (completed_task : dict) : outcome (option pyval) :=
  if truthy (PDict completed_task) && has_key completed_task "task_result"
     && truthy (get completed_task "task_result")
  then
    let task_result := get completed_task "task_result" in
    has_videos <- contains task_result "videos" ;;
    if has_videos then
      videos <- getitem task_result "videos" ;;
      if truthy videos then
        nonempty <- len_positive videos ;;
        if nonempty then
          first <- getitem0 videos ;;
          if is_dict first then
            has_url <- contains first "url" ;;
            if has_url then
              video_url <- getitem first "url" ;;
              Ok (Some video_url)
            else Ok None
          else Ok None
        else Ok None
      else Ok None
    else Ok None
  else Ok None.

Section Stage.

Variable repr_container : pyval -> string.
Variable p : provider.
Variable output_dir : string.

(** [VideoGenerator.generate_from_image]: the path of the downloaded
    video or [None], the file system afterwards, and the log. Every
    exception ends in the handler of lines 161-165. *)
Definition generate_from_image (fs : files) (image_path : string)
    (prompt frame_id : pyval) (mode duration model_name : string)
    : option string * files * list log_event :=
  match fs !! image_path with
  | None => (None, fs, [GenerateError "FileNotFoundError"])
  | Some image =>
      let request :=
        {| req_model_name := model_name; req_image := b64encode p image;
           req_prompt := prompt; req_mode := mode; req_duration := duration |} in
      match create_image_to_video_task p request with
      | Raise e => (None, fs, [GenerateError e])
      | Ok task_id =>
          let max_wait_time := 300 in
          let check_interval := 5%positive in
          let r := poll_loop max_wait_time check_interval
                     (request_status p task_id) 0 0 [TaskCreated task_id] in
          match exit r with
          | Raised e => (None, fs, log r ++ [GenerateError e])
          | ReturnNone => (None, fs, log r)
          | TimedOut => (None, fs, log r)
          | Break completed_task =>
              match video_url_of completed_task with
              | Raise e => (None, fs, log r ++ [GenerateError e])
              | Ok None => (None, fs, log r ++ [NoVideo])
              | Ok (Some video_url) =>
                  let output_path :=
                    path_join output_dir (str repr_container frame_id +:+ ".mp4") in
                  match Fetch.download (net p) fs video_url output_path with
                  | (Ok _, fs') =>
                      (Some output_path, fs', log r ++ [Downloaded output_path])
                  | (Raise e, fs') => (None, fs', log r ++ [GenerateError e])
                  end
              end
          end
      end
  end.

(** The record appended at lines 246-251. *)
Definition skipped_result (frame_id : pyval) (frame : dict) : dict :=
  mkdict [("frame_id", frame_id);
          ("status", PStr "skipped");
          ("reason", PStr "No image available");
          ("original_frame", PDict frame)].

(** The record appended at lines 271-279. *)
Definition result_of (frame_id image_path : pyval) (video_path : option string)
    (prompt : pyval) (frame : dict) : dict :=
  mkdict [("frame_id", frame_id);
          ("image_path", image_path);
          ("video_path", str_or_none video_path);
          ("prompt", prompt);
          ("status", PStr (match video_path with Some _ => "success" | None => "failed" end));
          ("original_frame", PDict frame)].

(** The loop of [process_frame_images]. An element that is no dict has no
    [get], and [Path(image_path)] takes a string only: both exceptions
    leave the function. *)
Fixpoint process_from (mode duration model_name : string) (use_dify : bool)
    (frames_data : list pyval) (fs : files) (results : list dict)
    (lg : list log_event) : outcome (list dict) * files * list log_event :=
  match frames_data with
  | [] => (Ok results, fs, lg)
  | PDict frame :: rest =>
      let frame_id := get frame "frame_id" in
      let image_path := get frame "image_path" in
      let prompt := get_default frame "prompt" (PStr "") in
      if negb (truthy image_path) then
        process_from mode duration model_name use_dify rest fs
          (results ++ [skipped_result frame_id frame]) (lg ++ [Skipping frame_id])
      else
        let prompt := if use_dify then enhance_prompt_with_dify p prompt else prompt in
        match image_path with
        | PStr path =>
            let '(video_path, fs', l) :=
              generate_from_image fs path prompt frame_id mode duration model_name in
            process_from mode duration model_name use_dify rest fs'
              (results ++ [result_of frame_id image_path video_path prompt frame])
              (lg ++ [Processing frame_id] ++ l)
        | _ => (Raise "TypeError", fs, lg ++ [Processing frame_id])
        end
  | _ :: _ => (Raise "AttributeError", fs, lg)
  end.

(** [process_frame_images]. *)
Definition process_frame_images (frames_data : list pyval) (fs : files)
    (model_name mode duration : string) (use_dify : bool)
    : outcome (list dict) * files * list log_event :=
  process_from mode duration model_name use_dify frames_data fs [] [].

(** [process_input_message], the four settings being read from the
    environment. A truthy ["frames"] entry that is no list is a string or
    a dict, whose elements are strings without [get], or cannot be
    iterated at all. *)
Definition process_input_message (model_name mode duration : string)
    (use_dify : bool) (fs : files) (message : dict) : dict * files :=
  let frames := get_default message "frames" (PList []) in
  if negb (truthy frames) then
    (mkdict [("status", PStr "error");
             ("error", PStr "No frames provided in input message")], fs)
  else
    match frames with
    | PList frames_data =>
        match process_frame_images frames_data fs model_name mode duration use_dify with
        | (Ok results, fs', _) =>
            (mkdict [("status", PStr "success");
                     ("videos", PList (map PDict results));
                     ("count", PInt (len results));
                     ("metadata", PDict (mkdict [
                         ("model_name", PStr model_name);
                         ("output_dir", PStr output_dir);
                         ("mode", PStr mode);
                         ("duration", PStr duration);
                         ("dify_used", PBool use_dify)]))], fs')
        | (Raise e, fs', _) =>
            (mkdict [("status", PStr "error"); ("error", PStr e)], fs')
        end
    | PStr _ | PDict _ =>
        (mkdict [("status", PStr "error"); ("error", PStr "AttributeError")], fs)
    | _ => (mkdict [("status", PStr "error"); ("error", PStr "TypeError")], fs)
    end.

End Stage.

(** [load_kling_config]: the configuration, and whether the warning about
    missing credentials is logged. A timeout or retry count that is no
    integer raises [ValueError]. *)
Definition load_kling_config (env : Environ.environ) : outcome (dict * bool) :=
  timeout <- Environ.int_setting env "KLING_TIMEOUT" "120" ;;
  max_retries <- Environ.int_setting env "KLING_MAX_RETRIES" "3" ;;
  let config :=
    mkdict [("access_key", Environ.getenv env "KLING_ACCESS_KEY");
            ("secret_key", Environ.getenv env "KLING_SECRET_KEY");
            ("api_base_url",
             PStr (Environ.getenv_default env "KLING_API_BASE_URL"
                     "https://api.klingai.com"));
            ("timeout", PInt timeout);
            ("max_retries", PInt max_retries)] in
  Ok (config,
      negb (truthy (get config "access_key"))
      || negb (truthy (get config "secret_key"))).

End VideoGenerator.

(** ** Result logger: [result_logger_agent.py] *)

Module ResultLogger.

(** What a file of the log directory holds: the JSON document that
    [json.dump] wrote, or the text of a summary. *)
Inductive document : Type :=
| Json (v : pyval)
| Markdown (text : string).

(** The log directory: path to document. *)
Abbreviation store := (gmap string document).

(** [datetime.datetime.now()], rendered both ways the logger uses it. *)
Record clock : Type := {
  strftime : string;
  isoformat : string
}.

Definition is_success (v : dict) : bool := eq_str (get v "status") "success".
Definition is_failed (v : dict) : bool := eq_str (get v "status") "failed".

(** Lines 55-60: the ["summary"] entry of [log_entry]. *)
Definition summary_of (video_results : list dict) (music_result : option dict)
    : dict :=
  mkdict [("video_frames", PInt (len video_results));
          ("successful_videos", PInt (sum1 is_success video_results));
          ("failed_videos", PInt (sum1 is_failed video_results));
          ("music_generated",
           PBool (match music_result with
                  | None => false
                  | Some m => eq_str (get m "status") "success"
                  end))].

(** Lines 50-61: [log_entry]. *)
Definition log_entry_of (run_id timestamp : string) (video_results : list dict)
    (music_result : option dict) : dict :=
  mkdict [("run_id", PStr run_id);
          ("timestamp", PStr timestamp);
          ("video_results", PList (map PDict video_results));
          ("music_result",
           match music_result with Some m => PDict m | None => PNone end);
          ("summary", PDict (summary_of video_results music_result))].

(** [v[:50]] followed by ["..."] when [v] is longer: [v] has to be a
    string for the concatenation to work. *)
Definition clip50 (v : pyval) : outcome string :=
  match v with
  | PStr s =>
      Ok (String.substring 0 50 s
          +:+ (if (50 <? String.length s)%nat then "..." else ""))
  | _ => Raise "TypeError"
  end.

(** ["\n".join(lines)]. *)
Fixpoint join_lines (lines : list string) : string :=
  match lines with
  | [] => ""
  | [l] => l
  | l :: rest => l +:+ String "010" "" +:+ join_lines rest
  end.

Section Logger.

Variable repr_container : pyval -> string.
Variable output_dir : string.

(** Lines 104-118: the section of one video, [i] counting from 0. *)
Definition video_section (i : nat) (video : dict) : outcome (list string) :=
  let frame_id :=
    get_default video "frame_id" (PStr ("Frame " +:+ str_int (Z.of_nat i + 1))) in
  let status := get_default video "status" (PStr "unknown") in
  let video_path := get_default video "video_path" (PStr "Not available") in
  let image_path := get_default video "image_path" (PStr "Not available") in
  prompt <- clip50 (get_default video "prompt" (PStr "")) ;;
  Ok ["### " +:+ str repr_container frame_id;
      "- Status: " +:+ str repr_container status;
      "- Video: " +:+ str repr_container video_path;
      "- Source image: " +:+ str repr_container image_path;
      "- Prompt: " +:+ prompt;
      ""].

Fixpoint video_sections (i : nat) (video_results : list dict)
    : outcome (list string) :=
  match video_results with
  | [] => Ok []
  | video :: rest =>
      here <- video_section i video ;;
      there <- video_sections (S i) rest ;;
      Ok (here ++ there)
  end.

(** Lines 121-133: the music section; [metadata] has to be a dict. *)
Definition music_section (music_result : option dict) : outcome (list string) :=
  match music_result with
  | None => Ok []
  | Some m =>
      if truthy (PDict m) then
        let music_status := get_default m "status" (PStr "unknown") in
        let music_path := get_default m "music_path" (PStr "Not available") in
        match get_default m "metadata" (PDict ∅) with
        | PDict metadata =>
            music_prompt <- clip50 (get_default metadata "prompt" (PStr "")) ;;
            Ok ["## Music Result";
                "- Status: " +:+ str repr_container music_status;
                "- File: " +:+ str repr_container music_path;
                "- Prompt: " +:+ music_prompt;
                ""]
        | _ => Raise "AttributeError"
        end
      else Ok []
  end.

(** [_generate_markdown_summary]: the text written to [output_file], or
    the exception raised before the file is opened. The arguments are
    the entries the function reads back from [log_entry]. *)
Definition markdown_summary (run_id timestamp : string)
    (video_results : list dict) (music_result : option dict)
    : outcome string :=
  let head :=
    ["# Workflow Results Summary - " +:+ run_id;
     "Generated on: " +:+ timestamp;
     "";
     "## Overview";
     "- Total video frames: " +:+ str_int (len video_results);
     "- Successful videos: " +:+ str_int (sum1 is_success video_results);
     "- Failed videos: " +:+ str_int (sum1 is_failed video_results);
     "- Music track generated: "
       +:+ (match music_result with
            | Some m => if eq_str (get m "status") "success" then "Yes" else "No"
            | None => "No"
            end);
     "";
     "## Video Results";
     ""] in
  videos <- video_sections 0 video_results ;;
  music <- music_section music_result ;;
  Ok (join_lines (head ++ videos ++ music)).

(** [ResultLogger.log_results]: the path of the log file (or the
    exception of the summary writer) and the log directory afterwards.
    Both files are opened in mode ['w']. *)
Definition log_results (now : clock) (fs : store) (video_results : list dict)
    (music_result : option dict) (run_id : option string)
    : outcome string * store :=
  let run_id :=
    match run_id with
    | Some r => if String.eqb r "" then "run_" +:+ strftime now else r
    | None => "run_" +:+ strftime now
    end in
  let log_entry :=
    log_entry_of run_id (isoformat now) video_results music_result in
  let log_file := path_join output_dir (run_id +:+ ".json") in
  let fs1 := <[log_file := Json (PDict log_entry)]> fs in
  let summary_file := path_join output_dir (run_id +:+ "_summary.md") in
  match markdown_summary run_id (isoformat now) video_results music_result with
  | Ok text => (Ok log_file, <[summary_file := Markdown text]> fs1)
  | Raise e => (Raise e, fs1)
  end.

(** The elements of a list when all of them are dicts. *)
Fixpoint dicts_of (l : list pyval) : option (list dict) :=
  match l with
  | [] => Some []
  | PDict d :: rest =>
      match dicts_of rest with
      | Some ds => Some (d :: ds)
      | None => None
      end
  | _ :: _ => None
  end.

(** What [len(video_results)] and the loops [for v in video_results] with
    their [v.get] make of a value: the dicts of a list; nothing for an
    empty string or an empty dict; [AttributeError] at an element that is
    no dict (among them the characters of a string and the keys of a
    dict); [TypeError] for a value without a length. *)
Definition iterable_results (video_results : pyval) : outcome (list dict) :=
  match video_results with
  | PList l =>
      match dicts_of l with
      | Some ds => Ok ds
      | None => Raise "AttributeError"
      end
  | PStr s => if String.eqb s "" then Ok [] else Raise "AttributeError"
  | PDict d => if bool_decide (d = ∅) then Ok [] else Raise "AttributeError"
  | _ => Raise "TypeError"
  end.

(** [ResultLogger.log_results] once more, for a caller that hands over
    the value [raw] it read from a message, [video_results] being its
    elements: the entry stores [raw] itself. *)
Definition log_results_on (now : clock) (fs : store) (raw : pyval)
    (video_results : list dict) (music_result : option dict)
    (run_id : option string) : outcome string * store :=
  let run_id :=
    match run_id with
    | Some r => if String.eqb r "" then "run_" +:+ strftime now else r
    | None => "run_" +:+ strftime now
    end in
  let log_entry :=
    <["video_results" := raw]>
      (log_entry_of run_id (isoformat now) video_results music_result) in
  let log_file := path_join output_dir (run_id +:+ ".json") in
  let fs1 := <[log_file := Json (PDict log_entry)]> fs in
  let summary_file := path_join output_dir (run_id +:+ "_summary.md") in
  match markdown_summary run_id (isoformat now) video_results music_result with
  | Ok text => (Ok log_file, <[summary_file := Markdown text]> fs1)
  | Raise e => (Raise e, fs1)
  end.

(** [process_input_messages], the log directory being there. An
    exception of the counting loops comes before anything is written. *)
Definition process_input_messages (now : clock) (fs : store)
    (video_message music_message : dict) : dict * store :=
  let video_results := get_default video_message "videos" (PList []) in
  let run_id := "run_" +:+ strftime now in
  let failure (e : string) :=
    mkdict [("status", PStr "error"); ("error", PStr e); ("run_id", PStr run_id)] in
  match iterable_results video_results with
  | Raise e => (failure e, fs)
  | Ok results =>
      match log_results_on now fs video_results results (Some music_message)
              (Some run_id) with
      | (Raise e, fs') => (failure e, fs')
      | (Ok log_file, fs') =>
          (mkdict [("status", PStr "success");
                   ("run_id", PStr run_id);
                   ("summary", PDict (mkdict [
                       ("total_frames", PInt (len results));
                       ("successful_videos", PInt (sum1 is_success results));
                       ("failed_videos", PInt (sum1 is_failed results));
                       ("music_generated",
                        PBool (eq_str (get music_message "status") "success"));
                       ("log_file", PStr log_file)]));
                   ("video_paths",
                    PList (map (fun v => get v "video_path")
                             (List.filter is_success results)));
                   ("music_path", get music_message "music_path")], fs')
      end
  end.

(** The [error_output] of [main]. *)
Definition error_output (e : string) : dict :=
  mkdict [("status", PStr "error"); ("error", PStr e)].

(** The two messages [main] takes out of its input, after the two log
    lines that look into them: the video message has to be a dict whose
    ["videos"] has a length, the music message a dict. *)
Definition split_input (message : dict) : outcome (dict * dict) :=
  match get_default message "video_frame_in" (PDict ∅) with
  | PDict video_message =>
      match get_default video_message "videos" (PList []) with
      | PList _ | PStr _ | PDict _ =>
          match get_default message "music_track_in" (PDict ∅) with
          | PDict music_message => Ok (video_message, music_message)
          | _ => Raise "AttributeError"
          end
      | _ => Raise "TypeError"
      end
  | _ => Raise "AttributeError"
  end.

(** [main]: [parsed] is what [json.loads] made of standard input. *)
Definition main (now : clock) (fs : store) (parsed : outcome pyval)
    : dict * store :=
  match parsed with
  | Ok (PDict message) =>
      match split_input message with
      | Ok (video_message, music_message) =>
          process_input_messages now fs video_message music_message
      | Raise e => (error_output e, fs)
      end
  | Ok _ => (error_output "AttributeError", fs)
  | Raise e => (error_output e, fs)
  end.

End Logger.

End ResultLogger.

(** ** Music stage: [music_generator_agent.py] *)

Module MusicGenerator.

(** The arguments of [BeatovenClient.generate_music]. *)
Record music_request : Type := {
  req_prompt : pyval;
  req_duration : Z;
  req_format : string;
  req_output_path : string;
  req_filename : pyval
}.

(** The Beatoven package as the stage sees it: whether it could be
    imported, the API key of its own settings, and the client call, which
    gives the path of the audio file or raises. *)
Record beatoven : Type := {
  available : bool;
  settings_api_key : pyval;
  generate_music : music_request -> outcome string
}.

(** [load_beatoven_config]: the configuration, and whether the warning
    about the missing key is logged. *)
Definition load_beatoven_config (env : Environ.environ) : outcome (dict * bool) :=
  default_duration <- Environ.int_setting env "DEFAULT_DURATION" "180" ;;
  polling_interval <- Environ.int_setting env "POLLING_INTERVAL" "5" ;;
  request_timeout <- Environ.int_setting env "REQUEST_TIMEOUT" "30" ;;
  download_timeout <- Environ.int_setting env "DOWNLOAD_TIMEOUT" "60" ;;
  let config :=
    mkdict [("api_key", Environ.getenv env "BEATOVEN_API_KEY");
            ("api_url",
             PStr (Environ.getenv_default env "BEATOVEN_API_URL"
                     "https://api.beatoven.ai/v1"));
            ("output_dir",
             PStr (Environ.getenv_default env "BEATOVEN_OUTPUT_DIR"
                     "workflow/outputs/music"));
            ("default_duration", PInt default_duration);
            ("default_format",
             PStr (Environ.getenv_default env "DEFAULT_FORMAT" "mp3"));
            ("default_filename",
             PStr (Environ.getenv_default env "DEFAULT_FILENAME" "background_music"));
            ("polling_interval", PInt polling_interval);
            ("request_timeout", PInt request_timeout);
            ("download_timeout", PInt download_timeout)] in
  Ok (config, negb (truthy (get config "api_key"))).

(** The key [MusicGenerator.__init__] leaves in the settings: the one it
    is given when that is truthy, the package's own otherwise. *)
Definition api_key_in_use (b : beatoven) (api_key : pyval) : pyval :=
  if truthy api_key then api_key else settings_api_key b.

(** [MusicGenerator.generate] on a generator made with [api_key] and
    [output_dir]: the path of the audio file, or [None]. *)
Definition generate (b : beatoven) (api_key : pyval) (output_dir : string)
    (prompt : pyval) (duration : Z) (format : string) (filename : pyval)
    : option string :=
  if negb (available b) then None
  else if negb (truthy (api_key_in_use b api_key)) then None
  else if ImageGenerator.sliceable prompt then
    match generate_music b
            {| req_prompt := prompt; req_duration := duration;
               req_format := format; req_output_path := output_dir;
               req_filename := filename |} with
    | Ok output_path => Some output_path
    | Raise _ => None
    end
  else None.

Definition default_prompt : string :=
  "Create a calming, atmospheric background music suitable for video content".

(** [process_music_request]; [Raise] is the [ValueError] of the
    configuration, which leaves the function. *)
Definition process_music_request (env : Environ.environ) (b : beatoven)
    (message : dict) : outcome dict :=
  let prompt := get message "music_prompt" in
  let filename := get_default message "music_filename" (PStr "background_music") in
  loaded <- load_beatoven_config env ;;
  let config := loaded.1 in
  (* config['output_dir'], config['default_format'], config['default_duration']:
     the values the configuration was built from *)
  let output_dir := Environ.getenv_default env "BEATOVEN_OUTPUT_DIR"
                      "workflow/outputs/music" in
  let default_format := Environ.getenv_default env "DEFAULT_FORMAT" "mp3" in
  default_duration <- Environ.int_setting env "DEFAULT_DURATION" "180" ;;
  let prompt := if negb (truthy prompt) then PStr default_prompt else prompt in
  match generate b (get config "api_key") output_dir prompt default_duration
          default_format filename with
  | None =>
      Ok (mkdict [("status", PStr "error");
                  ("error", PStr "Failed to generate music");
                  ("metadata", PDict (mkdict [
                      ("prompt", prompt); ("filename", filename)]))])
  | Some music_path =>
      Ok (mkdict [("status", PStr "success");
                  ("music_path", PStr music_path);
                  ("metadata", PDict (mkdict [
                      ("prompt", prompt);
                      ("format", PStr default_format);
                      ("duration", PInt default_duration);
                      ("filename", filename)]))])
  end.

(** [process_input_message]: the two parameters are copied into a fresh
    message. *)
Definition process_input_message (env : Environ.environ) (b : beatoven)
    (message : dict) : outcome dict :=
  let music_params :=
    mkdict [("music_prompt", get message "music_prompt");
            ("music_filename",
             get_default message "music_filename" (PStr "background_music"))] in
  process_music_request env b music_params.

(** [main_async]: [parsed] is what [json.loads] made of standard input;
    the result is the message written to standard output. *)
Definition main_async (env : Environ.environ) (b : beatoven)
    (parsed : outcome pyval) : dict :=
  match parsed with
  | Ok (PDict message) =>
      match process_input_message env b message with
      | Ok output => output
      | Raise e => mkdict [("status", PStr "error"); ("error", PStr e)]
      end
  | Ok _ => mkdict [("status", PStr "error"); ("error", PStr "AttributeError")]
  | Raise e => mkdict [("status", PStr "error"); ("error", PStr e)]
  end.

End MusicGenerator.

(** * Specification predicates *)

Module ResultLoggerSpec.

Import ResultLogger.

(** An integer counter of a summary. *)
Definition counter (summary : dict) (k : string) : option Z :=
  match summary !! k with
  | Some (PInt z) => Some z
  | _ => None
  end.

(** The spec's equation between the three counters of one report. *)
Definition counters_add_up (video_results : list dict)
    (music_result : option dict) : Prop :=
  forall s f t : Z,
    counter (summary_of video_results music_result) "successful_videos" = Some s ->
    counter (summary_of video_results music_result) "failed_videos" = Some f ->
    counter (summary_of video_results music_result) "video_frames" = Some t ->
    s + f = t.

(** A result that is neither a success nor a failure: a skipped frame, or
    any other status. *)
Definition is_other (v : dict) : bool := negb (is_success v) && negb (is_failed v).

(** The spec's append-only rule: once a report is stored under a run id,
    storing again under the same run id leaves that report in place. *)
Definition never_overwritten (repr_container : pyval -> string)
    (output_dir : string) : Prop :=
  forall (now now' : clock) (fs fs1 fs2 : store) (vr vr' : list dict)
         (m m' : option dict) (run_id log_file : string) (doc : document)
         (r : outcome string),
    log_results repr_container output_dir now fs vr m (Some run_id)
      = (Ok log_file, fs1) ->
    fs1 !! log_file = Some doc ->
    log_results repr_container output_dir now' fs1 vr' m' (Some run_id)
      = (r, fs2) ->
    fs2 !! log_file = Some doc.

(** The run id [log_results] works with: the caller's, or one made from
    the clock when the caller gives none (or an empty one). *)
Definition effective_run_id (now : clock) (run_id : option string) : string :=
  match run_id with
  | Some r => if String.eqb r "" then "run_" +:+ strftime now else r
  | None => "run_" +:+ strftime now
  end.

Definition log_file_of (output_dir run_id : string) : string :=
  path_join output_dir (run_id +:+ ".json").

Definition summary_file_of (output_dir run_id : string) : string :=
  path_join output_dir (run_id +:+ "_summary.md").

End ResultLoggerSpec.


Module VideoGeneratorSpec.

Import VideoGenerator.

(** A status request that returns and reports no terminal state. *)
Definition is_pending (o : outcome dict) : bool :=
  match o with
  | Ok response =>
      match (inspect_response response).1 with
      | Pending => true
      | _ => false
      end
  | Raise _ => false
  end.

(** What the loop logs for one status request. *)
Definition poll_events (o : outcome dict) : list log_event :=
  match o with
  | Ok response => (inspect_response response).2
  | Raise e => [StatusError e]
  end.

(** The log of the status requests [n], [n+1], ..., [n+j-1]. *)
Definition run_events (get_task_status : nat -> outcome dict) (n j : nat)
    : list log_event :=
  flat_map (fun i => poll_events (get_task_status i)) (seq n j).

(** The number of polls a loop of nothing but pending answers makes:
    [max_wait_time / check_interval], rounded up. *)
Definition polls_until_timeout (max_wait_time : Z) (check_interval : positive)
    : nat :=
  Z.to_nat ((max_wait_time + Z.pos check_interval - 1) / Z.pos check_interval).

(** The spec's reading of a failing status request: with budget left,
    it does not end the loop. *)
Definition poll_errors_not_terminal : Prop :=
  forall (max_wait_time : Z) (check_interval : positive)
         (get_task_status : nat -> outcome dict) (k : nat) (e : string),
    (forall i, (i < k)%nat -> is_pending (get_task_status i) = true) ->
    get_task_status k = Raise e ->
    Z.of_nat k * Z.pos check_interval < max_wait_time ->
    exit (poll_loop max_wait_time check_interval get_task_status 0 0 []) <> Raised e.

(** The spec's guarantee for a fetch that succeeds: the file is there and
    it is not empty. *)
Definition fetched_file_nonempty (repr_container : pyval -> string)
    (p : provider) (output_dir : string) : Prop :=
  forall (fs fs' : files) (image_path : string) (prompt frame_id : pyval)
         (mode duration model_name path : string) (lg : list log_event),
    generate_from_image repr_container p output_dir fs image_path prompt
      frame_id mode duration model_name = (Some path, fs', lg) ->
    exists body, fs' !! path = Some body /\ body <> "".

End VideoGeneratorSpec.

(** What the spec says of the item results of a generation stage. *)
Module StageSpec.

(** The join key of a result. *)
Definition item_id (r : dict) : pyval := get r "frame_id".

(** A field is set when the key is there and its value is not [None]. *)
Definition is_set (r : dict) (k : string) : bool :=
  match r !! k with
  | Some PNone | None => false
  | Some _ => true
  end.

Definition has_status (r : dict) (s : string) : bool :=
  eq_str (get r "status") s.

(** The spec's invariant of an item result, [out_key] being the field of
    the output path: a success has the path and no reason, a failure and a
    skipped item have a reason and no path. *)
Definition exactly_one_as_spec (out_key : string) (r : dict) : bool :=
  if has_status r "success" then is_set r out_key && negb (is_set r "reason")
  else if has_status r "failed" then negb (is_set r out_key) && is_set r "reason"
  else if has_status r "skipped" then negb (is_set r out_key) && is_set r "reason"
  else false.

(** The shape the stages give their results: a success has the path and
    no reason field, a failure has the path field at [None] and no reason
    field either, a skipped item has the fixed reason and no path field. *)
Definition shaped_as_built (out_key : string) (r : dict) : bool :=
  if has_status r "success" then is_set r out_key && negb (has_key r "reason")
  else if has_status r "failed" then
    has_key r out_key && negb (is_set r out_key) && negb (has_key r "reason")
  else if has_status r "skipped" then
    negb (has_key r out_key) && eq_str (get r "reason") "No image available"
  else false.

(** The item id a frame brings to the video stage. *)
Definition video_input_id (frame : pyval) : pyval :=
  match frame with
  | PDict f => get f "frame_id"
  | _ => PNone
  end.

(** A frame the video stage can work on: a dict whose image path is a
    string or missing. *)
Definition video_input_ok (frame : pyval) : bool :=
  match frame with
  | PDict f =>
      match get f "image_path" with
      | PStr _ => true
      | v => negb (truthy v)
      end
  | _ => false
  end.

(** A keyframe the image stage can work on: a dict whose prompt is a
    string or a list. *)
Definition image_input_ok (keyframe : pyval) : bool :=
  match keyframe with
  | PDict d => ImageGenerator.sliceable (get_default d "prompt" (PStr ""))
  | _ => false
  end.

Section Ids.

Variable repr_container : pyval -> string.
Variable frame_id_prefix : pyval.

(** The item ids the image stage assigns to a batch, from position [idx]
    on. *)
Fixpoint image_input_ids (idx : nat) (keyframes : list pyval) : list pyval :=
  match keyframes with
  | [] => []
  | PDict d :: rest =>
      PStr (ImageGenerator.frame_id_of repr_container frame_id_prefix idx d)
      :: image_input_ids (S idx) rest
  | _ :: rest => PNone :: image_input_ids (S idx) rest
  end.

(** How one result of the image stage relates to the keyframe at
    position [idx]; how the results of a run relate to its keyframes. *)
Definition image_result_for (idx : nat) (keyframe : pyval) (r : dict) : Prop :=
  exists d image_path,
    keyframe = PDict d /\
    r = ImageGenerator.result_of
          (ImageGenerator.frame_id_of repr_container frame_id_prefix idx d)
          (ImageGenerator.frame_number_of idx d)
          (get_default d "prompt" (PStr "")) image_path d.

Fixpoint image_results_for (idx : nat) (keyframes : list pyval)
    (new : list dict) : Prop :=
  match keyframes, new with
  | [], [] => True
  | keyframe :: keyframes', r :: new' =>
      image_result_for idx keyframe r /\ image_results_for (S idx) keyframes' new'
  | _, _ => False
  end.

End Ids.

(** How one result of the video stage relates to the frame it was made
    from. *)
Definition video_result_for (frame : pyval) (r : dict) : Prop :=
  exists f, frame = PDict f /\
    ((truthy (get f "image_path") = false /\
      r = VideoGenerator.skipped_result (get f "frame_id") f) \/
     (truthy (get f "image_path") = true /\
      exists video_path prompt,
        r = VideoGenerator.result_of (get f "frame_id") (get f "image_path")
              video_path prompt f)).

(** What a download that was entered leaves on the disk: nothing new, or
    the part of the body that was written before the disk failed. *)
Definition untouched_or_partial (net : Fetch.network) (path : string)
    (fs fs' : files) : Prop :=
  fs' = fs \/
  exists url resp n,
    Fetch.http_get net url = Ok resp /\ Fetch.disk net path = DiskWriteFails n /\
    fs' = <[path := String.substring 0 n (content resp)]> fs.

(** The frame numbers the ids are made of, from position [idx] on. *)
Fixpoint frame_numbers (idx : nat) (keyframes : list pyval) : list pyval :=
  match keyframes with
  | [] => []
  | PDict d :: rest => ImageGenerator.frame_number_of idx d :: frame_numbers (S idx) rest
  | _ :: rest => PNone :: frame_numbers (S idx) rest
  end.

(** A keyframe without an explicit frame number. *)
Definition unnumbered (keyframe : pyval) : bool :=
  match keyframe with
  | PDict d => match get d "frame_number" with PNone => true | _ => false end
  | _ => false
  end.

(** The spec's invariant for every batch of the video stage. *)
Definition video_results_as_spec (repr_container : pyval -> string)
    (p : VideoGenerator.provider) (output_dir : string) : Prop :=
  forall frames fs model_name mode duration use_dify results fs' lg,
    VideoGenerator.process_frame_images repr_container p output_dir frames fs
      model_name mode duration use_dify = (Ok results, fs', lg) ->
    Forall (fun r => exactly_one_as_spec "video_path" r = true) results.

(** The spec's uniqueness of item ids for every batch of the image stage. *)
Definition frame_ids_unique (repr_container : pyval -> string)
    (p : ImageGenerator.provider) (output_dir : string) : Prop :=
  forall keyframes fs model_name frame_id_prefix results fs',
    ImageGenerator.process_keyframes repr_container p output_dir keyframes fs
      model_name frame_id_prefix = (Ok results, fs') ->
    NoDup (map item_id results).

End StageSpec.

(** Concrete providers and inputs, for running the stages. *)
Module Scenario.

Import VideoGenerator.

Definition no_repr : pyval -> string := fun _ => "".

(** The answer of a finished job with one video. *)
Definition succeed_response : dict :=
  mkdict [("data", PDict (mkdict [
    ("task_status", PStr "succeed");
    ("task_result", PDict (mkdict [
      ("videos", PList [PDict (mkdict [("url", PStr "https://cdn.example/v.mp4")])])]))]))].

Definition processing_response : dict :=
  mkdict [("data", PDict (mkdict [("task_status", PStr "processing")]))].

(** A server that sends [body] for every URL, and a disk without faults. *)
Definition serving (body : string) : Fetch.network :=
  {| Fetch.http_get := fun _ => Ok {| status_code := 200; content := body |};
     Fetch.disk := fun _ => DiskOk |}.

(** A provider whose jobs are finished at the first status request. *)
Definition steady (body : string) : provider :=
  {| b64encode := fun s => s;
     create_image_to_video_task := fun _ => Ok "task-1";
     request_status := fun _ _ => Ok succeed_response;
     enhance_prompt_with_dify := fun v => v;
     net := serving body |}.

(** The same provider behind a connection that fails once: the first
    status request raises, every later one reports the finished job. *)
Definition flaky : provider :=
  {| b64encode := fun s => s;
     create_image_to_video_task := fun _ => Ok "task-1";
     request_status := fun _ k =>
       match k with
       | O => Raise "ConnectionError"
       | S _ => Ok succeed_response
       end;
     enhance_prompt_with_dify := fun v => v;
     net := serving "VIDEO" |}.

(** A provider whose jobs never finish. *)
Definition stalled : provider :=
  {| b64encode := fun s => s;
     create_image_to_video_task := fun _ => Ok "task-1";
     request_status := fun _ _ => Ok processing_response;
     enhance_prompt_with_dify := fun v => v;
     net := serving "VIDEO" |}.

(** A provider whose finished job points at an empty resource. *)
Definition hollow : provider := steady "".

(** One frame as the image stage hands it over, and the disk holding its
    image. *)
Definition frame_1 : dict :=
  mkdict [("frame_id", PStr "frame_1");
          ("image_path", PStr "images/frame_1.png");
          ("prompt", PStr "a red kite");
          ("status", PStr "success")].

Definition disk_1 : files := {[ "images/frame_1.png" := "PNG" ]}.

(** An image provider that is out of reach. *)
Definition unreachable : ImageGenerator.provider :=
  {| ImageGenerator.create_image_generation_task := fun _ => Raise "ConnectionError";
     ImageGenerator.wait_for_image_generation_completion := fun _ => Ok [];
     ImageGenerator.net := serving "PNG" |}.

(** An image provider that delivers. *)
Definition painting : ImageGenerator.provider :=
  {| ImageGenerator.create_image_generation_task := fun _ => Ok "task-7";
     ImageGenerator.wait_for_image_generation_completion :=
       fun _ => Ok [PStr "https://cdn.example/i.png"];
     ImageGenerator.net := serving "PNG" |}.

(** Two keyframes as the parser writes them: the first numbered 2 in the
    file, the second without a number. *)
Definition keyframe_numbered_2 : dict :=
  mkdict [("prompt", PStr "dawn"); ("negative_prompt", PNone);
          ("frame_number", PInt 2); ("timestamp", PNone);
          ("aspect_ratio", PStr "16:9"); ("seed", PNone)].

Definition keyframe_unnumbered : dict :=
  mkdict [("prompt", PStr "dusk"); ("negative_prompt", PNone);
          ("frame_number", PNone); ("timestamp", PNone);
          ("aspect_ratio", PStr "16:9"); ("seed", PNone)].


(** A keyframe file of three blocks; the middle one has a seed and no
    prompt. *)
Definition keyframe_text : string :=
  let nl := String "010" "" in
  "# storyboard" +:+ nl +:+
  "frame: 1" +:+ nl +:+ "Prompt: dawn over the bay" +:+ nl +:+
  "---" +:+ nl +:+
  "seed: 3" +:+ nl +:+ "aspect_ratio: 4:3" +:+ nl +:+
  "---" +:+ nl +:+
  "prompt: dusk" +:+ nl.

Definition keyframe_disk : files := {[ "keyframes.txt" := keyframe_text ]}.

End Scenario.

Module KeyframeParserSpec.

Import KeyframeParser.

(** A line that stores a prompt: a [key: value] line whose key, stripped
    and in lower case, is "prompt". *)
Definition is_prompt_line (raw : string) : bool :=
  match classify raw with
  | Pair key _ => String.eqb key "prompt"
  | _ => false
  end.

Definition is_delimiter (raw : string) : bool :=
  match classify raw with
  | Delimiter => true
  | _ => false
  end.

(** The blocks of a file: the runs of lines between the ["---"] lines.
    There is always a first block, possibly empty. *)
Fixpoint blocks (lines : list string) : list (list string) :=
  match lines with
  | [] => [[]]
  | raw :: rest =>
      if is_delimiter raw then [] :: blocks rest
      else match blocks rest with
           | b :: bs => (raw :: b) :: bs
           | [] => [[raw]]
           end
  end.

(** A block with a prompt line. *)
Definition has_prompt (block : list string) : bool := existsb is_prompt_line block.

(** What one line adds to the frame being read. *)
Definition store (current_frame : dict) (raw : string) : dict :=
  match classify raw with
  | Pair key value => assign current_frame key value
  | _ => current_frame
  end.

(** The keyframes one block contributes: one when it has a prompt line,
    none otherwise. *)
Definition keyframes_of_block (block : list string) : list KeyframeData :=
  if has_prompt block then [keyframe_of (fold_left store block ∅)] else [].

End KeyframeParserSpec.

(** What the further properties of the stages are stated with. *)
Module MoreSpec.

Import KeyframeParser KeyframeParserSpec.

Definition is_str (v : pyval) : bool :=
  match v with PStr _ => true | _ => false end.

Definition is_str_or_none (v : pyval) : bool :=
  match v with PStr _ | PNone => true | _ => false end.

Definition is_int_or_none (v : pyval) : bool :=
  match v with PInt _ | PNone => true | _ => false end.

Definition is_none (v : pyval) : bool :=
  match v with PNone => true | _ => false end.

(** The types the attributes of a keyframe have when it comes out of the
    parser. *)
Definition keyframe_typed (kf : KeyframeData) : bool :=
  is_str (prompt kf) && is_str_or_none (negative_prompt kf)
  && is_int_or_none (frame_number kf) && is_none (timestamp kf)
  && is_str (aspect_ratio kf) && is_int_or_none (seed kf).

(** The same types on the frame being read: an entry that is there has
    the type of its key. *)
Definition entry_typed (p : pyval -> bool) (current_frame : dict) (k : string)
    : bool :=
  match current_frame !! k with
  | Some v => p v
  | None => true
  end.

Definition is_int (v : pyval) : bool :=
  match v with PInt _ => true | _ => false end.

Definition frame_typed (current_frame : dict) : bool :=
  entry_typed is_str current_frame "prompt"
  && entry_typed is_str current_frame "negative_prompt"
  && entry_typed is_int current_frame "frame_number"
  && entry_typed is_str current_frame "aspect_ratio"
  && entry_typed is_int current_frame "seed".

(** The entry of [current_frame] a line writes, if it writes one. *)
Definition stored_key (raw : string) : option string :=
  match classify raw with
  | Pair key value =>
      if String.eqb key "frame" || String.eqb key "frame_number" then
        match Text.int_of value with
        | Some _ => Some "frame_number"
        | None => None
        end
      else if String.eqb key "prompt" then Some "prompt"
      else if String.eqb key "negative_prompt" then Some "negative_prompt"
      else if String.eqb key "aspect_ratio" then Some "aspect_ratio"
      else if String.eqb key "seed" then
        match Text.int_of value with
        | Some _ => Some "seed"
        | None => None
        end
      else None
  | _ => None
  end.

(** A line that is no delimiter and writes nothing: blank, comment,
    without a colon, with an unknown key, or with a number that is none. *)
Definition is_noise (raw : string) : bool :=
  negb (is_delimiter raw)
  && match stored_key raw with Some _ => false | None => true end.

(** [s] ends with [suffix]. *)
Definition has_suffix (s suffix : string) : Prop :=
  exists front, s = front +:+ suffix.




(** A Beatoven package with another client call. *)
Definition with_client (b : MusicGenerator.beatoven)
    (g : MusicGenerator.music_request -> outcome string) : MusicGenerator.beatoven :=
  {| MusicGenerator.available := MusicGenerator.available b;
     MusicGenerator.settings_api_key := MusicGenerator.settings_api_key b;
     MusicGenerator.generate_music := g |}.

End MoreSpec.
(** * Theorems *)

(** ** Text *)

Module TextFacts.

Lemma append_cancel (s a b : string) : s +:+ a = s +:+ b -> a = b.
Proof.
  induction s as [|c s IH]; simpl; intros H; [assumption |].
  injection H as H. auto.
Qed.

End TextFacts.

(** ** Result logger *)

Module ResultLoggerFacts.

Import ResultLogger ResultLoggerSpec TextFacts.

Lemma counter_successful vr m :
  counter (summary_of vr m) "successful_videos" = Some (sum1 is_success vr).
Proof. reflexivity. Qed.

Lemma counter_failed vr m :
  counter (summary_of vr m) "failed_videos" = Some (sum1 is_failed vr).
Proof. reflexivity. Qed.

Lemma counter_total vr m :
  counter (summary_of vr m) "video_frames" = Some (len vr).
Proof. reflexivity. Qed.

Lemma success_not_failed v : is_success v = true -> is_failed v = false.
Proof.
  unfold is_success, is_failed, eq_str.
  destruct (get v "status"); try discriminate.
  intros H. apply String.eqb_eq in H. subst. reflexivity.
Qed.

Lemma sum1_nonneg {A : Type} (q : A -> bool) l : 0 <= sum1 q l.
Proof. induction l as [|v l IH]; simpl; [lia | destruct (q v); lia]. Qed.

(** Every result is counted once: as a success, as a failure, or as
    neither. *)
Lemma sum1_three_way vr :
  sum1 is_success vr + sum1 is_failed vr + sum1 is_other vr = len vr.
Proof.
  unfold len. induction vr as [|v vr IH]; [reflexivity |].
  cbn [sum1 length]. rewrite Nat2Z.inj_succ. unfold is_other at 1.
  destruct (is_success v) eqn:Hs.
  - rewrite (success_not_failed v Hs). simpl. lia.
  - destruct (is_failed v); simpl; lia.
Qed.

Lemma sum1_zero_iff {A : Type} (q : A -> bool) l :
  sum1 q l = 0 <-> Forall (fun v => q v = false) l.
Proof.
  induction l as [|v l IH]; simpl.
  - split; [constructor | reflexivity].
  - pose proof (sum1_nonneg q l). destruct (q v) eqn:Hq; split; intros H1.
    + lia.
    + inversion H1; congruence.
    + constructor; [assumption | apply IH; lia].
    + inversion H1; subst. apply IH in H4. lia.
Qed.

(** C1 fails on a report that holds one skipped frame: no success, no
    failure, one frame in total. *)
Lemma skipped_frame_breaks_sum :
  ~ counters_add_up
      [VideoGenerator.skipped_result (PStr "frame_1") (mkdict [("frame_id", PStr "frame_1")])]
      None.
Proof.
  intros H. specialize (H 0 0 1 eq_refl eq_refl eq_refl). discriminate H.
Qed.

(** C1, amended: the summary of every report counts each video result
    exactly once among successes, failures and results of any other status
    (skipped ones among them), so [successful + failed <= total], with
    equality exactly when every result is a success or a failure. *)
Theorem summary_counts_partition (video_results : list dict)
    (music_result : option dict) :
  exists s f t : Z,
    counter (summary_of video_results music_result) "successful_videos" = Some s /\
    counter (summary_of video_results music_result) "failed_videos" = Some f /\
    counter (summary_of video_results music_result) "video_frames" = Some t /\
    s + f + sum1 is_other video_results = t /\
    s + f <= t /\
    (s + f = t <-> Forall (fun v => is_other v = false) video_results).
Proof.
  exists (sum1 is_success video_results), (sum1 is_failed video_results),
    (len video_results).
  pose proof (sum1_three_way video_results) as H3.
  pose proof (sum1_nonneg is_other video_results) as H0.
  repeat split; try reflexivity; try lia.
  - intros H. apply sum1_zero_iff. lia.
  - intros H. apply sum1_zero_iff in H. lia.
Qed.

Lemma prefix_slash_cons c t :
  String.prefix "/" (String c t) = if ascii_dec "/" c then true else false.
Proof.
  change (String.prefix "/" (String c t))
    with (match ascii_dec "/" c with
          | left _ => String.prefix "" t
          | right _ => false
          end).
  destruct (ascii_dec "/" c); [destruct t |]; reflexivity.
Qed.

(** Two names with the same head join a directory to the same path only
    when they are the same name. *)
Lemma path_join_same_head dir c t u :
  path_join dir (String c t) = path_join dir (String c u) -> t = u.
Proof.
  unfold path_join. rewrite !prefix_slash_cons.
  destruct (ascii_dec "/" c); intros H.
  - injection H as H. exact H.
  - apply append_cancel in H. simpl in H. injection H as H. exact H.
Qed.

(** The report and the summary of one run never share a path. *)
Lemma log_file_ne_summary_file output_dir run_id :
  log_file_of output_dir run_id <> summary_file_of output_dir run_id.
Proof.
  unfold log_file_of, summary_file_of. destruct run_id as [|c r].
  - unfold path_join. simpl. intros H. apply append_cancel in H. discriminate H.
  - cbn [String.append]. intros H. apply path_join_same_head in H.
    apply append_cancel in H. discriminate H.
Qed.

(** C6 fails when the same run id is stored twice: the second report
    takes the place of the first. *)
Lemma second_report_replaces_first :
  ~ never_overwritten (fun _ => "") "workflow/logs".
Proof.
  intros H.
  pose (now := {| strftime := "20250101_120000"; isoformat := "2025-01-01T12:00:00" |}).
  pose (now' := {| strftime := "20250101_120000"; isoformat := "2025-01-01T12:00:00.5" |}).
  pose (first :=
    log_results (fun _ => "") "workflow/logs" now ∅ [] None (Some "run_20250101_120000")).
  pose (second :=
    log_results (fun _ => "") "workflow/logs" now' first.2 [] None (Some "run_20250101_120000")).
  specialize (H now now' ∅ first.2 second.2 [] [] None None
                "run_20250101_120000" "workflow/logs/run_20250101_120000.json"
                (Json (PDict (log_entry_of "run_20250101_120000" "2025-01-01T12:00:00" [] None)))
                second.1 eq_refl eq_refl eq_refl).
  vm_compute in H. discriminate H.
Qed.

(** C6, amended: storing a report under a run id writes the two files
    named after that run id, [<run_id>.json] with the new report and, when
    the summary can be rendered, [<run_id>_summary.md] with the new summary,
    whatever these paths held before (both are opened in mode ['w'], so an
    earlier report under the same run id is replaced); every file under
    another path is left as it was. *)
Theorem log_results_rewrites_own_files (repr_container : pyval -> string)
    (output_dir : string) (now : clock) (fs : store) (video_results : list dict)
    (music_result : option dict) (run_id : option string) :
  let rid := effective_run_id now run_id in
  let res := log_results repr_container output_dir now fs video_results
               music_result run_id in
  res.2 !! log_file_of output_dir rid
    = Some (Json (PDict (log_entry_of rid (isoformat now) video_results music_result))) /\
  (forall text,
     markdown_summary repr_container rid (isoformat now) video_results music_result
       = Ok text ->
     res.1 = Ok (log_file_of output_dir rid) /\
     res.2 !! summary_file_of output_dir rid = Some (Markdown text)) /\
  (forall path,
     path <> log_file_of output_dir rid ->
     path <> summary_file_of output_dir rid ->
     res.2 !! path = fs !! path).
Proof.
  intros rid res. subst res. unfold log_results.
  fold (effective_run_id now run_id). fold rid.
  fold (log_file_of output_dir rid). fold (summary_file_of output_dir rid).
  pose proof (log_file_ne_summary_file output_dir rid) as Hne.
  destruct (markdown_summary repr_container rid (isoformat now) video_results
              music_result) as [text|e] eqn:Hmd; cbn [fst snd].
  - split; [| split].
    + rewrite lookup_insert_ne by congruence. apply lookup_insert_eq.
    + intros text' Ht. injection Ht as <-. split; [reflexivity |].
      apply lookup_insert_eq.
    + intros path H1 H2. rewrite !lookup_insert_ne by congruence. reflexivity.
  - split; [| split].
    + apply lookup_insert_eq.
    + intros text Ht. discriminate Ht.
    + intros path H1 H2. rewrite lookup_insert_ne by congruence. reflexivity.
Qed.

(** The theorem at work: a second run under the id of the first one. *)
Lemma log_results_rewrites_own_files_witness :
  let now := {| strftime := "20250101_120000"; isoformat := "2025-01-01T12:00:00" |} in
  let fs : store :=
    {[ "workflow/logs/run_1.json" := Json PNone; "workflow/logs/other.txt" := Markdown "kept" ]} in
  let res := log_results (fun _ => "") "workflow/logs" now fs [] None (Some "run_1") in
  res.1 = Ok "workflow/logs/run_1.json" /\
  res.2 !! "workflow/logs/other.txt" = Some (Markdown "kept").
Proof.
  intros now fs res.
  pose proof (log_results_rewrites_own_files (fun _ => "") "workflow/logs" now fs
                [] None (Some "run_1")) as (_ & Hsum & Hframe).
  split.
  - exact (proj1 (Hsum _ eq_refl)).
  - apply (Hframe "workflow/logs/other.txt"); vm_compute; discriminate.
Defined.

End ResultLoggerFacts.

(** ** Video stage: the poll loop *)

Module PollLoopFacts.

Import VideoGenerator VideoGeneratorSpec StageSpec.

Section Loop.

Variable max_wait_time : Z.
Variable check_interval : positive.
Variable get_task_status : nat -> outcome dict.

Local Abbreviation loop := (poll_loop max_wait_time check_interval get_task_status).

Lemma poll_loop_timeout n el lg :
  ~ el < max_wait_time ->
  loop n el lg
  = {| exit := TimedOut; polls := n; elapsed := el; log := lg ++ [Timeout] |}.
Proof.
  intros Hge. rewrite poll_loop_equation_1.
  destruct (Z_lt_dec el max_wait_time); [lia | reflexivity].
Qed.

Lemma poll_loop_raise n el lg e :
  el < max_wait_time -> get_task_status n = Raise e ->
  loop n el lg
  = {| exit := Raised e; polls := S n; elapsed := el; log := lg ++ [StatusError e] |}.
Proof.
  intros Hlt Hg. rewrite poll_loop_equation_1.
  destruct (Z_lt_dec el max_wait_time); [| lia].
  simpl. rewrite Hg. reflexivity.
Qed.

Lemma poll_loop_pending n el lg :
  el < max_wait_time -> is_pending (get_task_status n) = true ->
  loop n el lg
  = loop (S n) (el + Z.pos check_interval) (lg ++ poll_events (get_task_status n)).
Proof.
  intros Hlt Hp. rewrite poll_loop_equation_1 at 1.
  destruct (Z_lt_dec el max_wait_time); [| lia].
  simpl. unfold is_pending, poll_events in *.
  destruct (get_task_status n) as [response|e]; [| discriminate Hp].
  simpl. destruct (inspect_response response) as [[data| |] evs];
    try discriminate Hp. reflexivity.
Qed.

(** [j] pending answers in a row, each asked while the clock is below
    [max_wait_time], move the loop [j] polls and [j] intervals on. *)
Lemma poll_loop_pending_run j : forall n el lg,
  (forall i, (i < j)%nat -> is_pending (get_task_status (n + i)) = true) ->
  (forall i, (i < j)%nat -> el + Z.of_nat i * Z.pos check_interval < max_wait_time) ->
  loop n el lg
  = loop (n + j) (el + Z.of_nat j * Z.pos check_interval)
      (lg ++ run_events get_task_status n j).
Proof.
  induction j as [|j IH]; intros n el lg Hp Hlt.
  - unfold run_events. simpl. rewrite Nat.add_0_r, Z.add_0_r, app_nil_r.
    reflexivity.
  - rewrite poll_loop_pending.
    + rewrite IH.
      * unfold run_events. cbn [seq flat_map]. rewrite <- app_assoc.
        f_equal; [lia | lia].
      * intros i Hi. replace (S n + i)%nat with (n + S i)%nat by lia.
        apply Hp. lia.
      * intros i Hi. specialize (Hlt (S i) ltac:(lia)). lia.
    + specialize (Hlt 0%nat ltac:(lia)). lia.
    + specialize (Hp 0%nat ltac:(lia)). rewrite Nat.add_0_r in Hp. exact Hp.
Qed.

Lemma ceil_polls_bounds :
  0 < max_wait_time ->
  max_wait_time
    <= Z.of_nat (polls_until_timeout max_wait_time check_interval) * Z.pos check_interval
    < max_wait_time + Z.pos check_interval.
Proof.
  intros Hpos. unfold polls_until_timeout.
  pose proof (Pos2Z.is_pos check_interval) as Hci.
  pose proof (Z.div_mod (max_wait_time + Z.pos check_interval - 1) (Z.pos check_interval)
                ltac:(lia)) as Hdm.
  pose proof (Z.mod_pos_bound (max_wait_time + Z.pos check_interval - 1)
                (Z.pos check_interval) Hci) as Hmod.
  assert (0 <= (max_wait_time + Z.pos check_interval - 1) / Z.pos check_interval)
    by (apply Z.div_pos; lia).
  rewrite Z2Nat.id by assumption. lia.
Qed.

Lemma no_polls_without_budget :
  max_wait_time <= 0 -> polls_until_timeout max_wait_time check_interval = 0%nat.
Proof.
  intros Hle. unfold polls_until_timeout.
  pose proof (Pos2Z.is_pos check_interval) as Hci.
  assert ((max_wait_time + Z.pos check_interval - 1) / Z.pos check_interval < 1)
    by (apply Z.div_lt_upper_bound; lia).
  lia.
Qed.

(** A loop that only ever hears "pending" polls until its clock reaches
    [max_wait_time], then takes the [else] branch. *)
Lemma all_pending_times_out lg :
  (forall k, is_pending (get_task_status k) = true) ->
  loop 0%nat 0 lg
  = {| exit := TimedOut;
       polls := polls_until_timeout max_wait_time check_interval;
       elapsed := Z.of_nat (polls_until_timeout max_wait_time check_interval)
                  * Z.pos check_interval;
       log := (lg ++ run_events get_task_status 0
                       (polls_until_timeout max_wait_time check_interval))
              ++ [Timeout] |}.
Proof.
  intros Hp. set (N := polls_until_timeout max_wait_time check_interval).
  pose proof (Pos2Z.is_pos check_interval) as Hci.
  destruct (Z_lt_dec 0 max_wait_time) as [Hpos|Hnpos].
  - pose proof (ceil_polls_bounds Hpos) as Hb. fold N in Hb.
    rewrite (poll_loop_pending_run N).
    + rewrite poll_loop_timeout by lia. reflexivity.
    + intros i _. apply Hp.
    + intros i Hi. nia.
  - pose proof (no_polls_without_budget ltac:(lia)) as HN. fold N in HN.
    rewrite HN. rewrite poll_loop_timeout by lia.
    unfold run_events. cbn [seq flat_map]. rewrite app_nil_r. reflexivity.
Qed.

(** A status request that raises ends the loop at once. *)
Lemma raise_ends_loop k e lg :
  (forall i, (i < k)%nat -> is_pending (get_task_status i) = true) ->
  get_task_status k = Raise e ->
  Z.of_nat k * Z.pos check_interval < max_wait_time ->
  loop 0%nat 0 lg
  = {| exit := Raised e; polls := S k;
       elapsed := Z.of_nat k * Z.pos check_interval;
       log := (lg ++ run_events get_task_status 0 k) ++ [StatusError e] |}.
Proof.
  intros Hp Hr Hlt.
  pose proof (Pos2Z.is_pos check_interval) as Hci.
  rewrite (poll_loop_pending_run k).
  - simpl. rewrite (poll_loop_raise _ _ _ e) by (assumption || lia). reflexivity.
  - intros i Hi. apply Hp. exact Hi.
  - intros i Hi. nia.
Qed.

End Loop.

(** With the constants of the source, a job that never finishes costs
    the item 60 polls and ends in the timeout warning and [None]. *)
Lemma all_pending_fails_item repr_container p output_dir (fs : files)
    image_path image prompt frame_id mode duration model_name task_id :
  fs !! image_path = Some image ->
  create_image_to_video_task p
    {| req_model_name := model_name; req_image := b64encode p image;
       req_prompt := prompt; req_mode := mode; req_duration := duration |}
    = Ok task_id ->
  (forall k, is_pending (request_status p task_id k) = true) ->
  generate_from_image repr_container p output_dir fs image_path prompt frame_id
    mode duration model_name
  = (None, fs,
     ([TaskCreated task_id] ++ run_events (request_status p task_id) 0 60)
     ++ [Timeout]).
Proof.
  intros Hfs Hcreate Hp. unfold generate_from_image.
  rewrite Hfs, Hcreate. cbv zeta.
  rewrite (all_pending_times_out 300 5 _ _ Hp). reflexivity.
Qed.

(** C5: when every status request returns a non-terminal answer, the
    loop times out, after [max_wait_time / check_interval] polls (rounded
    up), with its clock at polls times [check_interval]: the first
    multiple of the interval that reaches [max_wait_time], so not earlier
    and less than one interval late. With [max_wait_time = 10] and
    [check_interval = 5] that is after exactly 2 polls; and the item whose
    job it is ends with the timeout warning and no path, a failure. *)
Theorem poll_loop_times_out_at_max_wait (max_wait_time : Z)
    (check_interval : positive) (get_task_status : nat -> outcome dict) :
  (forall k, is_pending (get_task_status k) = true) ->
  let r := poll_loop max_wait_time check_interval get_task_status 0 0 [] in
  let r2 := poll_loop 10 5 get_task_status 0 0 [] in
  (exit r = TimedOut /\
   polls r = polls_until_timeout max_wait_time check_interval /\
   elapsed r = Z.of_nat (polls r) * Z.pos check_interval /\
   (0 < max_wait_time ->
    max_wait_time <= elapsed r < max_wait_time + Z.pos check_interval) /\
   log r = run_events get_task_status 0 (polls r) ++ [Timeout]) /\
  (exit r2 = TimedOut /\ polls r2 = 2%nat /\ elapsed r2 = 10) /\
  (forall repr_container p output_dir (fs : files) image_path image prompt
          frame_id mode duration model_name task_id,
     request_status p task_id = get_task_status ->
     fs !! image_path = Some image ->
     create_image_to_video_task p
       {| req_model_name := model_name; req_image := b64encode p image;
          req_prompt := prompt; req_mode := mode; req_duration := duration |}
       = Ok task_id ->
     exists l,
       generate_from_image repr_container p output_dir fs image_path prompt
         frame_id mode duration model_name = (None, fs, l ++ [Timeout])).
Proof.
  intros Hp r r2. subst r r2.
  rewrite !all_pending_times_out by assumption. cbn [exit polls elapsed log app].
  split; [| split].
  - repeat split; try reflexivity; apply ceil_polls_bounds; assumption.
  - repeat split; reflexivity.
  - intros * Hst Hfs Hcreate. subst get_task_status. eexists.
    eapply all_pending_fails_item; eassumption.
Qed.

(** The theorem on a provider that answers "processing" for ever, with
    the constants of the source: 60 polls, 300 seconds. *)
Lemma poll_loop_times_out_at_max_wait_witness :
  let processing : nat -> outcome dict := fun _ => Ok Scenario.processing_response in
  let r := poll_loop 300 5 processing 0 0 [] in
  exit r = TimedOut /\ polls r = 60%nat /\ elapsed r = 300.
Proof.
  intros processing r.
  destruct (poll_loop_times_out_at_max_wait 300 5 processing
              ltac:(intros k; reflexivity)) as ((He & Hn & Hel & _) & _).
  subst r. rewrite He, Hel, Hn. repeat split; reflexivity.
Defined.

End PollLoopFacts.

(** ** Video stage: one item *)

Module VideoItemFacts.

Import VideoGenerator VideoGeneratorSpec PollLoopFacts.

(** C3 fails on a connection that fails once: the first status request
    raises, the loop is left after that single poll although the job would
    have reported success at the next one, and the frame is recorded as
    failed. *)
Lemma transport_error_fails_item :
  ~ poll_errors_not_terminal /\
  (let r := poll_loop 300 5 (request_status Scenario.flaky "task-1") 0 0 [] in
   exit r = Raised "ConnectionError" /\ polls r = 1%nat) /\
  (process_frame_images Scenario.no_repr Scenario.flaky "videos"
     [PDict Scenario.frame_1] Scenario.disk_1 "kling-v1" "std" "5" false).1.1
  = Ok [result_of (PStr "frame_1") (PStr "images/frame_1.png") None
          (PStr "a red kite") Scenario.frame_1].
Proof.
  split; [| split].
  - intros H.
    apply (H 300 5%positive (request_status Scenario.flaky "task-1") 0%nat
             "ConnectionError").
    + intros i Hi. lia.
    + reflexivity.
    + reflexivity.
    + vm_compute. reflexivity.
  - vm_compute. split; reflexivity.
  - vm_compute. reflexivity.
Qed.

Section Item.

Variable repr_container : pyval -> string.
Variable p : provider.
Variable output_dir : string.

(** C3, amended: a status request that raises while the budget is not
    used up is logged and raised again; it ends the loop after that poll,
    [generate_from_image] logs the error and returns [None] without
    touching the disk, and the frame is recorded with status "failed". *)
Theorem poll_error_ends_item (fs : files) (image_path image : string)
    (prompt frame_id : pyval) (mode duration model_name task_id : string)
    (frame : dict) (k : nat) (e : string) :
  fs !! image_path = Some image ->
  create_image_to_video_task p
    {| req_model_name := model_name; req_image := b64encode p image;
       req_prompt := prompt; req_mode := mode; req_duration := duration |}
    = Ok task_id ->
  (forall i, (i < k)%nat -> is_pending (request_status p task_id i) = true) ->
  request_status p task_id k = Raise e ->
  Z.of_nat k * 5 < 300 ->
  let r := poll_loop 300 5 (request_status p task_id) 0 0 [TaskCreated task_id] in
  exit r = Raised e /\ polls r = S k /\
  (exists l,
     generate_from_image repr_container p output_dir fs image_path prompt
       frame_id mode duration model_name
     = (None, fs, l ++ [StatusError e; GenerateError e])) /\
  get (result_of frame_id (PStr image_path) None prompt frame) "status"
    = PStr "failed".
Proof.
  intros Hfs Hcreate Hpend Hraise Hlt r.
  assert (Hr : r = {| exit := Raised e; polls := S k;
                      elapsed := Z.of_nat k * 5;
                      log := ([TaskCreated task_id]
                              ++ run_events (request_status p task_id) 0 k)
                             ++ [StatusError e] |}).
  { subst r. apply raise_ends_loop; assumption. }
  repeat split.
  - rewrite Hr. reflexivity.
  - rewrite Hr. reflexivity.
  - exists ([TaskCreated task_id] ++ run_events (request_status p task_id) 0 k).
    unfold generate_from_image. rewrite Hfs, Hcreate. cbv zeta.
    fold r. rewrite Hr. cbn [exit log]. rewrite <- app_assoc. reflexivity.
Qed.

End Item.

(** The theorem on the connection that fails once. *)
Lemma poll_error_ends_item_witness :
  exists l,
    generate_from_image Scenario.no_repr Scenario.flaky "videos" Scenario.disk_1
      "images/frame_1.png" (PStr "a red kite") (PStr "frame_1") "std" "5" "kling-v1"
    = (None, Scenario.disk_1,
       l ++ [StatusError "ConnectionError"; GenerateError "ConnectionError"]).
Proof.
  refine (proj1 (proj2 (proj2
    (poll_error_ends_item Scenario.no_repr Scenario.flaky "videos" Scenario.disk_1
       "images/frame_1.png" "PNG" (PStr "a red kite") (PStr "frame_1")
       "std" "5" "kling-v1" "task-1" Scenario.frame_1 0 "ConnectionError"
       _ _ _ _ _)))).
  - reflexivity.
  - reflexivity.
  - intros i Hi. lia.
  - reflexivity.
  - reflexivity.
Defined.

End VideoItemFacts.

(** ** Artifact download *)

Module FetchFacts.

Import VideoGenerator VideoGeneratorSpec StageSpec.

Lemma download_ok net fs url path fs' :
  Fetch.download net fs url path = (Ok (), fs') ->
  exists resp,
    Fetch.http_get net url = Ok resp /\ Fetch.disk net path = DiskOk /\
    fs' = <[path := content resp]> fs.
Proof.
  unfold Fetch.download. intros H.
  destruct (Fetch.http_get net url) as [resp|e]; [| discriminate H].
  destruct (Fetch.disk net path); try discriminate H.
  injection H as <-. exists resp. auto.
Qed.

Lemma download_raise net fs url path e fs' :
  Fetch.download net fs url path = (Raise e, fs') ->
  fs' = fs \/
  exists resp n,
    Fetch.http_get net url = Ok resp /\ Fetch.disk net path = DiskWriteFails n /\
    fs' = <[path := String.substring 0 n (content resp)]> fs.
Proof.
  unfold Fetch.download. intros H.
  destruct (Fetch.http_get net url) as [resp|e0].
  - destruct (Fetch.disk net path) as [| |n] eqn:Hd.
    + discriminate H.
    + injection H as _ <-. left. reflexivity.
    + injection H as _ <-. right. exists resp, n. auto.
  - injection H as _ <-. left. reflexivity.
Qed.

Lemma video_fetch_outcome repr_container p output_dir fs image_path prompt
    frame_id mode duration model_name res fs' lg :
  generate_from_image repr_container p output_dir fs image_path prompt frame_id
    mode duration model_name = (res, fs', lg) ->
  let path := path_join output_dir (str repr_container frame_id +:+ ".mp4") in
  match res with
  | Some out =>
      out = path /\
      exists url resp,
        Fetch.http_get (net p) url = Ok resp /\
        Fetch.disk (net p) path = DiskOk /\
        fs' = <[path := content resp]> fs
  | None => untouched_or_partial (net p) path fs fs'
  end.
Proof.
  intros H path. unfold generate_from_image in H.
  destruct (fs !! image_path) as [image|];
    [| injection H as <- <- _; left; reflexivity].
  destruct (create_image_to_video_task p _) as [task_id|e];
    [| injection H as <- <- _; left; reflexivity].
  cbv zeta in H.
  destruct (exit (poll_loop 300 5 (request_status p task_id) 0 0 [TaskCreated task_id]))
    as [completed_task| | |e];
    try (injection H as <- <- _; left; reflexivity).
  destruct (video_url_of completed_task) as [[video_url|]|e];
    try (injection H as <- <- _; left; reflexivity).
  fold path in H.
  destruct (Fetch.download (net p) fs video_url path) as [[[]|e] fs1] eqn:Hd.
  - injection H as <- <- _. split; [reflexivity |].
    apply download_ok in Hd as (resp & Hg & Hk & ->). eauto.
  - injection H as <- <- _.
    apply download_raise in Hd as [->|(resp & n & Hg & Hk & ->)].
    + left. reflexivity.
    + right. exists video_url, resp, n. auto.
Qed.

Lemma image_fetch_outcome repr_container p output_dir fs req frame_id res fs' :
  ImageGenerator.generate repr_container p output_dir fs req frame_id = (res, fs') ->
  match res with
  | Some out =>
      exists url resp,
        Fetch.http_get (ImageGenerator.net p) url = Ok resp /\
        Fetch.disk (ImageGenerator.net p) out = DiskOk /\
        fs' = <[out := content resp]> fs
  | None =>
      fs' = fs \/ exists path, untouched_or_partial (ImageGenerator.net p) path fs fs'
  end.
Proof.
  unfold ImageGenerator.generate. intros H.
  destruct (ImageGenerator.create_image_generation_task p req) as [task_id|e];
    [| injection H as <- <-; left; reflexivity].
  destruct (ImageGenerator.wait_for_image_generation_completion p task_id)
    as [[|image_url urls]|e];
    try (injection H as <- <-; left; reflexivity).
  cbv zeta in H.
  match type of H with
  | context [Fetch.download _ _ _ ?out] => set (path := out) in *
  end.
  destruct (Fetch.download (ImageGenerator.net p) fs image_url path)
    as [[[]|e] fs1] eqn:Hd.
  - injection H as <- <-.
    apply download_ok in Hd as (resp & Hg & Hk & ->). eauto.
  - injection H as <- <-. right. exists path.
    apply download_raise in Hd as [->|(resp & n & Hg & Hk & ->)].
    + left. reflexivity.
    + right. exists image_url, resp, n. auto.
Qed.

(** C7 fails on a finished job whose URL serves an empty body: the video
    stage reports the path as generated, and the file is empty. *)
Lemma empty_body_counts_as_success :
  ~ fetched_file_nonempty Scenario.no_repr Scenario.hollow "videos".
Proof.
  intros H.
  destruct (H Scenario.disk_1
              (<["videos/frame_1.mp4" := ""]> Scenario.disk_1)
              "images/frame_1.png" (PStr "a red kite") (PStr "frame_1")
              "std" "5" "kling-v1" "videos/frame_1.mp4"
              [TaskCreated "task-1"; TaskStatus (PStr "succeed"); TaskCompleted;
               Downloaded "videos/frame_1.mp4"])
    as (body & Hb & Hne).
  - vm_compute. reflexivity.
  - vm_compute in Hb. injection Hb as <-. apply Hne. reflexivity.
Qed.

(** C7, amended: when a generation stage returns a path, the download
    behind it went through and the file at that path holds exactly the body
    of the response, which may be empty (neither the status code nor the
    size is checked); when the transport or the disk fails, the stage
    returns no path, so the item is recorded as failed, and the disk is
    either as before or holds the part of the body that was written. *)
Theorem fetch_outcome :
  (forall repr_container p output_dir fs image_path prompt frame_id mode
          duration model_name res fs' lg,
     generate_from_image repr_container p output_dir fs image_path prompt
       frame_id mode duration model_name = (res, fs', lg) ->
     let path := path_join output_dir (str repr_container frame_id +:+ ".mp4") in
     match res with
     | Some out =>
         out = path /\
         exists url resp,
           Fetch.http_get (net p) url = Ok resp /\
           Fetch.disk (net p) path = DiskOk /\
           fs' !! path = Some (content resp)
     | None => untouched_or_partial (net p) path fs fs'
     end) /\
  (forall repr_container p output_dir fs req frame_id res fs',
     ImageGenerator.generate repr_container p output_dir fs req frame_id
       = (res, fs') ->
     match res with
     | Some out =>
         exists url resp,
           Fetch.http_get (ImageGenerator.net p) url = Ok resp /\
           Fetch.disk (ImageGenerator.net p) out = DiskOk /\
           fs' !! out = Some (content resp)
     | None =>
         fs' = fs \/
         exists path, untouched_or_partial (ImageGenerator.net p) path fs fs'
     end) /\
  (forall frame_id image_path prompt frame,
     get (result_of frame_id image_path None prompt frame) "status" = PStr "failed").
Proof.
  split; [| split].
  - intros. pose proof (video_fetch_outcome _ _ _ _ _ _ _ _ _ _ _ _ _ H) as Ho.
    destruct res as [out|]; [| exact Ho].
    destruct Ho as (-> & url & resp & Hg & Hk & ->).
    split; [reflexivity |]. exists url, resp.
    repeat split; try assumption. apply lookup_insert_eq.
  - intros. pose proof (image_fetch_outcome _ _ _ _ _ _ _ _ H) as Ho.
    destruct res as [out|]; [| exact Ho].
    destruct Ho as (url & resp & Hg & Hk & ->). exists url, resp.
    repeat split; try assumption. apply lookup_insert_eq.
  - reflexivity.
Qed.

(** The theorem on a finished job that serves five bytes. *)
Lemma fetch_outcome_witness :
  exists url resp,
    Fetch.http_get (net (Scenario.steady "VIDEO")) url = Ok resp /\
    Fetch.disk (net (Scenario.steady "VIDEO")) "videos/frame_1.mp4" = DiskOk /\
    (<["videos/frame_1.mp4" := "VIDEO"]> Scenario.disk_1 : files)
      !! "videos/frame_1.mp4" = Some (content resp).
Proof.
  refine (proj2 (proj1 fetch_outcome Scenario.no_repr (Scenario.steady "VIDEO")
    "videos" Scenario.disk_1 "images/frame_1.png" (PStr "a red kite")
    (PStr "frame_1") "std" "5" "kling-v1" (Some "videos/frame_1.mp4")
    (<["videos/frame_1.mp4" := "VIDEO"]> Scenario.disk_1)
    [TaskCreated "task-1"; TaskStatus (PStr "succeed"); TaskCompleted;
     Downloaded "videos/frame_1.mp4"] _)).
  vm_compute. reflexivity.
Defined.

End FetchFacts.

(** ** Video stage: a batch of frames *)

Module VideoBatchFacts.

Import VideoGenerator StageSpec.

Section Batch.

Variable repr_container : pyval -> string.
Variable p : provider.
Variable output_dir : string.
Variables mode duration model_name : string.
Variable use_dify : bool.

Local Abbreviation run :=
  (process_from repr_container p output_dir mode duration model_name use_dify).

(** The loop appends one result per frame, in order. *)
Lemma video_loop_results frames : forall fs results lg out fs' lg',
  run frames fs results lg = (Ok out, fs', lg') ->
  exists new, out = results ++ new /\ Forall2 video_result_for frames new.
Proof.
  induction frames as [|frame rest IH]; intros fs results lg out fs' lg' H.
  - injection H as <- _ _. exists []. rewrite app_nil_r. split; constructor.
  - destruct frame as [| | | | |f]; try discriminate H.
    cbn [process_from] in H.
    destruct (truthy (get f "image_path")) eqn:Ht; cbn [negb] in H.
    + destruct (get f "image_path") as [| | |path| |] eqn:Hip; try discriminate H.
      destruct (generate_from_image _ _ _ _ _ _ _ _ _ _) as [[video_path fs1] l].
      apply IH in H as (new & -> & Hnew).
      eexists (_ :: new). rewrite <- app_assoc. split; [reflexivity |].
      constructor; [| exact Hnew].
      exists f. split; [reflexivity |]. right. rewrite Hip. eauto.
    + apply IH in H as (new & -> & Hnew).
      eexists (_ :: new). rewrite <- app_assoc. split; [reflexivity |].
      constructor; [| exact Hnew].
      exists f. split; [reflexivity |]. left. auto.
Qed.

(** On frames it can work on, the loop returns. *)
Lemma video_loop_returns frames : forall fs results lg,
  forallb video_input_ok frames = true ->
  exists out fs' lg', run frames fs results lg = (Ok out, fs', lg').
Proof.
  induction frames as [|frame rest IH]; intros fs results lg Hok.
  - eauto.
  - cbn [forallb] in Hok. apply andb_true_iff in Hok as [Hf Hrest].
    destruct frame as [| | | | |f]; try discriminate Hf.
    cbn [process_from video_input_ok] in *.
    destruct (get f "image_path") as [| | |path| |] eqn:Hip;
      try (rewrite Hf; cbn [negb]; apply IH; exact Hrest).
    destruct (truthy (PStr path)); cbn [negb].
    + destruct (generate_from_image _ _ _ _ _ _ _ _ _ _) as [[video_path fs1] l].
      apply IH. exact Hrest.
    + apply IH. exact Hrest.
Qed.

End Batch.

Lemma video_result_id frame r :
  video_result_for frame r -> item_id r = video_input_id frame.
Proof.
  intros (f & -> & [[_ ->]|[_ (vp & prompt & ->)]]); reflexivity.
Qed.

Lemma video_result_shape frame r :
  video_result_for frame r -> shaped_as_built "video_path" r = true.
Proof.
  intros (f & -> & [[_ ->]|[_ (vp & prompt & ->)]]).
  - reflexivity.
  - destruct vp; reflexivity.
Qed.

End VideoBatchFacts.

(** ** Image stage: a batch of keyframes *)

Module ImageBatchFacts.

Import ImageGenerator StageSpec.

Section Batch.

Variable repr_container : pyval -> string.
Variable p : provider.
Variable output_dir : string.
Variable model_name : string.
Variable frame_id_prefix : pyval.

Local Abbreviation run :=
  (process_from repr_container p output_dir model_name frame_id_prefix).

(** The loop appends one result per keyframe, in order. *)
Lemma image_loop_results keyframes : forall idx fs results out fs',
  run idx keyframes fs results = (Ok out, fs') ->
  exists new, out = results ++ new /\
    image_results_for repr_container frame_id_prefix idx keyframes new.
Proof.
  induction keyframes as [|keyframe rest IH]; intros idx fs results out fs' H.
  - injection H as <- _. exists []. rewrite app_nil_r. split; [reflexivity | exact I].
  - destruct keyframe as [| | | | |d]; try discriminate H.
    cbn [process_from] in H.
    destruct (sliceable (get_default d "prompt" (PStr ""))); [| discriminate H].
    destruct (generate _ _ _ _ _ _) as [image_path fs1].
    apply IH in H as (new & -> & Hnew).
    eexists (_ :: new). rewrite <- app_assoc. split; [reflexivity |].
    split; [| exact Hnew]. exists d, image_path. auto.
Qed.

(** On keyframes it can work on, the loop returns. *)
Lemma image_loop_returns keyframes : forall idx fs results,
  forallb image_input_ok keyframes = true ->
  exists out fs', run idx keyframes fs results = (Ok out, fs').
Proof.
  induction keyframes as [|keyframe rest IH]; intros idx fs results Hok.
  - eauto.
  - cbn [forallb] in Hok. apply andb_true_iff in Hok as [Hk Hrest].
    destruct keyframe as [| | | | |d]; try discriminate Hk.
    cbn [process_from image_input_ok] in *. rewrite Hk.
    destruct (generate _ _ _ _ _ _) as [image_path fs1].
    apply IH. exact Hrest.
Qed.

Lemma image_results_length keyframes : forall idx new,
  image_results_for repr_container frame_id_prefix idx keyframes new ->
  length new = length keyframes.
Proof.
  induction keyframes as [|k ks IH]; intros idx [|r new] H;
    try (simpl in H; contradiction); [reflexivity |].
  destruct H as [_ H]. cbn [length]. f_equal. eauto.
Qed.

Lemma image_results_ids keyframes : forall idx new,
  image_results_for repr_container frame_id_prefix idx keyframes new ->
  map item_id new = image_input_ids repr_container frame_id_prefix idx keyframes.
Proof.
  induction keyframes as [|k ks IH]; intros idx [|r new] H;
    try (simpl in H; contradiction); [reflexivity |].
  destruct H as [(d & ip & -> & ->) H]. cbn [map image_input_ids].
  f_equal. eauto.
Qed.

Lemma image_results_shape keyframes : forall idx new,
  image_results_for repr_container frame_id_prefix idx keyframes new ->
  Forall (fun r => shaped_as_built "image_path" r = true
                   /\ has_status r "skipped" = false) new.
Proof.
  induction keyframes as [|k ks IH]; intros idx [|r new] H;
    try (simpl in H; contradiction); [constructor |].
  destruct H as [(d & ip & -> & ->) H]. constructor; [| eauto].
  destruct ip; split; reflexivity.
Qed.

(** When every derived frame number is an integer, the ids are the prefix
    followed by the decimal numbers. *)
Lemma image_ids_of_numbers keyframes : forall idx zs,
  frame_numbers idx keyframes = map PInt zs ->
  image_input_ids repr_container frame_id_prefix idx keyframes
  = map (fun z => PStr (str repr_container frame_id_prefix +:+ str_int z)) zs.
Proof.
  induction keyframes as [|k ks IH]; intros idx zs H.
  { destruct zs; [reflexivity | discriminate H]. }
  destruct k as [| |n| | |d], zs as [|z zs]; try discriminate H.
  cbn [frame_numbers map] in H. injection H as Hn Hrest.
  cbn [image_input_ids map]. f_equal; [| eauto].
  unfold frame_id_of. rewrite Hn. reflexivity.
Qed.

End Batch.

Lemma unnumbered_frame_numbers keyframes : forall idx,
  forallb unnumbered keyframes = true ->
  frame_numbers idx keyframes
  = map PInt (map (fun i => Z.of_nat i + 1) (seq idx (length keyframes))).
Proof.
  induction keyframes as [|k ks IH]; intros idx H; [reflexivity |].
  cbn [forallb] in H. apply andb_true_iff in H as [Hk Hrest].
  destruct k as [| | | | |d]; try discriminate Hk.
  cbn [frame_numbers length seq map]. f_equal; [| eauto].
  unfold frame_number_of, py_or. cbn [unnumbered] in Hk.
  destruct (get d "frame_number"); try discriminate Hk. reflexivity.
Qed.

Lemma str_int_inj a b : str_int a = str_int b -> a = b.
Proof.
  unfold str_int. intros H. apply DecimalZ.to_int_inj.
  assert (Hnn : forall z, Z.to_int z <> Decimal.Pos Decimal.Nil
                          /\ Z.to_int z <> Decimal.Neg Decimal.Nil).
  { intros [|q|q]; simpl; split; try discriminate;
      intros [= Hq]; exact (Unsigned.to_uint_nonnil q Hq). }
  pose proof (NilZero.isi (Z.to_int a) (proj1 (Hnn a)) (proj2 (Hnn a))) as Ha.
  pose proof (NilZero.isi (Z.to_int b) (proj1 (Hnn b)) (proj2 (Hnn b))) as Hb.
  rewrite H in Ha. congruence.
Qed.

End ImageBatchFacts.

(** ** Both generation stages: the item results of a batch *)

Module BatchFacts.

Import StageSpec.

(** C2 fails on a frame whose generation fails: the result has status
    "failed", a path field at [None], and no reason at all. *)
Lemma failed_result_has_no_reason :
  ~ video_results_as_spec Scenario.no_repr Scenario.flaky "videos".
Proof.
  intros H.
  set (run := VideoGenerator.process_frame_images Scenario.no_repr Scenario.flaky
                "videos" [PDict Scenario.frame_1] Scenario.disk_1 "kling-v1" "std" "5"
                false).
  assert (E : run = (Ok [VideoGenerator.result_of (PStr "frame_1")
                           (PStr "images/frame_1.png") None (PStr "a red kite")
                           Scenario.frame_1], run.1.2, run.2))
    by (vm_compute; reflexivity).
  apply H in E. inversion E as [|r rs Hbad _]. vm_compute in Hbad.
  discriminate Hbad.
Qed.

(** C2, amended: every result of the video stage and of the image stage
    has one of the shapes the stage builds: a success carries its output
    path and no reason; a failure carries the path field at [None] and no
    reason field (the cause is only logged); a skipped frame, which the
    video stage alone produces, carries the reason "No image available"
    and no path field. *)
Theorem results_shaped_as_built :
  (forall repr_container p output_dir frames fs model_name mode duration
          use_dify results fs' lg,
     VideoGenerator.process_frame_images repr_container p output_dir frames fs
       model_name mode duration use_dify = (Ok results, fs', lg) ->
     Forall (fun r => shaped_as_built "video_path" r = true) results) /\
  (forall repr_container p output_dir keyframes fs model_name frame_id_prefix
          results fs',
     ImageGenerator.process_keyframes repr_container p output_dir keyframes fs
       model_name frame_id_prefix = (Ok results, fs') ->
     Forall (fun r => shaped_as_built "image_path" r = true
                      /\ has_status r "skipped" = false) results).
Proof.
  split.
  - intros * H. unfold VideoGenerator.process_frame_images in H.
    apply VideoBatchFacts.video_loop_results in H as (new & -> & Hnew).
    cbn [app]. induction Hnew as [|frame r frames new Hr _ IH]; constructor.
    + exact (VideoBatchFacts.video_result_shape frame r Hr).
    + exact IH.
  - intros * H. unfold ImageGenerator.process_keyframes in H.
    apply ImageBatchFacts.image_loop_results in H as (new & -> & Hnew).
    exact (ImageBatchFacts.image_results_shape _ _ _ _ _ Hnew).
Qed.

(** The theorem on the frame whose generation fails. *)
Lemma results_shaped_as_built_witness :
  Forall (fun r => shaped_as_built "video_path" r = true)
    [VideoGenerator.result_of (PStr "frame_1") (PStr "images/frame_1.png") None
       (PStr "a red kite") Scenario.frame_1].
Proof.
  refine (proj1 results_shaped_as_built Scenario.no_repr Scenario.flaky "videos"
            [PDict Scenario.frame_1] Scenario.disk_1 "kling-v1" "std" "5" false
            _ Scenario.disk_1
            (VideoGenerator.process_frame_images Scenario.no_repr Scenario.flaky
               "videos" [PDict Scenario.frame_1] Scenario.disk_1 "kling-v1" "std"
               "5" false).2 _).
  vm_compute. reflexivity.
Defined.

(** C9: each generation stage, when it returns, returns one result per
    input item, with the item ids in input order; and it does return on
    every batch of well-formed items (frames that are dicts with a string
    or no image path; keyframes that are dicts with a text prompt). *)
Theorem results_follow_input :
  (forall repr_container p output_dir frames fs model_name mode duration use_dify,
     (forallb video_input_ok frames = true ->
      exists results fs' lg,
        VideoGenerator.process_frame_images repr_container p output_dir frames fs
          model_name mode duration use_dify = (Ok results, fs', lg)) /\
     (forall results fs' lg,
        VideoGenerator.process_frame_images repr_container p output_dir frames fs
          model_name mode duration use_dify = (Ok results, fs', lg) ->
        length results = length frames /\
        map item_id results = map video_input_id frames)) /\
  (forall repr_container p output_dir keyframes fs model_name frame_id_prefix,
     (forallb image_input_ok keyframes = true ->
      exists results fs',
        ImageGenerator.process_keyframes repr_container p output_dir keyframes fs
          model_name frame_id_prefix = (Ok results, fs')) /\
     (forall results fs',
        ImageGenerator.process_keyframes repr_container p output_dir keyframes fs
          model_name frame_id_prefix = (Ok results, fs') ->
        length results = length keyframes /\
        map item_id results
        = image_input_ids repr_container frame_id_prefix 0 keyframes)).
Proof.
  split.
  - intros. split.
    + intros Hok. apply VideoBatchFacts.video_loop_returns. exact Hok.
    + intros results fs' lg H. unfold VideoGenerator.process_frame_images in H.
      apply VideoBatchFacts.video_loop_results in H as (new & -> & Hnew).
      cbn [app]. induction Hnew as [|frame r fr new Hr _ [IHl IHm]];
        [split; reflexivity |].
      cbn [length map]. split; [f_equal; exact IHl |].
      f_equal; [exact (VideoBatchFacts.video_result_id frame r Hr) | exact IHm].
  - intros. split.
    + intros Hok. apply ImageBatchFacts.image_loop_returns. exact Hok.
    + intros results fs' H. unfold ImageGenerator.process_keyframes in H.
      apply ImageBatchFacts.image_loop_results in H as (new & -> & Hnew).
      cbn [app]. split.
      * exact (ImageBatchFacts.image_results_length _ _ _ _ _ Hnew).
      * exact (ImageBatchFacts.image_results_ids _ _ _ _ _ Hnew).
Qed.

(** The theorem on a batch of two keyframes. *)
Lemma results_follow_input_witness :
  exists results fs',
    ImageGenerator.process_keyframes Scenario.no_repr Scenario.painting "images"
      [PDict Scenario.keyframe_numbered_2; PDict Scenario.keyframe_unnumbered]
      ∅ "kling-v1-5" (PStr "frame_") = (Ok results, fs').
Proof.
  refine (proj1 (proj2 results_follow_input Scenario.no_repr Scenario.painting
            "images"
            [PDict Scenario.keyframe_numbered_2; PDict Scenario.keyframe_unnumbered]
            ∅ "kling-v1-5" (PStr "frame_")) _).
  vm_compute. reflexivity.
Defined.

(** C8 fails on a batch whose first keyframe is numbered 2 and whose
    second keyframe has no number: the second gets 2 from its position,
    and both are "frame_2". *)
Lemma explicit_number_meets_index :
  ~ frame_ids_unique Scenario.no_repr Scenario.unreachable "images".
Proof.
  intros H.
  set (run := ImageGenerator.process_keyframes Scenario.no_repr Scenario.unreachable
                "images"
                [PDict Scenario.keyframe_numbered_2; PDict Scenario.keyframe_unnumbered]
                ∅ "kling-v1-5" (PStr "frame_")).
  assert (E : run = (Ok (match run.1 with Ok l => l | Raise _ => [] end), run.2))
    by (vm_compute; reflexivity).
  apply H in E. vm_compute in E.
  inversion E as [|x l Hnin _]. apply Hnin. left.
Qed.

(** C8, amended: the item id of the keyframe at position [idx] is the
    prefix followed by its frame number, the explicit one when it is
    present and not zero, [idx + 1] otherwise; the ids of a batch are
    pairwise distinct whenever these frame numbers are pairwise distinct
    integers, in particular whenever no keyframe has an explicit number. *)
Theorem frame_ids_unique_for_distinct_numbers repr_container p output_dir
    keyframes fs model_name frame_id_prefix results fs' :
  ImageGenerator.process_keyframes repr_container p output_dir keyframes fs
    model_name frame_id_prefix = (Ok results, fs') ->
  map item_id results = image_input_ids repr_container frame_id_prefix 0 keyframes /\
  ((exists zs, frame_numbers 0 keyframes = map PInt zs /\ NoDup zs) ->
   NoDup (map item_id results)) /\
  (forallb unnumbered keyframes = true -> NoDup (map item_id results)).
Proof.
  intros H. unfold ImageGenerator.process_keyframes in H.
  apply ImageBatchFacts.image_loop_results in H as (new & -> & Hnew).
  cbn [app].
  pose proof (ImageBatchFacts.image_results_ids _ _ _ _ _ Hnew) as Hids.
  assert (Hgen : (exists zs, frame_numbers 0 keyframes = map PInt zs /\ NoDup zs) ->
                 NoDup (map item_id new)).
  { intros (zs & Hzs & Hnd). rewrite Hids.
    rewrite (ImageBatchFacts.image_ids_of_numbers _ _ _ _ _ Hzs).
    apply NoDup_ListNoDup, Finite.Injective_map_NoDup;
      [| apply NoDup_ListNoDup; exact Hnd].
    intros a b Hab. injection Hab as Hab.
    apply TextFacts.append_cancel in Hab.
    exact (ImageBatchFacts.str_int_inj a b Hab). }
  split; [exact Hids |]. split; [exact Hgen |].
  intros Hun. apply Hgen.
  exists (map (fun i => Z.of_nat i + 1) (seq 0 (length keyframes))).
  split.
  - exact (ImageBatchFacts.unnumbered_frame_numbers keyframes 0%nat Hun).
  - apply NoDup_ListNoDup, Finite.Injective_map_NoDup; [| apply List.seq_NoDup].
    intros a b Hab. lia.
Qed.

(** The theorem on a batch of two keyframes without numbers. *)
Lemma frame_ids_unique_for_distinct_numbers_witness :
  NoDup [PStr "frame_1"; PStr "frame_2"].
Proof.
  refine (proj2 (proj2
    (frame_ids_unique_for_distinct_numbers Scenario.no_repr Scenario.unreachable
       "images"
       [PDict Scenario.keyframe_unnumbered; PDict Scenario.keyframe_unnumbered]
       ∅ "kling-v1-5" (PStr "frame_")
       [ImageGenerator.result_of "frame_1" (PInt 1) (PStr "dusk") None
          Scenario.keyframe_unnumbered;
        ImageGenerator.result_of "frame_2" (PInt 2) (PStr "dusk") None
          Scenario.keyframe_unnumbered]
       ∅ _)) _).
  - vm_compute. reflexivity.
  - vm_compute. reflexivity.
Defined.

(** X26: whatever the two generation stages are sent, their answer has a
    status: "success", or "error" together with an error text. *)
Lemma stage_answers_have_status :
  (forall repr_container p output_dir model_name mode duration use_dify fs message,
     let out := (VideoGenerator.process_input_message repr_container p output_dir
                   model_name mode duration use_dify fs message).1 in
     out !! "status" = Some (PStr "success") \/
     (out !! "status" = Some (PStr "error") /\ exists e, out !! "error" = Some (PStr e))) /\
  (forall repr_container p output_dir model_name fs message,
     let out := (ImageGenerator.process_input_message repr_container p output_dir
                   model_name fs message).1 in
     out !! "status" = Some (PStr "success") \/
     (out !! "status" = Some (PStr "error") /\ exists e, out !! "error" = Some (PStr e))).
Proof.
  split.
  - intros. subst out. unfold VideoGenerator.process_input_message.
    destruct (truthy _); cbn [negb]; [| right; split; [reflexivity | eexists; reflexivity]].
    destruct (get_default message "frames" (PList []));
      try (right; split; [reflexivity | eexists; reflexivity]).
    destruct (VideoGenerator.process_frame_images _ _ _ _ _ _ _ _ _)
      as [[[results|e] fs'] lg].
    + left. reflexivity.
    + right. split; [reflexivity | eexists; reflexivity].
  - intros. subst out. unfold ImageGenerator.process_input_message.
    destruct (ImageGenerator.prefix_of message) as [frame_id_prefix|e];
      [| right; split; [reflexivity | eexists; reflexivity]].
    destruct (truthy _); cbn [negb]; [| right; split; [reflexivity | eexists; reflexivity]].
    destruct (get_default message "keyframes" (PList []));
      try (right; split; [reflexivity | eexists; reflexivity]).
    destruct (ImageGenerator.process_keyframes _ _ _ _ _ _ _) as [[results|e] fs'].
    + left. reflexivity.
    + right. split; [reflexivity | eexists; reflexivity].
Qed.

End BatchFacts.

(** ** Keyframe parser *)

Module KeyframeParserFacts.

Import KeyframeParser KeyframeParserSpec.

(** The grammar on a few lines. *)
Example classify_pair : classify "  Prompt : a:b  " = Pair "prompt" "a:b".
Proof. reflexivity. Qed.

Example classify_delimiter : classify " ---- cut" = Delimiter.
Proof. reflexivity. Qed.

Example classify_comment : classify "# prompt: not a prompt" = Blank.
Proof. reflexivity. Qed.

Example classify_no_colon : classify "prompt" = Other.
Proof. reflexivity. Qed.

Example int_of_literals :
  Text.int_of "-12_3" = Some (-123) /\ Text.int_of "+7" = Some 7 /\
  Text.int_of "007" = Some 7 /\ Text.int_of "1__2" = None /\
  Text.int_of "7th" = None /\ Text.int_of "" = None.
Proof. repeat split; reflexivity. Qed.

(** The file of three blocks gives two keyframes; the seed and the aspect
    ratio of the middle block go nowhere. *)
Example parse_three_blocks :
  map (fun kf => (prompt kf, frame_number kf, aspect_ratio kf, seed kf))
    (parse_lines (Text.readlines Scenario.keyframe_text) [] ∅)
  = [(PStr "dawn over the bay", PInt 1, PStr "16:9", PNone);
     (PStr "dusk", PNone, PStr "16:9", PNone)].
Proof. vm_compute. reflexivity. Qed.

Lemma has_key_insert_eq (d : dict) k v : has_key (<[k := v]> d) k = true.
Proof. unfold has_key. apply bool_decide_eq_true. rewrite lookup_insert_eq. eauto. Qed.

Lemma has_key_insert_ne (d : dict) k k' v :
  k' <> k -> has_key (<[k' := v]> d) k = has_key d k.
Proof.
  intros Hne. unfold has_key. apply bool_decide_ext.
  rewrite lookup_insert_ne by exact Hne. reflexivity.
Qed.

Lemma has_key_nonempty (d : dict) k : has_key d k = true -> truthy (PDict d) = true.
Proof.
  unfold has_key, truthy. intros H. apply bool_decide_eq_true in H.
  apply negb_true_iff, bool_decide_eq_false. intros ->.
  rewrite lookup_empty in H. destruct H as [x Hx]. discriminate Hx.
Qed.

(** The append of [flush] depends on the prompt key alone. *)
Lemma flush_prompt keyframes current_frame :
  flush keyframes current_frame
  = keyframes ++ (if has_key current_frame "prompt"
                  then [keyframe_of current_frame] else []).
Proof.
  unfold flush. destruct (has_key current_frame "prompt") eqn:Hp.
  - rewrite (has_key_nonempty _ _ Hp). reflexivity.
  - rewrite andb_false_r, app_nil_r. reflexivity.
Qed.

(** Storing a pair adds the prompt key exactly when the key is "prompt". *)
Lemma assign_prompt current_frame key value :
  has_key (assign current_frame key value) "prompt"
  = has_key current_frame "prompt" || String.eqb key "prompt".
Proof.
  unfold assign.
  destruct (String.eqb_spec key "frame") as [->|_];
    [cbn [orb]; destruct (Text.int_of value);
       [rewrite has_key_insert_ne by discriminate |];
       rewrite orb_false_r; reflexivity |].
  destruct (String.eqb_spec key "frame_number") as [->|_];
    [cbn [orb]; destruct (Text.int_of value);
       [rewrite has_key_insert_ne by discriminate |];
       rewrite orb_false_r; reflexivity |].
  cbn [orb].
  destruct (String.eqb_spec key "prompt") as [->|_];
    [rewrite has_key_insert_eq, orb_true_r; reflexivity |].
  rewrite orb_false_r.
  destruct (String.eqb_spec key "negative_prompt") as [->|_];
    [rewrite has_key_insert_ne by discriminate; reflexivity |].
  destruct (String.eqb_spec key "aspect_ratio") as [->|_];
    [rewrite has_key_insert_ne by discriminate; reflexivity |].
  destruct (String.eqb_spec key "seed") as [->|_]; [| reflexivity].
  destruct (Text.int_of value);
    [rewrite has_key_insert_ne by discriminate |]; reflexivity.
Qed.

Lemma store_prompt current_frame raw :
  has_key (store current_frame raw) "prompt"
  = has_key current_frame "prompt" || is_prompt_line raw.
Proof.
  unfold store, is_prompt_line.
  destruct (classify raw); try (rewrite orb_false_r; reflexivity).
  apply assign_prompt.
Qed.

Lemma fold_store_prompt block : forall current_frame,
  has_key (fold_left store block current_frame) "prompt"
  = has_key current_frame "prompt" || has_prompt block.
Proof.
  induction block as [|raw block IH]; intros current_frame; cbn [fold_left].
  - rewrite orb_false_r. reflexivity.
  - rewrite IH, store_prompt. unfold has_prompt. cbn [existsb].
    rewrite orb_assoc. reflexivity.
Qed.

Lemma blocks_nonempty lines : blocks lines <> [].
Proof.
  destruct lines as [|raw rest]; cbn [blocks]; [discriminate |].
  destruct (is_delimiter raw); [discriminate |].
  destruct (blocks rest); discriminate.
Qed.

(** What a block that starts from an empty frame contributes. *)
Lemma flush_block block :
  flush [] (fold_left store block ∅) = keyframes_of_block block.
Proof.
  rewrite flush_prompt, fold_store_prompt. reflexivity.
Qed.

Lemma flush_app keyframes current_frame :
  flush keyframes current_frame = keyframes ++ flush [] current_frame.
Proof. rewrite (flush_prompt keyframes), (flush_prompt []). reflexivity. Qed.

(** The loop, from any state: the keyframes so far, then the block being
    read (continued from [current_frame]), then every later block. *)
Lemma parse_lines_blocks lines : forall keyframes current_frame,
  parse_lines lines keyframes current_frame
  = keyframes
    ++ match blocks lines with
       | b :: bs =>
           flush [] (fold_left store b current_frame)
           ++ flat_map keyframes_of_block bs
       | [] => []
       end.
Proof.
  induction lines as [|raw rest IH]; intros keyframes current_frame.
  - cbn [parse_lines blocks fold_left flat_map]. rewrite app_nil_r.
    apply flush_app.
  - cbn [parse_lines blocks]. unfold is_delimiter.
    pose proof (blocks_nonempty rest) as Hne.
    assert (Hs : store current_frame raw
                 = match classify raw with
                   | Pair key value => assign current_frame key value
                   | _ => current_frame
                   end) by reflexivity.
    destruct (classify raw) as [| |key value|] eqn:Hc; rewrite IH;
      destruct (blocks rest) as [|b bs]; try contradiction;
      cbn [fold_left flat_map]; rewrite ?Hs; try reflexivity.
    rewrite flush_block, (flush_app keyframes). rewrite <- app_assoc.
    reflexivity.
Qed.

Lemma length_block_keyframes bs :
  length (flat_map keyframes_of_block bs) = length (List.filter has_prompt bs).
Proof.
  induction bs as [|b bs IH]; [reflexivity |].
  cbn [flat_map List.filter]. rewrite length_app, IH.
  unfold keyframes_of_block. destruct (has_prompt b); reflexivity.
Qed.

(** C10: the keyframes read from a file are those of its blocks, block by
    block; a block without a prompt line contributes none, whatever else
    it holds, and the message of the stage still has status "success", its
    list and its count covering the blocks with a prompt line only. *)
Theorem blocks_without_prompt_are_dropped :
  (forall lines,
     parse_lines lines [] ∅ = flat_map keyframes_of_block (blocks lines) /\
     length (parse_lines lines [] ∅) = length (List.filter has_prompt (blocks lines))) /\
  (forall block, has_prompt block = false -> keyframes_of_block block = []) /\
  (forall (fs : files) (message : dict) (path text : string),
     get message "keyframes_file" = PStr path -> path <> "" ->
     fs !! path = Some text ->
     let out := process_input_message fs message in
     let kept := flat_map keyframes_of_block (blocks (Text.readlines text)) in
     out !! "status" = Some (PStr "success") /\
     out !! "keyframes" = Some (PList (map (fun kf => PDict (to_dict kf)) kept)) /\
     out !! "count"
     = Some (PInt (len (List.filter has_prompt (blocks (Text.readlines text)))))).
Proof.
  assert (Hparse : forall lines,
            parse_lines lines [] ∅ = flat_map keyframes_of_block (blocks lines)).
  { intros lines. rewrite parse_lines_blocks. cbn [app].
    pose proof (blocks_nonempty lines) as Hne.
    destruct (blocks lines) as [|b bs]; [contradiction |].
    rewrite flush_block. reflexivity. }
  split; [| split].
  - intros lines. split; [apply Hparse |].
    rewrite Hparse. apply length_block_keyframes.
  - intros block Hb. unfold keyframes_of_block. rewrite Hb. reflexivity.
  - intros fs message path text Hfile Hpath Hfs out kept. subst out kept.
    unfold process_input_message. rewrite Hfile. cbn [truthy].
    destruct (String.eqb_spec path "") as [->|_]; [contradiction |].
    cbn [negb as_path bind]. unfold parse_keyframe_file. rewrite Hfs.
    cbn [bind]. rewrite Hparse.
    split; [reflexivity |]. split; [reflexivity |].
    unfold len. rewrite length_map, length_block_keyframes. reflexivity.
Qed.

(** The theorem on a file of three blocks, the middle one without a
    prompt. *)
Lemma blocks_without_prompt_are_dropped_witness :
  let out := process_input_message Scenario.keyframe_disk
               (mkdict [("keyframes_file", PStr "keyframes.txt")]) in
  out !! "status" = Some (PStr "success") /\ out !! "count" = Some (PInt 2).
Proof.
  intros out.
  destruct (proj2 (proj2 blocks_without_prompt_are_dropped)
              Scenario.keyframe_disk
              (mkdict [("keyframes_file", PStr "keyframes.txt")])
              "keyframes.txt" Scenario.keyframe_text)
    as (Hs & _ & Hc).
  - reflexivity.
  - discriminate.
  - reflexivity.
  - split; [exact Hs | exact Hc].
Defined.

(** C4 at the input that breaks it: a message without "keyframes_file"
    (or with an empty or null one) is answered by a message that has an
    "error" entry and no "status" entry at all. *)
Theorem missing_file_answer_has_no_status (fs : files) (message : dict) :
  truthy (get message "keyframes_file") = false ->
  process_input_message fs message
    = mkdict [("error", PStr "Missing required parameter 'keyframes_file'")] /\
  main fs (Ok (PDict message)) !! "status" = None /\
  main fs (Ok (PDict message)) !! "error"
    = Some (PStr "Missing required parameter 'keyframes_file'").
Proof.
  intros Hf. unfold main, process_input_message. rewrite Hf. cbn [negb].
  repeat split; reflexivity.
Qed.

(** The theorem on the empty message. *)
Lemma missing_file_answer_has_no_status_witness :
  main ∅ (Ok (PDict ∅)) !! "status" = None.
Proof.
  exact (proj1 (proj2 (missing_file_answer_has_no_status ∅ ∅ eq_refl))).
Defined.

(** The sibling error paths of the same stage do carry the status: a
    file that cannot be read, a path that is no string, input that is no
    JSON object. *)
Lemma other_error_answers_have_status (fs : files) (message : dict) :
  truthy (get message "keyframes_file") = true ->
  (forall path, get message "keyframes_file" = PStr path -> fs !! path = None ->
     process_input_message fs message !! "status" = Some (PStr "error") /\
     process_input_message fs message !! "error" = Some (PStr "FileNotFoundError")) /\
  (forall e, main fs (Raise e) !! "status" = Some (PStr "error") /\
             main fs (Raise e) !! "error" = Some (PStr e)).
Proof.
  intros Ht. split.
  - intros path Hp Hfs. unfold process_input_message. rewrite Ht, Hp.
    cbn [negb as_path bind]. unfold parse_keyframe_file. rewrite Hfs.
    split; reflexivity.
  - intros e. split; reflexivity.
Qed.

End KeyframeParserFacts.

(** * Further properties *)

(** ** Keyframe parser: grammar and data *)

Module ParserMoreFacts.

Import KeyframeParser KeyframeParserSpec MoreSpec KeyframeParserFacts.

(** X1: a keyframe survives the trip through its dictionary form, so
    [to_dict] loses nothing. *)
Theorem keyframe_dict_round_trip :
  (forall kf, from_dict (to_dict kf) = kf) /\
  (forall kf kf', to_dict kf = to_dict kf' -> kf = kf').
Proof.
  assert (H : forall kf, from_dict (to_dict kf) = kf)
    by (intros [a b c d e f]; reflexivity).
  split; [exact H |].
  intros kf kf' Heq. rewrite <- (H kf), <- (H kf'), Heq. reflexivity.
Qed.

Lemma entry_typed_insert_eq (q : pyval -> bool) (cf : dict) k v :
  entry_typed q (<[k := v]> cf) k = q v.
Proof. unfold entry_typed. rewrite lookup_insert_eq. reflexivity. Qed.

Lemma entry_typed_insert_ne (q : pyval -> bool) (cf : dict) k k' v :
  k' <> k -> entry_typed q (<[k' := v]> cf) k = entry_typed q cf k.
Proof.
  intros Hne. unfold entry_typed. rewrite lookup_insert_ne by exact Hne.
  reflexivity.
Qed.

Lemma frame_typed_insert (q : pyval -> bool) (cf : dict) k v :
  frame_typed cf = true -> q v = true ->
  (k = "prompt" /\ q = is_str) \/ (k = "negative_prompt" /\ q = is_str) \/
  (k = "frame_number" /\ q = is_int) \/ (k = "aspect_ratio" /\ q = is_str) \/
  (k = "seed" /\ q = is_int) ->
  frame_typed (<[k := v]> cf) = true.
Proof.
  unfold frame_typed. intros Hcf Hv Hk.
  repeat (apply andb_true_iff in Hcf as [Hcf ?]).
  destruct Hk as [[-> ->]|[[-> ->]|[[-> ->]|[[-> ->]|[-> ->]]]]];
    rewrite ?entry_typed_insert_eq, ?entry_typed_insert_ne by discriminate;
    repeat (apply andb_true_iff; split); assumption.
Qed.

Lemma assign_typed cf key value :
  frame_typed cf = true -> frame_typed (assign cf key value) = true.
Proof.
  intros Hcf. unfold assign.
  destruct (String.eqb key "frame" || String.eqb key "frame_number").
  { destruct (Text.int_of value); [| exact Hcf].
    apply (frame_typed_insert is_int); auto 10. }
  destruct (String.eqb key "prompt").
  { apply (frame_typed_insert is_str); auto 10. }
  destruct (String.eqb key "negative_prompt").
  { apply (frame_typed_insert is_str); auto 10. }
  destruct (String.eqb key "aspect_ratio").
  { apply (frame_typed_insert is_str); auto 10. }
  destruct (String.eqb key "seed"); [| exact Hcf].
  destruct (Text.int_of value); [| exact Hcf].
  apply (frame_typed_insert is_int); auto 10.
Qed.

Lemma fold_store_typed block : forall cf,
  frame_typed cf = true -> frame_typed (fold_left store block cf) = true.
Proof.
  induction block as [|raw block IH]; intros cf Hcf; [exact Hcf |].
  cbn [fold_left]. apply IH. unfold store.
  destruct (classify raw); try exact Hcf. apply assign_typed. exact Hcf.
Qed.

Lemma keyframe_of_typed cf :
  frame_typed cf = true -> keyframe_typed (keyframe_of cf) = true.
Proof.
  unfold frame_typed, keyframe_typed, keyframe_of, entry_typed, get, get_default.
  cbn [prompt negative_prompt frame_number timestamp aspect_ratio seed].
  intros H. repeat (apply andb_true_iff in H as [H ?]).
  destruct (cf !! "prompt") as [[]|], (cf !! "negative_prompt") as [[]|],
    (cf !! "frame_number") as [[]|], (cf !! "aspect_ratio") as [[]|],
    (cf !! "seed") as [[]|]; try discriminate; reflexivity.
Qed.

(** The keyframes of a file, block by block. *)
Lemma parse_lines_by_blocks lines :
  parse_lines lines [] ∅ = flat_map keyframes_of_block (blocks lines).
Proof.
  rewrite parse_lines_blocks. cbn [app].
  pose proof (blocks_nonempty lines) as Hne.
  destruct (blocks lines) as [|b bs]; [contradiction |].
  rewrite flush_block. reflexivity.
Qed.

Lemma parse_lines_typed (lines : list string) :
  Forall (fun kf => keyframe_typed kf = true) (parse_lines lines [] ∅).
Proof.
  rewrite parse_lines_by_blocks.
  induction (blocks lines) as [|b bs IH]; [constructor |].
  cbn [flat_map]. apply Forall_app. split; [| exact IH].
  unfold keyframes_of_block. destruct (has_prompt b); constructor; [| constructor].
  apply keyframe_of_typed, fold_store_typed. reflexivity.
Qed.

(** X2: whatever a keyframe file holds, every keyframe read from it has a
    text prompt and a text aspect ratio, a negative prompt that is text or
    [None], a frame number and a seed that are integers or [None], and no
    timestamp. *)
Theorem parsed_keyframes_are_typed (fs : files) (file_path : string)
    (keyframes : list KeyframeData) :
  parse_keyframe_file fs file_path = Ok keyframes ->
  Forall (fun kf => keyframe_typed kf = true) keyframes.
Proof.
  unfold parse_keyframe_file. destruct (fs !! file_path) as [text|];
    [| discriminate].
  intros [= <-]. apply parse_lines_typed.
Qed.

Lemma parsed_keyframes_are_typed_witness :
  Forall (fun kf => keyframe_typed kf = true)
    (parse_lines (Text.readlines Scenario.keyframe_text) [] ∅).
Proof.
  apply (parsed_keyframes_are_typed Scenario.keyframe_disk "keyframes.txt").
  reflexivity.
Defined.

Lemma blocks_app l1 d l2 :
  is_delimiter d = true -> blocks (l1 ++ d :: l2) = blocks l1 ++ blocks l2.
Proof.
  intros Hd. induction l1 as [|raw l1 IH].
  - cbn [app blocks]. rewrite Hd. reflexivity.
  - cbn [app blocks]. rewrite IH.
    pose proof (blocks_nonempty l1) as Hne.
    destruct (is_delimiter raw); [reflexivity |].
    destruct (blocks l1) as [|b bs]; [contradiction | reflexivity].
Qed.

(** X3: nothing is carried over a delimiter line: the keyframes of a file
    are those of the part before the delimiter followed by those of the
    part after it. *)
Theorem delimiter_separates (l1 l2 : list string) (d : string) :
  is_delimiter d = true ->
  parse_lines (l1 ++ d :: l2) [] ∅
  = parse_lines l1 [] ∅ ++ parse_lines l2 [] ∅.
Proof.
  intros Hd. rewrite !parse_lines_by_blocks, (blocks_app _ _ _ Hd).
  apply flat_map_app.
Qed.

Lemma delimiter_separates_witness :
  parse_lines (["prompt: a"; "seed: 1"] ++ "---" :: ["prompt: b"]) [] ∅
  = parse_lines ["prompt: a"; "seed: 1"] [] ∅ ++ parse_lines ["prompt: b"] [] ∅.
Proof. apply delimiter_separates. reflexivity. Defined.

Lemma store_lookup_other cf raw k :
  stored_key raw <> Some k -> store cf raw !! k = cf !! k.
Proof.
  unfold stored_key, store. destruct (classify raw) as [| |key value|];
    try reflexivity.
  unfold assign.
  destruct (String.eqb key "frame" || String.eqb key "frame_number").
  { destruct (Text.int_of value); [| reflexivity].
    intros H. rewrite lookup_insert_ne by congruence. reflexivity. }
  destruct (String.eqb key "prompt").
  { intros H. rewrite lookup_insert_ne by congruence. reflexivity. }
  destruct (String.eqb key "negative_prompt").
  { intros H. rewrite lookup_insert_ne by congruence. reflexivity. }
  destruct (String.eqb key "aspect_ratio").
  { intros H. rewrite lookup_insert_ne by congruence. reflexivity. }
  destruct (String.eqb key "seed"); [| reflexivity].
  destruct (Text.int_of value); [| reflexivity].
  intros H. rewrite lookup_insert_ne by congruence. reflexivity.
Qed.

Lemma store_nothing cf raw : stored_key raw = None -> store cf raw = cf.
Proof.
  unfold stored_key, store. destruct (classify raw) as [| |key value|];
    try reflexivity.
  unfold assign.
  destruct (String.eqb key "frame" || String.eqb key "frame_number").
  { destruct (Text.int_of value); [discriminate | reflexivity]. }
  destruct (String.eqb key "prompt"); [discriminate |].
  destruct (String.eqb key "negative_prompt"); [discriminate |].
  destruct (String.eqb key "aspect_ratio"); [discriminate |].
  destruct (String.eqb key "seed"); [| reflexivity].
  destruct (Text.int_of value); [discriminate | reflexivity].
Qed.

(** X4: blank lines, comments, lines without a colon, lines with an
    unknown key, and frame or seed lines whose value is no integer can be
    taken out of a file without changing what is read from it. *)
Theorem noise_lines_are_skipped (lines : list string) :
  forall keyframes current_frame,
    parse_lines (List.filter (fun raw => negb (is_noise raw)) lines)
      keyframes current_frame
    = parse_lines lines keyframes current_frame.
Proof.
  induction lines as [|raw rest IH]; intros keyframes current_frame;
    [reflexivity |].
  cbn [List.filter]. unfold is_noise at 1, is_delimiter.
  pose proof (store_nothing current_frame raw) as Hs.
  unfold store in Hs.
  destruct (classify raw) as [| |key value|] eqn:Hc; cbn [negb andb].
  - destruct (stored_key raw); cbn [negb]; cbn [parse_lines]; rewrite ?Hc;
      apply IH.
  - cbn [parse_lines]. rewrite Hc. apply IH.
  - destruct (stored_key raw) eqn:Hk; cbn [negb]; cbn [parse_lines]; rewrite Hc.
    + apply IH.
    + rewrite Hs by reflexivity. apply IH.
  - destruct (stored_key raw); cbn [negb]; cbn [parse_lines]; rewrite ?Hc;
      apply IH.
Qed.

Lemma fold_store_lookup_other block k : forall cf,
  Forall (fun raw => stored_key raw <> Some k) block ->
  fold_left store block cf !! k = cf !! k.
Proof.
  induction block as [|raw block IH]; intros cf H; [reflexivity |].
  inversion H as [|? ? Hraw Hrest]; subst. cbn [fold_left].
  rewrite IH by exact Hrest. apply store_lookup_other. exact Hraw.
Qed.

Lemma no_delimiter_one_block block :
  forallb (fun raw => negb (is_delimiter raw)) block = true ->
  blocks block = [block].
Proof.
  induction block as [|raw block IH]; [reflexivity |].
  cbn [forallb blocks]. intros H. apply andb_true_iff in H as [Hraw Hrest].
  apply negb_true_iff in Hraw. rewrite Hraw, (IH Hrest). reflexivity.
Qed.

Lemma fold_left_app_store b1 b2 cf :
  fold_left store (b1 ++ b2) cf = fold_left store b2 (fold_left store b1 cf).
Proof. apply fold_left_app. Qed.

(** X5: within a block the last prompt line wins: the block gives one
    keyframe, and its prompt is the value of that line. *)
Theorem last_prompt_wins (before after : list string) (raw value : string) :
  forallb (fun l => negb (is_delimiter l)) (before ++ raw :: after) = true ->
  classify raw = Pair "prompt" value ->
  has_prompt after = false ->
  exists kf,
    parse_lines (before ++ raw :: after) [] ∅ = [kf] /\ prompt kf = PStr value.
Proof.
  intros Hnd Hraw Hafter.
  rewrite parse_lines_by_blocks, (no_delimiter_one_block _ Hnd).
  cbn [flat_map]. rewrite app_nil_r. unfold keyframes_of_block.
  assert (Hp : has_prompt (before ++ raw :: after) = true).
  { unfold has_prompt. rewrite existsb_app. cbn [existsb].
    unfold is_prompt_line at 2. rewrite Hraw. cbn.
    rewrite orb_true_r. reflexivity. }
  rewrite Hp. eexists. split; [reflexivity |].
  unfold keyframe_of. cbn [prompt]. unfold get_default.
  rewrite fold_left_app_store. cbn [fold_left].
  rewrite fold_store_lookup_other.
  - unfold store. rewrite Hraw. unfold assign. cbn.
    rewrite lookup_insert_eq. reflexivity.
  - apply Forall_forall. intros l Hl Hk.
    assert (Hl' : is_prompt_line l = true).
    { unfold is_prompt_line. unfold stored_key in Hk.
      destruct (classify l) as [| |key v|]; try discriminate Hk.
      destruct (String.eqb key "frame" || String.eqb key "frame_number");
        [destruct (Text.int_of v); discriminate Hk |].
      destruct (String.eqb key "prompt"); [reflexivity |].
      destruct (String.eqb key "negative_prompt"); [discriminate Hk |].
      destruct (String.eqb key "aspect_ratio"); [discriminate Hk |].
      destruct (String.eqb key "seed"); [| discriminate Hk].
      destruct (Text.int_of v); discriminate Hk. }
    unfold has_prompt in Hafter.
    assert (existsb is_prompt_line after = true)
      by (apply existsb_exists; exists l; split;
          [apply list_elem_of_In; exact Hl | exact Hl']).
    congruence.
Qed.

Lemma last_prompt_wins_witness :
  exists kf,
    parse_lines (["prompt: first draft"] ++ "Prompt: final" :: ["seed: 7"]) [] ∅
    = [kf] /\ prompt kf = PStr "final".
Proof. apply last_prompt_wins; reflexivity. Defined.

(** X6: the [default_aspect_ratio] and [frame_id_prefix] of the input
    message reach the metadata of the answer only: status, keyframes and
    count are the same whatever they are, and a keyframe whose block has no
    aspect ratio line gets "16:9". *)
Theorem message_defaults_do_not_reach_keyframes :
  (forall (fs : files) (message : dict) (v w : pyval),
     let out := process_input_message fs message in
     let out' := process_input_message fs
                   (<["default_aspect_ratio" := v]>
                      (<["frame_id_prefix" := w]> message)) in
     out' !! "status" = out !! "status" /\
     out' !! "keyframes" = out !! "keyframes" /\
     out' !! "count" = out !! "count") /\
  (forall block,
     Forall (fun raw => stored_key raw <> Some "aspect_ratio") block ->
     aspect_ratio (keyframe_of (fold_left store block ∅)) = PStr "16:9").
Proof.
  split.
  - intros fs message v w out out'. subst out out'.
    unfold process_input_message.
    assert (Hk : get (<["default_aspect_ratio" := v]>
                        (<["frame_id_prefix" := w]> message)) "keyframes_file"
                 = get message "keyframes_file").
    { unfold get. rewrite !lookup_insert_ne by discriminate. reflexivity. }
    rewrite Hk. destruct (truthy (get message "keyframes_file")); cbn [negb];
      [| repeat split; reflexivity].
    destruct (bind (as_path (get message "keyframes_file")) _) as [[kp kd]|e];
      repeat split; reflexivity.
  - intros block Hb. unfold keyframe_of. cbn [aspect_ratio].
    unfold get_default. rewrite (fold_store_lookup_other _ _ _ Hb).
    reflexivity.
Qed.

Lemma message_defaults_do_not_reach_keyframes_witness :
  aspect_ratio (keyframe_of (fold_left store ["prompt: a"; "seed: 4"] ∅))
  = PStr "16:9".
Proof.
  apply (proj2 message_defaults_do_not_reach_keyframes).
  repeat constructor; discriminate.
Defined.

End ParserMoreFacts.

(** ** Downloads and the files of a batch *)

Module FilesMoreFacts.

Import StageSpec MoreSpec.

Lemma download_elsewhere net (fs : files) url path r fs' :
  Fetch.download net fs url path = (r, fs') ->
  forall q, q <> path -> fs' !! q = fs !! q.
Proof.
  unfold Fetch.download. intros H q Hq.
  destruct (Fetch.http_get net url) as [resp|e]; [| injection H as _ <-; reflexivity].
  destruct (Fetch.disk net path); injection H as _ <-;
    rewrite ?lookup_insert_ne by congruence; reflexivity.
Qed.

Lemma download_keeps net (fs : files) url path r fs' :
  Fetch.download net fs url path = (r, fs') ->
  forall q, is_Some (fs !! q) -> is_Some (fs' !! q).
Proof.
  intros H q Hq. destruct (decide (q = path)) as [->|Hne].
  - unfold Fetch.download in H.
    destruct (Fetch.http_get net url) as [resp|e]; [| injection H as _ <-; exact Hq].
    destruct (Fetch.disk net path); injection H as _ <-;
      rewrite ?lookup_insert_eq; eauto.
  - rewrite (download_elsewhere _ _ _ _ _ _ H q Hne). exact Hq.
Qed.

Lemma append_assoc (a b c : string) : (a +:+ b) +:+ c = a +:+ (b +:+ c).
Proof.
  induction a as [|x a IH]; [reflexivity |].
  change (String x ((a +:+ b) +:+ c) = String x (a +:+ (b +:+ c))).
  f_equal. exact IH.
Qed.

Lemma path_join_suffix dir name suffix :
  has_suffix name suffix -> has_suffix (path_join dir name) suffix.
Proof.
  intros [front ->]. unfold path_join.
  destruct (String.prefix "/" (front +:+ suffix)).
  - exists front. reflexivity.
  - exists (dir +:+ "/" +:+ front). rewrite !append_assoc. reflexivity.
Qed.

(** A concrete name without a given ending: the front would have to be
    one of finitely many strings. *)
Ltac refute_suffix :=
  let front := fresh "front" in
  let H := fresh "H" in
  intros [front H];
  repeat (destruct front as [|? front];
          [discriminate H | try discriminate H; injection H as _ H]).

Lemma path_join_nonempty dir name : path_join dir name <> "".
Proof.
  unfold path_join. destruct name as [|c name].
  - simpl. destruct dir; discriminate.
  - destruct (String.prefix "/" (String c name)); [discriminate |].
    destruct dir; discriminate.
Qed.

End FilesMoreFacts.

(** ** Image stage: files and hand-over *)

Module ImageMoreFacts.

Import ImageGenerator StageSpec MoreSpec FilesMoreFacts.

Section Batch.

Variable repr_container : pyval -> string.
Variable p : provider.
Variable output_dir : string.
Variable model_name : string.
Variable frame_id_prefix : pyval.

Local Abbreviation gen := (generate repr_container p output_dir).
Local Abbreviation run :=
  (process_from repr_container p output_dir model_name frame_id_prefix).

(** What a call of [generate] does to the disk and what it returns. *)
Lemma generate_effect (fs : files) req frame_id res fs' :
  gen fs req frame_id = (res, fs') ->
  (forall q, ~ has_suffix q ".png" -> fs' !! q = fs !! q) /\
  (forall q, is_Some (fs !! q) -> is_Some (fs' !! q)) /\
  (forall out, res = Some out -> out <> "" /\ is_Some (fs' !! out)).
Proof.
  unfold generate. intros H.
  destruct (create_image_generation_task p req) as [task_id|e];
    [| injection H as <- <-; repeat split; [auto | discriminate | discriminate]].
  destruct (wait_for_image_generation_completion p task_id)
    as [[|image_url urls]|e];
    try (injection H as <- <-; repeat split; [auto | discriminate | discriminate]).
  cbv zeta in H.
  match type of H with
  | context [Fetch.download _ _ _ ?out] => set (path := out) in *
  end.
  assert (Hsuf : has_suffix path ".png").
  { subst path. apply path_join_suffix.
    destruct (truthy frame_id); eexists; reflexivity || idtac.
    rewrite <- append_assoc. reflexivity. }
  destruct (Fetch.download (net p) fs image_url path) as [r fs1] eqn:Hd.
  assert (Hfs : fs' = fs1) by (destruct r; injection H as _ <-; reflexivity).
  subst fs1. split; [| split].
  - intros q Hq. apply (download_elsewhere _ _ _ _ _ _ Hd).
    intros ->. exact (Hq Hsuf).
  - apply (download_keeps _ _ _ _ _ _ Hd).
  - intros out ->. destruct r as [[]|e]; [| discriminate H].
    injection H as <-. split; [apply path_join_nonempty |].
    apply FetchFacts.download_ok in Hd as (resp & _ & _ & ->).
    rewrite lookup_insert_eq. eauto.
Qed.

(** A property of the disk and the results that every item keeps is kept
    by the loop. *)
Lemma image_loop_invariant (P : files -> list dict -> Prop) :
  (forall fs results idx d image_path fs1,
     P fs results ->
     gen fs
       {| req_model_name := model_name;
          req_prompt := get_default d "prompt" (PStr "");
          req_negative_prompt := get_default d "negative_prompt" (PStr "");
          req_aspect_ratio := get_default d "aspect_ratio" (PStr "16:9");
          req_seed := get d "seed" |}
       (PStr (frame_id_of repr_container frame_id_prefix idx d))
     = (image_path, fs1) ->
     P fs1 (results
            ++ [result_of (frame_id_of repr_container frame_id_prefix idx d)
                  (frame_number_of idx d) (get_default d "prompt" (PStr ""))
                  image_path d])) ->
  forall keyframes idx fs results out fs',
    run idx keyframes fs results = (Ok out, fs') ->
    P fs results -> P fs' out.
Proof.
  intros Hstep keyframes.
  induction keyframes as [|keyframe rest IH]; intros idx fs results out fs' H HP.
  - injection H as <- <-. exact HP.
  - destruct keyframe as [| | | | |d]; try discriminate H.
    cbn [process_from] in H.
    destruct (sliceable (get_default d "prompt" (PStr ""))); [| discriminate H].
    destruct (generate _ _ _ _ _ _) as [image_path fs1] eqn:Hg.
    apply IH in H; [exact H |]. eapply Hstep; eassumption.
Qed.

End Batch.

(** X7: at the end of a batch of the image stage, every result with
    status "success" names a file that is on the disk. *)
Theorem image_success_paths_exist repr_container p output_dir keyframes
    (fs : files) model_name frame_id_prefix results fs' :
  process_keyframes repr_container p output_dir keyframes fs model_name
    frame_id_prefix = (Ok results, fs') ->
  Forall (fun r => has_status r "success" = true ->
                   exists path, get r "image_path" = PStr path /\ path <> ""
                                /\ is_Some (fs' !! path)) results.
Proof.
  unfold process_keyframes. intros H.
  refine (image_loop_invariant repr_container p output_dir model_name
            frame_id_prefix
            (fun fs results =>
               Forall (fun r => has_status r "success" = true ->
                                exists path, get r "image_path" = PStr path
                                             /\ path <> ""
                                             /\ is_Some (fs !! path)) results)
            _ _ _ _ _ _ _ H _); [| constructor].
  intros fs0 results0 idx d image_path fs1 HP Hg.
  apply generate_effect in Hg as (_ & Hkeep & Hnew).
  apply Forall_app. split.
  - eapply Forall_impl; [exact HP |]. cbn beta.
    intros r Hr Hs. destruct (Hr Hs) as (path & Hp & Hne & Hin).
    exists path. auto.
  - constructor; [| constructor]. intros Hs.
    destruct image_path as [out|]; [| discriminate Hs].
    destruct (Hnew out eq_refl) as [Hne Hin]. exists out. auto.
Qed.

Lemma image_success_paths_exist_witness :
  Forall (fun r => has_status r "success" = true ->
                   exists path, get r "image_path" = PStr path /\ path <> ""
                                /\ is_Some ((<["images/frame_1.png" := "PNG"]> ∅ : files)
                                            !! path))
    [result_of "frame_1" (PInt 1) (PStr "dusk") (Some "images/frame_1.png")
       Scenario.keyframe_unnumbered].
Proof.
  apply (image_success_paths_exist Scenario.no_repr Scenario.painting "images"
           [PDict Scenario.keyframe_unnumbered] ∅ "kling-v1-5" (PStr "frame_")).
  vm_compute. reflexivity.
Defined.

(** X8: a batch of the image stage touches no file whose name does not
    end in ".png", and removes none. *)
Theorem image_stage_writes_png_only repr_container p output_dir keyframes
    (fs : files) model_name frame_id_prefix results fs' :
  process_keyframes repr_container p output_dir keyframes fs model_name
    frame_id_prefix = (Ok results, fs') ->
  (forall q, ~ has_suffix q ".png" -> fs' !! q = fs !! q) /\
  (forall q, is_Some (fs !! q) -> is_Some (fs' !! q)).
Proof.
  unfold process_keyframes. intros H.
  refine (image_loop_invariant repr_container p output_dir model_name
            frame_id_prefix
            (fun fs1 _ =>
               (forall q, ~ has_suffix q ".png" -> fs1 !! q = fs !! q) /\
               (forall q, is_Some (fs !! q) -> is_Some (fs1 !! q)))
            _ _ _ _ _ _ _ H _); [| split; auto].
  intros fs0 results0 idx d image_path fs1 [HP1 HP2] Hg.
  apply generate_effect in Hg as (Hframe & Hkeep & _). split.
  - intros q Hq. rewrite (Hframe q Hq). apply HP1. exact Hq.
  - intros q Hq. apply Hkeep, HP2, Hq.
Qed.

Lemma image_stage_writes_png_only_witness :
  (<["images/frame_1.png" := "PNG"]> Scenario.keyframe_disk : files)
    !! "keyframes.txt"
  = Scenario.keyframe_disk !! "keyframes.txt".
Proof.
  refine (proj1 (image_stage_writes_png_only Scenario.no_repr Scenario.painting
            "images" [PDict Scenario.keyframe_unnumbered] Scenario.keyframe_disk
            "kling-v1-5" (PStr "frame_")
            [result_of "frame_1" (PInt 1) (PStr "dusk") (Some "images/frame_1.png")
               Scenario.keyframe_unnumbered] _ _) "keyframes.txt" _).
  - vm_compute. reflexivity.
  - refute_suffix.
Defined.

End ImageMoreFacts.

(** ** Video stage: the poll loop on every provider *)

Module PollLoopMoreFacts.

Import VideoGenerator VideoGeneratorSpec PollLoopFacts.

Section Loop.

Variable max_wait_time : Z.
Variable check_interval : positive.
Variable get_task_status : nat -> outcome dict.

Local Abbreviation loop := (poll_loop max_wait_time check_interval get_task_status).

(** One turn of the loop, case by case. *)
Lemma poll_loop_cases n el lg :
  loop n el lg
  = if Z_lt_dec el max_wait_time then
      match get_task_status n with
      | Raise e =>
          {| exit := Raised e; polls := S n; elapsed := el;
             log := lg ++ [StatusError e] |}
      | Ok response =>
          match inspect_response response with
          | (Succeed data, l) =>
              {| exit := Break data; polls := S n; elapsed := el; log := lg ++ l |}
          | (Failed, l) =>
              {| exit := ReturnNone; polls := S n; elapsed := el; log := lg ++ l |}
          | (Pending, l) =>
              loop (S n) (el + Z.pos check_interval) (lg ++ l)
          end
      end
    else {| exit := TimedOut; polls := n; elapsed := el; log := lg ++ [Timeout] |}.
Proof.
  rewrite poll_loop_equation_1 at 1.
  destruct (Z_lt_dec el max_wait_time); [| reflexivity].
  simpl. destruct (get_task_status n) as [response|e]; [| reflexivity].
  simpl. destruct (inspect_response response) as [[data| |] evs]; reflexivity.
Qed.

(** A terminal answer ends the loop at the poll that hears it. *)
Lemma terminal_answer_ends_loop k lg response :
  (forall i, (i < k)%nat -> is_pending (get_task_status i) = true) ->
  get_task_status k = Ok response ->
  is_pending (Ok response) = false ->
  Z.of_nat k * Z.pos check_interval < max_wait_time ->
  loop 0%nat 0 lg
  = {| exit := match (inspect_response response).1 with
               | Succeed data => Break data
               | _ => ReturnNone
               end;
       polls := S k;
       elapsed := Z.of_nat k * Z.pos check_interval;
       log := (lg ++ run_events get_task_status 0 k)
              ++ (inspect_response response).2 |}.
Proof.
  intros Hp Hk Ht Hlt.
  pose proof (Pos2Z.is_pos check_interval) as Hci.
  rewrite (poll_loop_pending_run _ _ _ k).
  - cbn [Nat.add Z.add]. rewrite poll_loop_cases.
    destruct (Z_lt_dec _ _); [| lia]. rewrite Hk.
    unfold is_pending in Ht.
    destruct (inspect_response response) as [[data| |] evs]; cbn [fst snd] in *;
      try discriminate Ht; reflexivity.
  - intros i Hi. apply Hp. exact Hi.
  - intros i Hi. nia.
Qed.

(** The loop never polls more often than its budget allows. *)
Lemma polls_bounded N : forall n el lg,
  max_wait_time - el <= Z.of_nat N * Z.pos check_interval ->
  (polls (loop n el lg) <= n + N)%nat /\
  elapsed (loop n el lg) <= el + Z.of_nat N * Z.pos check_interval /\
  el <= elapsed (loop n el lg).
Proof.
  pose proof (Pos2Z.is_pos check_interval) as Hci.
  induction N as [|N IH]; intros n el lg Hb; rewrite poll_loop_cases.
  - destruct (Z_lt_dec el max_wait_time); [lia |]. cbn [polls elapsed]. lia.
  - destruct (Z_lt_dec el max_wait_time); [| cbn [polls elapsed]; lia].
    destruct (get_task_status n) as [response|e]; [| cbn [polls elapsed]; lia].
    destruct (inspect_response response) as [[data| |] evs];
      try (cbn [polls elapsed]; lia).
    destruct (IH (S n) (el + Z.pos check_interval) (lg ++ evs) ltac:(lia))
      as (H1 & H2 & H3).
    lia.
Qed.

End Loop.

(** X9: with [k] pending answers before it, the first answer "succeed"
    ends the loop at poll [k+1], with the job's data and without another
    sleep; the first answer "failed" ends it the same way, with nothing. *)
Theorem first_terminal_answer_ends_polling (max_wait_time : Z)
    (check_interval : positive) (get_task_status : nat -> outcome dict)
    (k : nat) (response : dict) :
  (forall i, (i < k)%nat -> is_pending (get_task_status i) = true) ->
  get_task_status k = Ok response ->
  Z.of_nat k * Z.pos check_interval < max_wait_time ->
  let r := poll_loop max_wait_time check_interval get_task_status 0 0 [] in
  (forall data, (inspect_response response).1 = Succeed data ->
     exit r = Break data /\ polls r = S k
     /\ elapsed r = Z.of_nat k * Z.pos check_interval) /\
  ((inspect_response response).1 = Failed ->
     exit r = ReturnNone /\ polls r = S k
     /\ elapsed r = Z.of_nat k * Z.pos check_interval).
Proof.
  intros Hp Hk Hlt r. subst r. split.
  - intros data Hi.
    rewrite (terminal_answer_ends_loop _ _ _ k [] response Hp Hk); try assumption.
    + rewrite Hi. repeat split.
    + unfold is_pending. rewrite Hi. reflexivity.
  - intros Hi.
    rewrite (terminal_answer_ends_loop _ _ _ k [] response Hp Hk); try assumption.
    + rewrite Hi. repeat split.
    + unfold is_pending. rewrite Hi. reflexivity.
Qed.

Lemma first_terminal_answer_ends_polling_witness :
  let slow : nat -> outcome dict :=
    fun i => match i with
             | 0%nat | 1%nat => Ok Scenario.processing_response
             | _ => Ok Scenario.succeed_response
             end in
  let r := poll_loop 300 5 slow 0 0 [] in
  polls r = 3%nat /\ elapsed r = 10.
Proof.
  intros slow r.
  destruct (first_terminal_answer_ends_polling 300 5 slow 2 Scenario.succeed_response)
    as [Hs _].
  - intros [|[|i]] Hi; [reflexivity | reflexivity | lia].
  - reflexivity.
  - reflexivity.
  - destruct (Hs _ eq_refl) as (_ & Hn & He). split; [exact Hn | exact He].
Defined.

(** X10: whatever the provider answers, the loop makes at most
    [max_wait_time / check_interval] (rounded up) status requests and its
    clock stops at or below that many intervals; with the constants of the
    source: at most 60 requests and 300 seconds per item. *)
Theorem polls_never_exceed_budget (max_wait_time : Z) (check_interval : positive)
    (get_task_status : nat -> outcome dict) (lg : list log_event) :
  let r := poll_loop max_wait_time check_interval get_task_status 0 0 lg in
  let r300 := poll_loop 300 5 get_task_status 0 0 lg in
  (polls r <= polls_until_timeout max_wait_time check_interval)%nat /\
  0 <= elapsed r
    <= Z.of_nat (polls_until_timeout max_wait_time check_interval)
       * Z.pos check_interval /\
  (polls r300 <= 60)%nat /\ elapsed r300 <= 300.
Proof.
  intros r r300. subst r r300.
  assert (Hgen : forall m c,
            m - 0 <= Z.of_nat (polls_until_timeout m c) * Z.pos c).
  { intros m c. destruct (Z_lt_dec 0 m) as [Hpos|Hn].
    - pose proof (ceil_polls_bounds m c Hpos). lia.
    - pose proof (Pos2Z.is_pos c). lia. }
  destruct (polls_bounded max_wait_time check_interval get_task_status _ 0 0 lg
              (Hgen max_wait_time check_interval)) as (H1 & H2 & H3).
  destruct (polls_bounded 300 5 get_task_status 60 0 0 lg ltac:(lia))
    as (H4 & H5 & H6).
  repeat split; lia.
Qed.

End PollLoopMoreFacts.

(** ** Video stage: items, files and hand-over *)

Module VideoMoreFacts.

Import VideoGenerator VideoGeneratorSpec StageSpec MoreSpec FilesMoreFacts
  PollLoopFacts PollLoopMoreFacts.

(** X11: a finished job yields a URL exactly when its "task_result" is a
    dict whose "videos" is a list that starts with a dict that has a
    "url"; every other shape yields none. *)
Theorem video_url_needs_well_shaped_result (completed_task : dict) (url : pyval) :
  video_url_of completed_task = Ok (Some url) <->
  exists task_result first rest,
    completed_task !! "task_result" = Some (PDict task_result) /\
    task_result !! "videos" = Some (PList (PDict first :: rest)) /\
    first !! "url" = Some url.
Proof.
  unfold video_url_of, get, has_key. split.
  - intros H.
    destruct (truthy (PDict completed_task)); cbn [andb] in H; [| discriminate H].
    destruct (completed_task !! "task_result") as [task_result|] eqn:Htr;
      [| rewrite bool_decide_eq_false_2 in H by (intros [? ?]; discriminate);
         discriminate H].
    rewrite bool_decide_eq_true_2 in H by eauto. cbn [andb] in H.
    destruct (truthy task_result); [| discriminate H].
    destruct task_result as [| | | | |tr]; cbn [contains bind] in H;
      try discriminate H.
    + destruct (String.index 0 "videos" s); discriminate H.
    + destruct (existsb _ l); discriminate H.
    + unfold has_key in H.
      destruct (tr !! "videos") as [videos|] eqn:Hv;
        [| rewrite bool_decide_eq_false_2 in H by (intros [? ?]; discriminate);
           discriminate H].
      rewrite bool_decide_eq_true_2 in H by eauto.
      cbn [getitem bind] in H. rewrite Hv in H. cbn [bind] in H.
      destruct (truthy videos); [| discriminate H].
      destruct videos as [| | |s|l|d]; cbn [len_positive bind] in H;
        try discriminate H.
      * destruct (negb (String.eqb s "")); [| discriminate H].
        destruct s; cbn in H; discriminate H.
      * destruct l as [|first rest]; [discriminate H |].
        cbn [getitem0 bind] in H.
        destruct first as [| | | | |fd]; cbn [is_dict] in H; try discriminate H.
        cbn [contains bind] in H. unfold has_key in H.
        destruct (fd !! "url") as [u|] eqn:Hu;
          [| rewrite bool_decide_eq_false_2 in H by (intros [? ?]; discriminate);
             discriminate H].
        rewrite bool_decide_eq_true_2 in H by eauto.
        cbn [getitem bind] in H. rewrite Hu in H. injection H as <-.
        exists tr, fd, rest. auto.
      * destruct (negb (bool_decide (d = ∅))); discriminate H.
  - intros (tr & first & rest & Htr & Hv & Hu).
    assert (Hne : completed_task <> ∅)
      by (intros ->; rewrite lookup_empty in Htr; discriminate Htr).
    assert (Hne' : tr <> ∅)
      by (intros ->; rewrite lookup_empty in Hv; discriminate Hv).
    cbn [truthy]. rewrite (bool_decide_eq_false_2 _ Hne). rewrite Htr.
    rewrite bool_decide_eq_true_2 by eauto.
    cbn [truthy negb andb]. rewrite (bool_decide_eq_false_2 _ Hne').
    cbn [negb contains bind]. unfold has_key. rewrite Hv.
    rewrite bool_decide_eq_true_2 by eauto.
    cbn [getitem bind]. rewrite Hv. cbn [bind truthy len_positive getitem0 is_dict contains].
    unfold has_key. rewrite Hu. rewrite bool_decide_eq_true_2 by eauto.
    cbn [getitem bind]. rewrite Hu. reflexivity.
Qed.

Section Stage.

Variable repr_container : pyval -> string.
Variable p : provider.
Variable output_dir : string.

Local Abbreviation gen := (generate_from_image repr_container p output_dir).

(** The way of an item whose job ends in a terminal answer at poll
    [k+1]. *)
Lemma item_after_terminal_answer (fs : files) image_path image prompt frame_id
    mode duration model_name task_id k response :
  fs !! image_path = Some image ->
  create_image_to_video_task p
    {| req_model_name := model_name; req_image := b64encode p image;
       req_prompt := prompt; req_mode := mode; req_duration := duration |}
    = Ok task_id ->
  (forall i, (i < k)%nat -> is_pending (request_status p task_id i) = true) ->
  request_status p task_id k = Ok response ->
  is_pending (Ok response) = false ->
  Z.of_nat k * 5 < 300 ->
  let lg := ([TaskCreated task_id] ++ run_events (request_status p task_id) 0 k)
            ++ (inspect_response response).2 in
  gen fs image_path prompt frame_id mode duration model_name
  = match (inspect_response response).1 with
    | Succeed completed_task =>
        match video_url_of completed_task with
        | Raise e => (None, fs, lg ++ [GenerateError e])
        | Ok None => (None, fs, lg ++ [NoVideo])
        | Ok (Some video_url) =>
            let output_path :=
              path_join output_dir (str repr_container frame_id +:+ ".mp4") in
            match Fetch.download (net p) fs video_url output_path with
            | (Ok _, fs') => (Some output_path, fs', lg ++ [Downloaded output_path])
            | (Raise e, fs') => (None, fs', lg ++ [GenerateError e])
            end
        end
    | _ => (None, fs, lg)
    end.
Proof.
  intros Hfs Hcreate Hp Hk Ht Hlt lg. unfold generate_from_image.
  rewrite Hfs, Hcreate. cbv zeta.
  rewrite (terminal_answer_ends_loop 300 5 _ k _ response Hp Hk Ht Hlt).
  cbn [exit log]. fold lg.
  destruct ((inspect_response response).1) as [data| |]; reflexivity.
Qed.


(** X13: a job that reports "failed", or "succeed" without a usable
    video URL, costs the item its video and leaves the disk as it was. *)
Theorem job_without_video_fails_item (fs : files) image_path image prompt
    frame_id mode duration model_name task_id k response :
  fs !! image_path = Some image ->
  create_image_to_video_task p
    {| req_model_name := model_name; req_image := b64encode p image;
       req_prompt := prompt; req_mode := mode; req_duration := duration |}
    = Ok task_id ->
  (forall i, (i < k)%nat -> is_pending (request_status p task_id i) = true) ->
  request_status p task_id k = Ok response ->
  Z.of_nat k * 5 < 300 ->
  ((inspect_response response).1 = Failed \/
   exists completed_task,
     (inspect_response response).1 = Succeed completed_task /\
     forall url, video_url_of completed_task <> Ok (Some url)) ->
  exists lg,
    gen fs image_path prompt frame_id mode duration model_name = (None, fs, lg).
Proof.
  intros Hfs Hcreate Hp Hk Hlt Hcase.
  assert (Ht : is_pending (Ok response) = false).
  { unfold is_pending. destruct Hcase as [->|(ct & -> & _)]; reflexivity. }
  rewrite (item_after_terminal_answer fs image_path image prompt frame_id mode
             duration model_name task_id k response Hfs Hcreate Hp Hk Ht Hlt).
  destruct Hcase as [->|(ct & -> & Hno)]; [eauto |].
  destruct (video_url_of ct) as [[url|]|e]; eauto.
  exfalso. exact (Hno url eq_refl).
Qed.

End Stage.


Lemma job_without_video_fails_item_witness :
  exists lg,
    generate_from_image Scenario.no_repr
      {| b64encode := fun s => s;
         create_image_to_video_task := fun _ => Ok "task-1";
         request_status := fun _ _ =>
           Ok (mkdict [("data", PDict (mkdict [("task_status", PStr "failed")]))]);
         enhance_prompt_with_dify := fun v => v;
         net := Scenario.serving "VIDEO" |}
      "videos" Scenario.disk_1 "images/frame_1.png" (PStr "a red kite")
      (PStr "frame_1") "std" "5" "kling-v1"
    = (None, Scenario.disk_1, lg).
Proof.
  eapply (job_without_video_fails_item Scenario.no_repr _ "videos" Scenario.disk_1
            "images/frame_1.png" "PNG" (PStr "a red kite") (PStr "frame_1")
            "std" "5" "kling-v1" "task-1" 0).
  - reflexivity.
  - reflexivity.
  - intros i Hi. lia.
  - reflexivity.
  - reflexivity.
  - left. reflexivity.
Defined.

End VideoMoreFacts.

(** ** Video stage: a batch and its files *)

Module VideoBatchMoreFacts.

Import VideoGenerator VideoGeneratorSpec StageSpec MoreSpec FilesMoreFacts.

Section Batch.

Variable repr_container : pyval -> string.
Variable p : provider.
Variable output_dir : string.
Variables mode duration model_name : string.
Variable use_dify : bool.

Local Abbreviation gen := (generate_from_image repr_container p output_dir).
Local Abbreviation run :=
  (process_from repr_container p output_dir mode duration model_name use_dify).

(** What a call of [generate_from_image] does to the disk and what it
    returns. *)
Lemma generate_from_image_effect (fs : files) image_path prompt frame_id res fs' lg :
  gen fs image_path prompt frame_id mode duration model_name = (res, fs', lg) ->
  (forall q, ~ has_suffix q ".mp4" -> fs' !! q = fs !! q) /\
  (forall q, is_Some (fs !! q) -> is_Some (fs' !! q)) /\
  (forall out, res = Some out -> out <> "" /\ is_Some (fs' !! out)).
Proof.
  intros H. apply FetchFacts.video_fetch_outcome in H. cbv zeta in H.
  set (path := path_join output_dir (str repr_container frame_id +:+ ".mp4")) in *.
  assert (Hsuf : has_suffix path ".mp4")
    by (apply path_join_suffix; eexists; reflexivity).
  destruct res as [out|].
  - destruct H as (-> & url & resp & _ & _ & ->). split; [| split].
    + intros q Hq. apply lookup_insert_ne. intros <-. exact (Hq Hsuf).
    + intros q Hq. destruct (decide (path = q)) as [<-|Hne];
        [rewrite lookup_insert_eq | rewrite lookup_insert_ne by exact Hne]; eauto.
    + intros out [= <-]. split; [apply path_join_nonempty |].
      rewrite lookup_insert_eq. eauto.
  - destruct H as [->|(url & resp & n & _ & _ & ->)].
    + repeat split; [auto | discriminate | discriminate].
    + split; [| split].
      * intros q Hq. apply lookup_insert_ne. intros <-. exact (Hq Hsuf).
      * intros q Hq. destruct (decide (path = q)) as [<-|Hne];
          [rewrite lookup_insert_eq | rewrite lookup_insert_ne by exact Hne]; eauto.
      * discriminate.
Qed.

(** A property of the disk and the results that every frame keeps is kept
    by the loop. *)
Lemma video_loop_invariant (P : files -> list dict -> Prop) :
  (forall fs results frame,
     P fs results ->
     truthy (get frame "image_path") = false ->
     P fs (results ++ [skipped_result (get frame "frame_id") frame])) ->
  (forall fs results frame path prompt video_path fs1 lg,
     P fs results ->
     get frame "image_path" = PStr path ->
     gen fs path prompt (get frame "frame_id") mode duration model_name
       = (video_path, fs1, lg) ->
     P fs1 (results ++ [result_of (get frame "frame_id") (PStr path) video_path
                          prompt frame])) ->
  forall frames fs results lg out fs' lg',
    run frames fs results lg = (Ok out, fs', lg') ->
    P fs results -> P fs' out.
Proof.
  intros Hskip Hstep frames.
  induction frames as [|frame rest IH]; intros fs results lg out fs' lg' H HP.
  - injection H as <- <- _. exact HP.
  - destruct frame as [| | | | |f]; try discriminate H.
    cbn [process_from] in H.
    destruct (truthy (get f "image_path")) eqn:Ht; cbn [negb] in H.
    + destruct (get f "image_path") as [| | |path| |] eqn:Hip; try discriminate H.
      destruct (generate_from_image _ _ _ _ _ _ _ _ _ _) as [[video_path fs1] l]
        eqn:Hg.
      apply IH in H; [exact H |]. eapply Hstep; eauto.
    + apply IH in H; [exact H |]. apply Hskip; assumption.
Qed.

(** Frames without an image are answered from the frames alone. *)
Lemma frames_without_image frames : forall (fs : files) results lg,
  Forall (fun f => truthy (get f "image_path") = false) frames ->
  run (map PDict frames) fs results lg
  = (Ok (results ++ map (fun f => skipped_result (get f "frame_id") f) frames),
     fs, lg ++ map (fun f => Skipping (get f "frame_id")) frames).
Proof.
  induction frames as [|f frames IH]; intros fs results lg H.
  - cbn [map process_from]. rewrite !app_nil_r. reflexivity.
  - inversion H as [|? ? Hf Hrest]; subst. cbn [map process_from].
    rewrite Hf. cbn [negb]. rewrite (IH _ _ _ Hrest), <- !app_assoc. reflexivity.
Qed.

End Batch.

(** X14: at the end of a batch of the video stage, every result with
    status "success" names a file that is on the disk. *)
Theorem video_success_paths_exist repr_container p output_dir frames (fs : files)
    model_name mode duration use_dify results fs' lg :
  process_frame_images repr_container p output_dir frames fs model_name mode
    duration use_dify = (Ok results, fs', lg) ->
  Forall (fun r => has_status r "success" = true ->
                   exists path, get r "video_path" = PStr path /\ path <> ""
                                /\ is_Some (fs' !! path)) results.
Proof.
  unfold process_frame_images. intros H.
  refine (video_loop_invariant repr_container p output_dir mode duration
            model_name use_dify
            (fun fs results =>
               Forall (fun r => has_status r "success" = true ->
                                exists path, get r "video_path" = PStr path
                                             /\ path <> ""
                                             /\ is_Some (fs !! path)) results)
            _ _ _ _ _ _ _ _ _ H _); [| | constructor].
  - intros fs0 results0 frame HP _. apply Forall_app. split; [exact HP |].
    constructor; [| constructor]. intros Hs. discriminate Hs.
  - intros fs0 results0 frame path prompt video_path fs1 lg0 HP _ Hg.
    apply generate_from_image_effect in Hg as (_ & Hkeep & Hnew).
    apply Forall_app. split.
    + eapply Forall_impl; [exact HP |]. cbn beta.
      intros r Hr Hs. destruct (Hr Hs) as (q & Hq & Hne & Hin).
      exists q. auto.
    + constructor; [| constructor]. intros Hs.
      destruct video_path as [out|]; [| discriminate Hs].
      destruct (Hnew out eq_refl) as [Hne Hin]. exists out. auto.
Qed.

Lemma video_success_paths_exist_witness :
  Forall (fun r => has_status r "success" = true ->
                   exists path, get r "video_path" = PStr path /\ path <> ""
                                /\ is_Some ((<["videos/frame_1.mp4" := "VIDEO"]>
                                               Scenario.disk_1 : files) !! path))
    [result_of (PStr "frame_1") (PStr "images/frame_1.png")
       (Some "videos/frame_1.mp4") (PStr "a red kite") Scenario.frame_1].
Proof.
  refine (video_success_paths_exist Scenario.no_repr (Scenario.steady "VIDEO")
            "videos" [PDict Scenario.frame_1] Scenario.disk_1 "kling-v1" "std" "5"
            false _ _
            (process_frame_images Scenario.no_repr (Scenario.steady "VIDEO")
               "videos" [PDict Scenario.frame_1] Scenario.disk_1 "kling-v1" "std"
               "5" false).2 _).
  vm_compute. reflexivity.
Defined.

(** X15: a batch of the video stage touches no file whose name does not
    end in ".mp4", and removes none: the images it reads stay as they
    are. *)
Theorem video_stage_writes_mp4_only repr_container p output_dir frames (fs : files)
    model_name mode duration use_dify results fs' lg :
  process_frame_images repr_container p output_dir frames fs model_name mode
    duration use_dify = (Ok results, fs', lg) ->
  (forall q, ~ has_suffix q ".mp4" -> fs' !! q = fs !! q) /\
  (forall q, is_Some (fs !! q) -> is_Some (fs' !! q)).
Proof.
  unfold process_frame_images. intros H.
  refine (video_loop_invariant repr_container p output_dir mode duration
            model_name use_dify
            (fun fs1 _ =>
               (forall q, ~ has_suffix q ".mp4" -> fs1 !! q = fs !! q) /\
               (forall q, is_Some (fs !! q) -> is_Some (fs1 !! q)))
            _ _ _ _ _ _ _ _ _ H _); [| | split; auto].
  - intros fs0 results0 frame HP _. exact HP.
  - intros fs0 results0 frame path prompt video_path fs1 lg0 [HP1 HP2] _ Hg.
    apply generate_from_image_effect in Hg as (Hframe & Hkeep & _). split.
    + intros q Hq. rewrite (Hframe q Hq). apply HP1. exact Hq.
    + intros q Hq. apply Hkeep, HP2, Hq.
Qed.

Lemma video_stage_writes_mp4_only_witness :
  (<["videos/frame_1.mp4" := "VIDEO"]> Scenario.disk_1 : files)
    !! "images/frame_1.png"
  = Scenario.disk_1 !! "images/frame_1.png".
Proof.
  refine (proj1 (video_stage_writes_mp4_only Scenario.no_repr
            (Scenario.steady "VIDEO") "videos" [PDict Scenario.frame_1]
            Scenario.disk_1 "kling-v1" "std" "5" false
            [result_of (PStr "frame_1") (PStr "images/frame_1.png")
               (Some "videos/frame_1.mp4") (PStr "a red kite") Scenario.frame_1]
            _
            (process_frame_images Scenario.no_repr (Scenario.steady "VIDEO")
               "videos" [PDict Scenario.frame_1] Scenario.disk_1 "kling-v1" "std"
               "5" false).2 _) "images/frame_1.png" _).
  - vm_compute. reflexivity.
  - refute_suffix.
Defined.

(** X16: frames without an image path cost nothing: whatever the
    provider, each is answered with a "skipped" result, the disk stays as
    it is, and the log holds the skips only (no task is created). *)
Theorem frames_without_image_are_skipped repr_container p output_dir
    (frames : list dict) (fs : files) model_name mode duration use_dify :
  Forall (fun f => truthy (get f "image_path") = false) frames ->
  process_frame_images repr_container p output_dir (map PDict frames) fs
    model_name mode duration use_dify
  = (Ok (map (fun f => skipped_result (get f "frame_id") f) frames), fs,
     map (fun f => Skipping (get f "frame_id")) frames).
Proof.
  intros H. unfold process_frame_images.
  rewrite (frames_without_image _ _ _ _ _ _ _ _ _ _ _ H). reflexivity.
Qed.

Lemma frames_without_image_are_skipped_witness :
  process_frame_images Scenario.no_repr Scenario.flaky "videos"
    (map PDict [mkdict [("frame_id", PStr "frame_3"); ("image_path", PNone)]])
    Scenario.disk_1 "kling-v1" "std" "5" false
  = (Ok [skipped_result (PStr "frame_3")
           (mkdict [("frame_id", PStr "frame_3"); ("image_path", PNone)])],
     Scenario.disk_1, [Skipping (PStr "frame_3")]).
Proof.
  apply (frames_without_image_are_skipped Scenario.no_repr Scenario.flaky "videos"
           [mkdict [("frame_id", PStr "frame_3"); ("image_path", PNone)]]).
  repeat constructor.
Defined.

End VideoBatchMoreFacts.

(** ** From stage to stage *)

Module PipelineFacts.

Import StageSpec MoreSpec KeyframeParserSpec.

Lemma typed_keyframe_is_image_input kf :
  keyframe_typed kf = true ->
  image_input_ok (PDict (KeyframeParser.to_dict kf)) = true.
Proof.
  destruct kf as [pr np fn ts ar sd]. unfold keyframe_typed, image_input_ok.
  cbn [KeyframeParser.prompt]. intros H.
  repeat (apply andb_true_iff in H as [H ?]).
  change (get_default (KeyframeParser.to_dict
            {| KeyframeParser.prompt := pr; KeyframeParser.negative_prompt := np;
               KeyframeParser.frame_number := fn; KeyframeParser.timestamp := ts;
               KeyframeParser.aspect_ratio := ar; KeyframeParser.seed := sd |})
            "prompt" (PStr "")) with pr.
  destruct pr; try discriminate H. reflexivity.
Qed.

(** X17: what the parser answers is what the image stage takes. For a
    file that can be read, the image stage, whatever its provider, either
    rejects the answer with "No keyframes provided in input message" (no
    block of the file has a prompt) or returns one frame per keyframe, with
    the item ids made from the prefix the parser was given. *)
Theorem parser_answer_feeds_image_stage repr_container p output_dir model_name
    (fs disk : files) (message : dict) (path text : string) :
  get message "keyframes_file" = PStr path -> path <> "" ->
  fs !! path = Some text ->
  let out := KeyframeParser.process_input_message fs message in
  let kept := KeyframeParser.parse_lines (Text.readlines text) [] ∅ in
  let keyframes := map (fun kf => PDict (KeyframeParser.to_dict kf)) kept in
  let answer := (ImageGenerator.process_input_message repr_container p output_dir
                   model_name disk out).1 in
  (kept = [] ->
   answer = mkdict [("status", PStr "error");
                    ("error", PStr "No keyframes provided in input message")]) /\
  (kept <> [] ->
   answer !! "status" = Some (PStr "success") /\
   answer !! "count" = Some (PInt (len kept)) /\
   exists results,
     answer !! "frames" = Some (PList (map PDict results)) /\
     map item_id results
     = image_input_ids repr_container
         (get_default message "frame_id_prefix" (PStr "frame_")) 0 keyframes).
Proof.
  intros Hfile Hpath Hfs out kept keyframes answer.
  assert (Hout : out
    = mkdict [("status", PStr "success");
              ("keyframes", PList keyframes);
              ("count", PInt (len keyframes));
              ("metadata", PDict (mkdict [
                  ("source_file", PStr path);
                  ("default_aspect_ratio",
                   get_default message "default_aspect_ratio" (PStr "16:9"));
                  ("frame_id_prefix",
                   get_default message "frame_id_prefix" (PStr "frame_"))]))]).
  { subst out. unfold KeyframeParser.process_input_message.
    rewrite Hfile. cbn [truthy].
    destruct (String.eqb_spec path "") as [->|_]; [contradiction |].
    cbn [negb KeyframeParser.as_path bind].
    unfold KeyframeParser.parse_keyframe_file. rewrite Hfs. reflexivity. }
  subst answer. rewrite Hout. unfold ImageGenerator.process_input_message.
  set (o := mkdict _).
  assert (Hp : ImageGenerator.prefix_of o
               = Ok (get_default message "frame_id_prefix" (PStr "frame_")))
    by reflexivity.
  assert (Hk : get_default o "keyframes" (PList []) = PList keyframes)
    by reflexivity.
  rewrite Hp, Hk. clear Hp Hk o Hout out.
  assert (Hok : forallb image_input_ok keyframes = true).
  { subst keyframes. pose proof (ParserMoreFacts.parse_lines_typed
                                   (Text.readlines text)) as Ht.
    fold kept in Ht. induction Ht as [|kf l Hkf _ IH]; [reflexivity |].
    cbn [map forallb]. rewrite (typed_keyframe_is_image_input kf Hkf). exact IH. }
  split.
  - intros Hempty. subst keyframes. rewrite Hempty. reflexivity.
  - intros Hne.
    assert (Htr : truthy (PList keyframes) = true).
    { subst keyframes. destruct kept; [contradiction | reflexivity]. }
    rewrite Htr. cbn [negb].
    destruct (ImageBatchFacts.image_loop_returns repr_container p output_dir
                model_name (get_default message "frame_id_prefix" (PStr "frame_"))
                keyframes 0%nat disk [] Hok) as (results & fs' & Hrun).
    unfold ImageGenerator.process_keyframes. rewrite Hrun. cbn [fst].
    apply ImageBatchFacts.image_loop_results in Hrun as (new & -> & Hnew).
    cbn [app].
    pose proof (ImageBatchFacts.image_results_length _ _ _ _ _ Hnew) as Hlen.
    pose proof (ImageBatchFacts.image_results_ids _ _ _ _ _ Hnew) as Hids.
    split; [reflexivity |]. split.
    + unfold len. rewrite Hlen. subst keyframes. rewrite length_map. reflexivity.
    + exists new. split; [reflexivity | exact Hids].
Qed.

Lemma parser_answer_feeds_image_stage_witness :
  let out := KeyframeParser.process_input_message Scenario.keyframe_disk
               (mkdict [("keyframes_file", PStr "keyframes.txt")]) in
  let answer := (ImageGenerator.process_input_message Scenario.no_repr
                   Scenario.unreachable "images" "kling-v1-5" ∅ out).1 in
  answer !! "status" = Some (PStr "success").
Proof.
  intros out answer.
  destruct (parser_answer_feeds_image_stage Scenario.no_repr Scenario.unreachable
              "images" "kling-v1-5" Scenario.keyframe_disk ∅
              (mkdict [("keyframes_file", PStr "keyframes.txt")])
              "keyframes.txt" Scenario.keyframe_text) as [_ H].
  - reflexivity.
  - discriminate.
  - reflexivity.
  - apply H. vm_compute. discriminate.
Defined.

(** What the video stage needs of a frame the image stage made. *)
Lemma image_results_are_video_input repr_container p output_dir keyframes
    (fs : files) model_name frame_id_prefix results fs' :
  ImageGenerator.process_keyframes repr_container p output_dir keyframes fs
    model_name frame_id_prefix = (Ok results, fs') ->
  Forall (fun r =>
            (get r "image_path" = PNone /\ has_status r "failed" = true) \/
            (exists path, path <> "" /\ get r "image_path" = PStr path
                          /\ has_status r "success" = true)) results.
Proof.
  unfold ImageGenerator.process_keyframes. intros H.
  refine (ImageMoreFacts.image_loop_invariant repr_container p output_dir
            model_name frame_id_prefix
            (fun _ results =>
               Forall (fun r =>
                  (get r "image_path" = PNone /\ has_status r "failed" = true) \/
                  (exists path, path <> "" /\ get r "image_path" = PStr path
                                /\ has_status r "success" = true)) results)
            _ _ _ _ _ _ _ H _); [| constructor].
  intros fs0 results0 idx d image_path fs1 HP Hg.
  apply ImageMoreFacts.generate_effect in Hg as (_ & _ & Hnew).
  apply Forall_app. split; [exact HP |]. constructor; [| constructor].
  destruct image_path as [out|].
  - right. exists out. destruct (Hnew out eq_refl) as [Hne _]. auto.
  - left. split; reflexivity.
Qed.

(** X18: what the image stage returns is what the video stage takes. On
    the results of any batch of the image stage the video stage returns,
    whatever its provider, one result per frame under the same item id: a
    "skipped" one for a frame whose image failed, a "success" or "failed"
    one for a frame with an image. *)
Theorem image_results_feed_video_stage repr_i p_i dir_i keyframes (fs : files)
    model_i frame_id_prefix results fs1 repr_v p_v dir_v model_v mode duration
    use_dify :
  ImageGenerator.process_keyframes repr_i p_i dir_i keyframes fs model_i
    frame_id_prefix = (Ok results, fs1) ->
  exists videos fs2 lg,
    VideoGenerator.process_frame_images repr_v p_v dir_v (map PDict results) fs1
      model_v mode duration use_dify = (Ok videos, fs2, lg) /\
    Forall2 (fun r v =>
               item_id v = item_id r /\
               (has_status r "failed" = true -> has_status v "skipped" = true) /\
               (has_status r "success" = true -> has_status v "skipped" = false))
      results videos.
Proof.
  intros H. apply image_results_are_video_input in H.
  assert (Hok : forallb video_input_ok (map PDict results) = true).
  { induction H as [|r rs Hr _ IH]; [reflexivity |].
    cbn [map forallb]. rewrite IH, andb_true_r. unfold video_input_ok.
    destruct Hr as [[-> _]|(path & _ & -> & _)]; reflexivity. }
  destruct (VideoBatchFacts.video_loop_returns repr_v p_v dir_v mode duration
              model_v use_dify (map PDict results) fs1 [] [] Hok)
    as (videos & fs2 & lg & Hrun).
  exists videos, fs2, lg. split; [exact Hrun |].
  apply VideoBatchFacts.video_loop_results in Hrun as (new & -> & Hnew).
  cbn [app]. clear Hok. revert new Hnew.
  induction H as [|r rs Hr _ IH]; intros new Hnew.
  - inversion Hnew. constructor.
  - cbn [map] in Hnew. inversion Hnew as [|? v ? new' Hv Hrest]; subst.
    constructor; [| apply IH; exact Hrest].
    pose proof (VideoBatchFacts.video_result_id _ _ Hv) as Hid.
    destruct Hv as (f & [= <-] & Hcase). split; [exact Hid |].
    destruct Hr as [[Hip Hst]|(path & Hne & Hip & Hst)];
      destruct Hcase as [[Ht ->]|[Ht (vp & pr & ->)]].
    + split; [reflexivity |]. intros Hs. unfold has_status in *.
      destruct (get r "status"); try discriminate.
      apply String.eqb_eq in Hst, Hs. congruence.
    + rewrite Hip in Ht. discriminate Ht.
    + rewrite Hip in Ht. cbn in Ht. destruct path; [contradiction | discriminate].
    + split; [| intros _; destruct vp; reflexivity].
      intros Hf. unfold has_status in *.
      destruct (get r "status"); try discriminate.
      apply String.eqb_eq in Hst, Hf. congruence.
Qed.

Lemma image_results_feed_video_stage_witness :
  exists videos fs2 lg,
    VideoGenerator.process_frame_images Scenario.no_repr Scenario.flaky "videos"
      (map PDict
         [ImageGenerator.result_of "frame_1" (PInt 1) (PStr "dusk") None
            Scenario.keyframe_unnumbered])
      ∅ "kling-v1" "std" "5" false = (Ok videos, fs2, lg) /\
    Forall2 (fun r v =>
               item_id v = item_id r /\
               (has_status r "failed" = true -> has_status v "skipped" = true) /\
               (has_status r "success" = true -> has_status v "skipped" = false))
      [ImageGenerator.result_of "frame_1" (PInt 1) (PStr "dusk") None
         Scenario.keyframe_unnumbered] videos.
Proof.
  apply (image_results_feed_video_stage Scenario.no_repr Scenario.unreachable
           "images" [PDict Scenario.keyframe_unnumbered] ∅ "kling-v1-5"
           (PStr "frame_")).
  vm_compute. reflexivity.
Defined.

End PipelineFacts.

(** ** Result logger: the answer and the report *)

Module LoggerMoreFacts.

Import ResultLogger ResultLoggerSpec ResultLoggerFacts MoreSpec.

Section Logger.

Variable repr_container : pyval -> string.
Variable output_dir : string.







(** X21: whatever the logger is sent, its answer has a status: "success",
    or "error" together with an error text. *)
Theorem logger_answers_have_status (now : clock) (fs : store)
    (parsed : outcome pyval) :
  let out := (main repr_container output_dir now fs parsed).1 in
  out !! "status" = Some (PStr "success") \/
  (out !! "status" = Some (PStr "error") /\ exists e, out !! "error" = Some (PStr e)).
Proof.
  intros out. subst out. unfold main.
  destruct parsed as [[| | | | |message]|e];
    try (right; split; [reflexivity | eexists; reflexivity]).
  destruct (split_input message) as [[video_message music_message]|e];
    [| right; split; [reflexivity | eexists; reflexivity]].
  unfold process_input_messages.
  destruct (iterable_results _) as [results|e];
    [| right; split; [reflexivity | eexists; reflexivity]].
  destruct (log_results_on _ _ _ _ _ _ _ _) as [[log_file|e] fs'].
  - left. reflexivity.
  - right. split; [reflexivity | eexists; reflexivity].
Qed.

End Logger.



End LoggerMoreFacts.

(** ** Configuration from the environment *)

Module ConfigFacts.

Import MoreSpec.






End ConfigFacts.

(** ** Music stage *)

Module MusicFacts.

Import MusicGenerator MoreSpec.

(** The answer of [process_music_request] once the configuration is
    loaded. *)
Lemma music_request_answer env b (message : dict) out :
  process_music_request env b message = Ok out ->
  exists duration,
    Environ.int_setting env "DEFAULT_DURATION" "180" = Ok duration /\
    let prompt := if negb (truthy (get message "music_prompt"))
                  then PStr default_prompt else get message "music_prompt" in
    let filename := get_default message "music_filename" (PStr "background_music") in
    let format := Environ.getenv_default env "DEFAULT_FORMAT" "mp3" in
    out = match generate b (Environ.getenv env "BEATOVEN_API_KEY")
                  (Environ.getenv_default env "BEATOVEN_OUTPUT_DIR"
                     "workflow/outputs/music")
                  prompt duration format filename with
          | None =>
              mkdict [("status", PStr "error");
                      ("error", PStr "Failed to generate music");
                      ("metadata", PDict (mkdict [
                          ("prompt", prompt); ("filename", filename)]))]
          | Some music_path =>
              mkdict [("status", PStr "success");
                      ("music_path", PStr music_path);
                      ("metadata", PDict (mkdict [
                          ("prompt", prompt);
                          ("format", PStr format);
                          ("duration", PInt duration);
                          ("filename", filename)]))]
          end.
Proof.
  unfold process_music_request, load_beatoven_config.
  destruct (Environ.int_setting env "DEFAULT_DURATION" "180") as [d|e];
    cbn [bind]; [| discriminate].
  destruct (Environ.int_setting env "POLLING_INTERVAL" "5"); cbn [bind];
    [| discriminate].
  destruct (Environ.int_setting env "REQUEST_TIMEOUT" "30"); cbn [bind];
    [| discriminate].
  destruct (Environ.int_setting env "DOWNLOAD_TIMEOUT" "60"); cbn [bind];
    [| discriminate].
  cbn [fst].
  change (get (mkdict _) "api_key") with (Environ.getenv env "BEATOVEN_API_KEY").
  intros H. exists d. split; [reflexivity |]. cbv zeta.
  destruct (generate _ _ _ _ _ _ _); injection H as <-; reflexivity.
Qed.

(** X23: whatever the music stage is sent, its answer has a status:
    "success" with the path of the audio file, or "error" with an error
    text. *)
Theorem music_answers_have_status (env : Environ.environ) (b : beatoven)
    (parsed : outcome pyval) :
  let out := main_async env b parsed in
  (out !! "status" = Some (PStr "success") /\
   exists path, out !! "music_path" = Some (PStr path)) \/
  (out !! "status" = Some (PStr "error") /\ exists e, out !! "error" = Some (PStr e)).
Proof.
  intros out. subst out. unfold main_async.
  destruct parsed as [[| | | | |message]|e];
    try (right; split; [reflexivity | eexists; reflexivity]).
  unfold process_input_message.
  destruct (process_music_request env b _) as [out|e] eqn:Hreq;
    [| right; split; [reflexivity | eexists; reflexivity]].
  apply music_request_answer in Hreq as (d & _ & ->). cbv zeta.
  destruct (generate _ _ _ _ _ _ _) as [path|].
  - left. split; [reflexivity | eexists; reflexivity].
  - right. split; [reflexivity | eexists; reflexivity].
Qed.

(** X24: without the Beatoven package, or without an API key in the
    environment and in the package settings, the client is not asked: the
    answer is the same for every client, and it is the error "Failed to
    generate music". *)
Theorem music_needs_package_and_key (env : Environ.environ) (b : beatoven)
    (message : dict) :
  available b = false \/
  (truthy (Environ.getenv env "BEATOVEN_API_KEY") = false /\
   truthy (settings_api_key b) = false) ->
  (forall g, process_input_message env (with_client b g) message
             = process_input_message env b message) /\
  (forall out, process_input_message env b message = Ok out ->
     out !! "status" = Some (PStr "error") /\
     out !! "error" = Some (PStr "Failed to generate music")).
Proof.
  intros Hcase.
  assert (Hgen : forall g api_dir prompt duration format filename,
            generate (with_client b g) (Environ.getenv env "BEATOVEN_API_KEY")
              api_dir prompt duration format filename = None).
  { intros. unfold generate, api_key_in_use, with_client.
    cbn [available settings_api_key].
    destruct Hcase as [->|[-> ->]]; [reflexivity |].
    destruct (available b); reflexivity. }
  assert (Hb : forall api_dir prompt duration format filename,
            generate b (Environ.getenv env "BEATOVEN_API_KEY")
              api_dir prompt duration format filename = None).
  { intros. unfold generate, api_key_in_use.
    destruct Hcase as [->|[-> ->]]; [reflexivity |].
    destruct (available b); reflexivity. }
  split.
  - intros g. unfold process_input_message, process_music_request,
      load_beatoven_config.
    destruct (Environ.int_setting env "DEFAULT_DURATION" "180") as [d|e];
      cbn [bind]; [| reflexivity].
    destruct (Environ.int_setting env "POLLING_INTERVAL" "5"); cbn [bind];
      [| reflexivity].
    destruct (Environ.int_setting env "REQUEST_TIMEOUT" "30"); cbn [bind];
      [| reflexivity].
    destruct (Environ.int_setting env "DOWNLOAD_TIMEOUT" "60"); cbn [bind];
      [| reflexivity].
    cbn [fst].
    change (get (mkdict [("api_key", _); _; _; _; _; _; _; _; _]) "api_key")
      with (Environ.getenv env "BEATOVEN_API_KEY").
    rewrite Hgen, Hb. reflexivity.
  - intros out H. unfold process_input_message in H.
    apply music_request_answer in H as (d & _ & ->). cbv zeta.
    rewrite Hb. split; reflexivity.
Qed.

Lemma music_needs_package_and_key_witness :
  let b := {| available := true; settings_api_key := PNone;
              generate_music := fun _ => Ok "workflow/outputs/music/background_music.mp3" |} in
  process_input_message ∅ (with_client b (fun _ => Raise "ConnectionError")) ∅
  = process_input_message ∅ b ∅.
Proof.
  intros b.
  exact (proj1 (music_needs_package_and_key ∅ b ∅
                  (or_intror (conj eq_refl eq_refl))) _).
Defined.

(** X25: a message without a music prompt (absent, null or empty) is
    answered as the same message with the default prompt is. *)
Theorem missing_music_prompt_gets_default (env : Environ.environ) (b : beatoven)
    (message : dict) :
  truthy (get message "music_prompt") = false ->
  process_input_message env b message
  = process_input_message env b (<["music_prompt" := PStr default_prompt]> message).
Proof.
  intros Hp. unfold process_input_message, process_music_request.
  assert (Hf : get_default (<["music_prompt" := PStr default_prompt]> message)
                 "music_filename" (PStr "background_music")
               = get_default message "music_filename" (PStr "background_music")).
  { unfold get_default. rewrite lookup_insert_ne by discriminate. reflexivity. }
  assert (Hg : get (<["music_prompt" := PStr default_prompt]> message) "music_prompt"
               = PStr default_prompt).
  { unfold get. rewrite lookup_insert_eq. reflexivity. }
  rewrite Hf, Hg.
  change (get (mkdict [("music_prompt", ?v); _]) "music_prompt") with v.
  change (get_default (mkdict [_; ("music_filename", ?v)]) "music_filename" _) with v.
  rewrite Hp. reflexivity.
Qed.

Lemma missing_music_prompt_gets_default_witness :
  let b := {| available := true; settings_api_key := PStr "key";
              generate_music := fun _ => Ok "workflow/outputs/music/background_music.mp3" |} in
  process_input_message ∅ b (mkdict [("music_prompt", PStr "")])
  = process_input_message ∅ b
      (<["music_prompt" := PStr default_prompt]> (mkdict [("music_prompt", PStr "")])).
Proof.
  intros b. apply missing_music_prompt_gets_default. reflexivity.
Defined.

End MusicFacts.
